(** * MoviePilot, plugin [NAStoolSync]: import of NAStool history

    A shallow embedding of [app/plugins/nastoolsync/__init__.py]:
    the three importers [sync_transfer_history], [sync_plugin_history]
    and [sync_download_history], the three extraction queries, the
    coordinator [init_plugin] and [get_state], together with the pieces
    of the Python runtime they rely on ([str.split], [str.replace],
    [str.isdigit], [int], [os.path.basename], [json.loads]).

    Texts are [string]s of 8-bit characters: the UTF-8 bytes of the
    Python text.  Separators are ASCII characters, so splitting and
    searching go byte by byte; what Python does character by character
    ([str.isdigit], [int], [s.replace("", new)], a loop over a text)
    goes through the code points. *)

From Stdlib Require Import String Ascii List NArith ZArith Lia Bool DecimalString.
Import ListNotations.
Open Scope string_scope.

(** ** Python exceptions and results *)

Inductive exn : Type :=
| JSONDecodeError
| AttributeError
| TypeError
| IndexError
| ValueError
| OperationalError
| IntegrityError
| OverflowError.

Inductive result (A : Type) : Type :=
| Ok (a : A)
| Raise (e : exn).
Arguments Ok {A} a.
Arguments Raise {A} e.

Definition rbind {A B : Type} (r : result A) (k : A -> result B) : result B :=
  match r with
  | Ok a => k a
  | Raise e => Raise e
  end.

Declare Scope res_scope.
Delimit Scope res_scope with res.
Notation "'let?' x ':=' r 'in' k" := (rbind r (fun x => k))
  (at level 10, x pattern, r at level 100, k at level 200) : res_scope.

Fixpoint rmap {A B : Type} (f : A -> result B) (l : list A) : result (list B) :=
  match l with
  | [] => Ok []
  | a :: l' =>
      match f a with
      | Raise e => Raise e
      | Ok b =>
          match rmap f l' with
          | Raise e => Raise e
          | Ok bs => Ok (b :: bs)
          end
      end
  end.

(** Left-to-right loop [for x in l: acc = body(acc, x)]; the first
    exception ends the loop. *)
Fixpoint rfold {A B : Type} (body : A -> B -> result A) (l : list B) (acc : A)
  : result A :=
  match l with
  | [] => Ok acc
  | b :: l' =>
      match body acc b with
      | Raise e => Raise e
      | Ok acc' => rfold body l' acc'
      end
  end.

(** ** Python strings *)

Module PyStr.

(** [s.split(sep)] for a one-character separator: never an empty list. *)
Fixpoint split (sep : ascii) (s : string) : list string :=
  match s with
  | EmptyString => [EmptyString]
  | String c r =>
      if Ascii.eqb c sep then EmptyString :: split sep r
      else match split sep r with
           | p :: ps => String c p :: ps
           | [] => [String c EmptyString]
           end
  end.

(** [l[i]]: [IndexError] out of range. *)
Definition item {A : Type} (l : list A) (i : nat) : result A :=
  match nth_error l i with
  | Some a => Ok a
  | None => Raise IndexError
  end.

(** The second and later bytes of a character beyond ASCII. *)
Definition is_continuation (c : ascii) : bool :=
  let n := nat_of_ascii c in (128 <=? n)%nat && (n <? 192)%nat.

(** The characters of a text, each with all its bytes. *)
Fixpoint chars (s : string) : list string :=
  match s with
  | EmptyString => []
  | String c r =>
      match r with
      | EmptyString => [String c EmptyString]
      | String d _ =>
          if is_continuation d
          then match chars r with
               | h :: t => String c h :: t
               | [] => [String c EmptyString]
               end
          else String c EmptyString :: chars r
      end
  end.

(** [s.replace("", new)]: [new] before every character and at the end. *)
Fixpoint interleave (new s : string) : string :=
  match s with
  | EmptyString => new
  | String c r =>
      if is_continuation c then String c (interleave new r)
      else new ++ String c (interleave new r)
  end.

(** Scan for a non-empty [old], left to right; after a match the next
    [length old - 1] characters belong to it and are skipped. *)
Fixpoint replace_scan (old new : string) (skip : nat) (s : string) : string :=
  match s with
  | EmptyString => EmptyString
  | String c r =>
      match skip with
      | S k => replace_scan old new k r
      | O =>
          if prefix old s
          then new ++ replace_scan old new (String.length old - 1) r
          else String c (replace_scan old new 0 r)
      end
  end.

(** [s.replace(old, new)]: every non-overlapping occurrence, leftmost
    first. *)
Definition replace (old new s : string) : string :=
  match old with
  | EmptyString => interleave new s
  | String _ _ => replace_scan old new 0 s
  end.

Definition is_digit (c : ascii) : bool :=
  let n := nat_of_ascii c in (48 <=? n)%nat && (n <=? 57)%nat.

(** The code points of a text, from its UTF-8 bytes: [need] further
    bytes are due for the code point gathered in [acc].  [None] when the
    bytes are not the encoding of a text. *)
Fixpoint code_points_go (need : nat) (acc : N) (s : string) : option (list N) :=
  match s with
  | EmptyString =>
      match need with
      | O => Some []
      | S _ => None
      end
  | String b r =>
      let n := N_of_ascii b in
      match need with
      | O =>
          if (n <? 128)%N then option_map (cons n) (code_points_go 0 0 r)
          else if (n <? 192)%N then None
          else if (n <? 224)%N then code_points_go 1 (n - 192) r
          else if (n <? 240)%N then code_points_go 2 (n - 224) r
          else if (n <? 248)%N then code_points_go 3 (n - 240) r
          else None
      | S k =>
          if (128 <=? n)%N && (n <? 192)%N then
            let acc' := (acc * 64 + (n - 128))%N in
            match k with
            | O => option_map (cons acc') (code_points_go 0 0 r)
            | S _ => code_points_go k acc' r
            end
          else None
      end
  end.

Definition code_points (s : string) : option (list N) := code_points_go 0 0 s.

(** The decimal digits of Unicode 14.0 (general category Nd), which
    CPython 3.11 carries: they come in runs of ten, each from the zero of
    a script to its nine.  The zeros: *)
Definition decimal_zeros : list N :=
  [
    48; 1632; 1776; 1984; 2406; 2534; 2662; 2790;
    2918; 3046; 3174; 3302; 3430; 3558; 3664; 3792;
    3872; 4160; 4240; 6112; 6160; 6470; 6608; 6784;
    6800; 6992; 7088; 7232; 7248; 42528; 43216; 43264;
    43472; 43504; 43600; 44016; 65296; 66720; 68912; 69734;
    69872; 69942; 70096; 70384; 70736; 70864; 71248; 71360;
    71472; 71904; 72016; 72784; 73040; 73120; 92768; 92864;
    93008; 120782; 120792; 120802; 120812; 120822; 123200; 123632;
    125264; 130032
  ]%N.

(** The other characters with a digit value (superscripts, subscripts,
    circled digits and the like), as ranges of code points. *)
Definition other_digits : list (N * N) :=
  [
    (178, 179); (185, 185); (4969, 4977); (6618, 6618);
    (8304, 8304); (8308, 8313); (8320, 8329); (9312, 9320);
    (9332, 9340); (9352, 9360); (9450, 9450); (9461, 9469);
    (9471, 9471); (10102, 10110); (10112, 10120); (10122, 10130);
    (68160, 68163); (69216, 69224); (69714, 69722); (127232, 127242)
  ]%N.

(** The white space beyond ASCII. *)
Definition unicode_spaces : list N :=
  [
    133; 160; 5760; 8192; 8193; 8194; 8195; 8196;
    8197; 8198; 8199; 8200; 8201; 8202; 8232; 8233;
    8239; 8287; 12288
  ]%N.

(** The value of a decimal digit. *)
Definition decimal_value (cp : N) : option N :=
  match find (fun z => (z <=? cp)%N && (cp <? z + 10)%N) decimal_zeros with
  | Some z => Some (cp - z)%N
  | None => None
  end.

(** One character of a text that [isdigit] accepts. *)
Definition is_digit_point (cp : N) : bool :=
  match decimal_value cp with
  | Some _ => true
  | None => existsb (fun r => (fst r <=? cp)%N && (cp <=? snd r)%N) other_digits
  end.

(** [s.isdigit()]: at least one character, and all of them digits. *)
Definition isdigit (s : string) : bool :=
  match code_points s with
  | Some (cp :: cps) => forallb is_digit_point (cp :: cps)
  | _ => false
  end.

Definition digit_val (c : ascii) : Z := Z.of_nat (nat_of_ascii c) - 48.

(** [int] reads a text through its ASCII form: a character below 127
    stands for itself, white space beyond it for a space, a decimal
    digit for the ASCII digit of its value, and anything else for a
    question mark, which no literal contains. *)
Definition to_ascii (cp : N) : ascii :=
  if (cp <? 127)%N then ascii_of_N cp
  else if existsb (N.eqb cp) unicode_spaces then " "%char
  else match decimal_value cp with
       | Some d => ascii_of_N (48 + d)
       | None => "?"%char
       end.

(** White space around a literal, in its ASCII form. *)
Definition is_space (c : ascii) : bool :=
  let n := nat_of_ascii c in
  ((9 <=? n)%nat && (n <=? 13)%nat) || (n =? 32)%nat.

Fixpoint lstrip (s : string) : string :=
  match s with
  | EmptyString => EmptyString
  | String c r => if is_space c then lstrip r else s
  end.

Fixpoint rstrip (s : string) : string :=
  match s with
  | EmptyString => EmptyString
  | String c r =>
      match rstrip r with
      | EmptyString => if is_space c then EmptyString else String c EmptyString
      | r' => String c r'
      end
  end.

(** Digits of an integer literal, single underscores allowed between
    digits; [prev] tells whether the previous character was a digit. *)
Fixpoint int_digits (acc : Z) (prev : bool) (s : string) : option Z :=
  match s with
  | EmptyString => if prev then Some acc else None
  | String c r =>
      if is_digit c then int_digits (10 * acc + digit_val c) true r
      else if Ascii.eqb c "_"
           then (if prev then int_digits acc false r else None)
           else None
  end.

Fixpoint digit_count (s : string) : nat :=
  match s with
  | EmptyString => O
  | String c r => if is_digit c then S (digit_count r) else digit_count r
  end.

(** [sys.int_info.default_max_str_digits] *)
Definition max_str_digits : nat := 4300.

(** [int(s)] for a text [s], base 10: [ValueError] when [s] is not an
    integer literal, and when the literal has more than
    [max_str_digits] digits. *)
Definition int (s : string) : result Z :=
  match code_points s with
  | None => Raise ValueError
  | Some cps =>
      let t := rstrip (lstrip (string_of_list_ascii (map to_ascii cps))) in
      let signed :=
        match t with
        | String "-" r => option_map Z.opp (int_digits 0 false r)
        | String "+" r => int_digits 0 false r
        | _ => int_digits 0 false t
        end in
      match signed with
      | Some z =>
          if (max_str_digits <? digit_count t)%nat then Raise ValueError
          else Ok z
      | None => Raise ValueError
      end
  end.

(** [os.path.basename(p)] of [posixpath]: what follows the last ['/']. *)
Fixpoint basename_from (acc s : string) : string :=
  match s with
  | EmptyString => acc
  | String c r =>
      if Ascii.eqb c "/" then basename_from EmptyString r
      else basename_from (acc ++ String c EmptyString) r
  end.

Definition basename (p : string) : string := basename_from EmptyString p.

(** [str(z)] of an [int]. *)
Definition of_Z (z : Z) : string := NilZero.string_of_int (Z.to_int z).

End PyStr.

(** ** Python values and [json.loads] *)

(** The values [json.loads] builds.  A [dict] keeps insertion order and
    has text keys; a float keeps the text of its literal. *)
#[local] Set Warnings "-register-all".
Inductive pyval : Type :=
| PNone
| PBool (b : bool)
| PInt (z : Z)
| PFloat (literal : string)
| PStr (s : string)
| PList (l : list pyval)
| PDict (items : list (string * pyval)).

Module PyVal.

Fixpoint lookup (k : string) (items : list (string * pyval)) : option pyval :=
  match items with
  | [] => None
  | (k', v) :: rest => if String.eqb k k' then Some v else lookup k rest
  end.

(** [d[k] = v] on the items of a dict: in place when [k] is a key, at
    the end otherwise. *)
Fixpoint setitem (k : string) (v : pyval) (items : list (string * pyval))
  : list (string * pyval) :=
  match items with
  | [] => [(k, v)]
  | (k', v') :: rest =>
      if String.eqb k k' then (k, v) :: rest else (k', v') :: setitem k v rest
  end.

(** [v.get(k)]: only a dict has the method; a missing key gives [None]. *)
Definition get (v : pyval) (k : string) : result pyval :=
  match v with
  | PDict items =>
      match lookup k items with
      | Some x => Ok x
      | None => Ok PNone
      end
  | _ => Raise AttributeError
  end.

(** [str(v).isdigit()].  The text of [None], of a bool, of a float (it
    has a point, an exponent, or is [inf]/[nan]), of a list and of a
    dict is never made of digits only; that of an int is when the int is
    not negative. *)
Definition str_isdigit (v : pyval) : bool :=
  match v with
  | PInt z => (0 <=? z)%Z
  | PStr s => PyStr.isdigit s
  | _ => false
  end.

(** [int(v)] as the source calls it, behind [str(v).isdigit()]: only a
    non-negative int or a text of digits gets there.  The guard is false
    on every other shape, so [int] is never applied to them; the model
    answers [TypeError] there. *)
Definition to_int (v : pyval) : result Z :=
  match v with
  | PInt z => Ok z
  | PStr s => PyStr.int s
  | _ => Raise TypeError
  end.

(** [for x in v]: the items a [for] loop visits. *)
Definition iter (v : pyval) : result (list pyval) :=
  match v with
  | PList l => Ok l
  | PDict items => Ok (map (fun kv => PStr (fst kv)) items)
  | PStr s => Ok (map PStr (PyStr.chars s))
  | _ => Raise TypeError
  end.

End PyVal.

(** [json.loads] of the standard library, default (strict) decoder. *)
Module Json.

Definition dquote : ascii := ascii_of_nat 34.

(** Test texts are written with single quotes; [quoted] turns them into
    the double quotes of JSON. *)
Fixpoint quoted (s : string) : string :=
  match s with
  | EmptyString => EmptyString
  | String c r => String (if Ascii.eqb c "'" then dquote else c) (quoted r)
  end.

Definition is_ws (c : ascii) : bool :=
  let n := nat_of_ascii c in
  (n =? 32)%nat || (n =? 9)%nat || (n =? 10)%nat || (n =? 13)%nat.

Fixpoint skip_ws (s : string) : string :=
  match s with
  | EmptyString => EmptyString
  | String c r => if is_ws c then skip_ws r else s
  end.

Definition hex_val (c : ascii) : option nat :=
  let n := nat_of_ascii c in
  if (48 <=? n)%nat && (n <=? 57)%nat then Some (n - 48)%nat
  else if (65 <=? n)%nat && (n <=? 70)%nat then Some (n - 55)%nat
  else if (97 <=? n)%nat && (n <=? 102)%nat then Some (n - 87)%nat
  else None.

(** UTF-8 bytes of a code point below 0x10000, and of the code point a
    surrogate pair stands for. *)
Definition utf8 (cp : nat) : string :=
  if (cp <? 128)%nat then String (ascii_of_nat cp) EmptyString
  else if (cp <? 2048)%nat then
    String (ascii_of_nat (192 + cp / 64))
      (String (ascii_of_nat (128 + cp mod 64)) EmptyString)
  else
    String (ascii_of_nat (224 + cp / 4096))
      (String (ascii_of_nat (128 + (cp / 64) mod 64))
         (String (ascii_of_nat (128 + cp mod 64)) EmptyString)).

Definition is_high_surrogate (cp : nat) : bool :=
  (55296 <=? N.of_nat cp)%N && (N.of_nat cp <? 56320)%N.

Definition is_low_surrogate (cp : nat) : bool :=
  (56320 <=? N.of_nat cp)%N && (N.of_nat cp <? 57344)%N.

Definition utf8_pair (hi lo : nat) : string :=
  let cp := (65536 + (N.of_nat hi - 55296) * 1024 + (N.of_nat lo - 56320))%N in
  String (ascii_of_N (240 + cp / 262144))
    (String (ascii_of_N (128 + (cp / 4096) mod 64))
       (String (ascii_of_N (128 + (cp / 64) mod 64))
          (String (ascii_of_N (128 + cp mod 64)) EmptyString))).

Definition hex4 (h1 h2 h3 h4 : ascii) : option nat :=
  match hex_val h1, hex_val h2, hex_val h3, hex_val h4 with
  | Some a, Some b, Some c, Some d => Some (((a * 16 + b) * 16 + c) * 16 + d)
  | _, _, _, _ => None
  end.

(** The character an escape letter stands for: quote, backslash and
    slash stand for themselves, then b, f, n, r, t. *)
Definition unescape (c : ascii) : option ascii :=
  let n := nat_of_ascii c in
  if (n =? 34)%nat || (n =? 92)%nat || (n =? 47)%nat then Some c
  else if (n =? 98)%nat then Some (ascii_of_nat 8)
  else if (n =? 102)%nat then Some (ascii_of_nat 12)
  else if (n =? 110)%nat then Some (ascii_of_nat 10)
  else if (n =? 114)%nat then Some (ascii_of_nat 13)
  else if (n =? 116)%nat then Some (ascii_of_nat 9)
  else None.

Definition with_prefix (p : string) (r : option (string * string))
  : option (string * string) :=
  match r with
  | Some (body, rest) => Some (p ++ body, rest)
  | None => None
  end.

(** The body of a text literal, after its opening quote, up to and
    including the closing quote.  A [\uXXXX] escape gives the UTF-8 bytes
    of that code point; a high surrogate followed by the escape of a low
    one gives the character the pair stands for. *)
Fixpoint scan_string (s : string) : option (string * string) :=
  match s with
  | EmptyString => None
  | String c r =>
      if (nat_of_ascii c =? 34)%nat then Some (EmptyString, r)
      else if (nat_of_ascii c =? 92)%nat then
        match r with
        | EmptyString => None
        | String e r1 =>
            match unescape e with
            | Some ch => with_prefix (String ch EmptyString) (scan_string r1)
            | None =>
                if (nat_of_ascii e =? 117)%nat then
                  match r1 with
                  | String h1 (String h2 (String h3 (String h4 r2))) =>
                      match hex4 h1 h2 h3 h4 with
                      | Some hi =>
                          match r2 with
                          | String b (String u (String g1 (String g2
                              (String g3 (String g4 r3))))) =>
                              match
                                (if is_high_surrogate hi
                                    && (nat_of_ascii b =? 92)%nat
                                    && (nat_of_ascii u =? 117)%nat
                                 then hex4 g1 g2 g3 g4 else None)
                              with
                              | Some lo =>
                                  if is_low_surrogate lo
                                  then with_prefix (utf8_pair hi lo)
                                                   (scan_string r3)
                                  else with_prefix (utf8 hi) (scan_string r2)
                              | None => with_prefix (utf8 hi) (scan_string r2)
                              end
                          | _ => with_prefix (utf8 hi) (scan_string r2)
                          end
                      | None => None
                      end
                  | _ => None
                  end
                else None
            end
        end
      else if (nat_of_ascii c <? 32)%nat then None
      else with_prefix (String c EmptyString) (scan_string r)
  end.

(** The longest run of digits at the head of [s], and what follows. *)
Fixpoint span_digits (s : string) : string * string :=
  match s with
  | EmptyString => (EmptyString, EmptyString)
  | String c r =>
      if PyStr.is_digit c
      then let (ds, rest) := span_digits r in (String c ds, rest)
      else (EmptyString, s)
  end.

Fixpoint digits_value (acc : Z) (s : string) : Z :=
  match s with
  | EmptyString => acc
  | String c r => digits_value (10 * acc + PyStr.digit_val c) r
  end.

(** Integer part [0|[1-9][0-9]*] at the head of [s]. *)
Definition scan_int_part (s : string) : option (string * string) :=
  match s with
  | String "0" r => Some ("0", r)
  | String c _ =>
      if PyStr.is_digit c then Some (span_digits s) else None
  | EmptyString => None
  end.

(** Optional fraction [.[0-9]+]. *)
Definition scan_frac (s : string) : string * string :=
  match s with
  | String "." r =>
      match span_digits r with
      | (EmptyString, _) => (EmptyString, s)
      | (ds, rest) => (String "." ds, rest)
      end
  | _ => (EmptyString, s)
  end.

(** Optional exponent [[eE][-+]?[0-9]+]. *)
Definition scan_exp (s : string) : string * string :=
  match s with
  | String e r =>
      if Ascii.eqb e "e" || Ascii.eqb e "E" then
        let (sign, r1) :=
          match r with
          | String "-" r' => ("-", r')
          | String "+" r' => ("+", r')
          | _ => (EmptyString, r)
          end in
        match span_digits r1 with
        | (EmptyString, _) => (EmptyString, s)
        | (ds, rest) => (String e (sign ++ ds), rest)
        end
      else (EmptyString, s)
  | EmptyString => (EmptyString, s)
  end.

(** A number.  An integer goes through [int], which refuses more than
    [PyStr.max_str_digits] digits with [ValueError]; a float keeps the
    text of its literal. *)
Definition scan_number (s : string) : result (pyval * string) :=
  let (neg, s1) :=
    match s with
    | String "-" r => (true, r)
    | _ => (false, s)
    end in
  match scan_int_part s1 with
  | None => Raise JSONDecodeError
  | Some (ip, r1) =>
      let (fp, r2) := scan_frac r1 in
      let (ep, r3) := scan_exp r2 in
      match fp, ep with
      | EmptyString, EmptyString =>
          if (PyStr.max_str_digits <? String.length ip)%nat
          then Raise ValueError
          else
            let z := digits_value 0 ip in
            Ok (PInt (if neg then (- z)%Z else z), r3)
      | _, _ => Ok (PFloat ((if neg then "-" else "") ++ ip ++ fp ++ ep), r3)
      end
  end.

(** [s] when [kw] is a prefix of it, with [kw] cut off. *)
Fixpoint strip_prefix (kw s : string) : option string :=
  match kw, s with
  | EmptyString, _ => Some s
  | String a kw', String b s' =>
      if Ascii.eqb a b then strip_prefix kw' s' else None
  | String _ _, EmptyString => None
  end.

Definition scan_keyword (s : string) : option (pyval * string) :=
  match strip_prefix "null" s with
  | Some r => Some (PNone, r)
  | None =>
  match strip_prefix "true" s with
  | Some r => Some (PBool true, r)
  | None =>
  match strip_prefix "false" s with
  | Some r => Some (PBool false, r)
  | None =>
  match strip_prefix "NaN" s with
  | Some r => Some (PFloat "NaN", r)
  | None =>
  match strip_prefix "Infinity" s with
  | Some r => Some (PFloat "Infinity", r)
  | None =>
  match strip_prefix "-Infinity" s with
  | Some r => Some (PFloat "-Infinity", r)
  | None => None
  end end end end end end.

(** One value at the head of [s] (no white space before it); the
    elements of an array after its ['[']; the members of an object after
    its ['{'].  A repeated key keeps its first place and its last
    value. *)
Fixpoint scan_value (fuel : nat) (s : string) : result (pyval * string) :=
  match fuel with
  | O => Raise JSONDecodeError
  | S f =>
      match s with
      | EmptyString => Raise JSONDecodeError
      | String c r =>
          if Ascii.eqb c "[" then
            match skip_ws r with
            | String "]" r' => Ok (PList [], r')
            | r' =>
                match scan_elements f r' with
                | Ok (l, rest) => Ok (PList l, rest)
                | Raise e => Raise e
                end
            end
          else if Ascii.eqb c "{" then
            match skip_ws r with
            | String "}" r' => Ok (PDict [], r')
            | r' =>
                match scan_members f r' with
                | Ok (kvs, rest) =>
                    Ok (PDict (fold_left
                                 (fun d kv => PyVal.setitem (fst kv) (snd kv) d)
                                 kvs []), rest)
                | Raise e => Raise e
                end
            end
          else if Ascii.eqb c dquote then
            match scan_string r with
            | Some (t, rest) => Ok (PStr t, rest)
            | None => Raise JSONDecodeError
            end
          else
            match scan_keyword s with
            | Some res => Ok res
            | None => scan_number s
            end
      end
  end

with scan_elements (fuel : nat) (s : string) : result (list pyval * string) :=
  match fuel with
  | O => Raise JSONDecodeError
  | S f =>
      match scan_value f s with
      | Raise e => Raise e
      | Ok (v, r) =>
          match skip_ws r with
          | String "]" r' => Ok ([v], r')
          | String "," r' =>
              match scan_elements f (skip_ws r') with
              | Ok (l, rest) => Ok (v :: l, rest)
              | Raise e => Raise e
              end
          | _ => Raise JSONDecodeError
          end
      end
  end

with scan_members (fuel : nat) (s : string)
  : result (list (string * pyval) * string) :=
  match fuel with
  | O => Raise JSONDecodeError
  | S f =>
      match s with
      | String c r =>
          if negb (Ascii.eqb c dquote) then Raise JSONDecodeError else
          match scan_string r with
          | None => Raise JSONDecodeError
          | Some (k, r1) =>
              match skip_ws r1 with
              | String ":" r2 =>
                  match scan_value f (skip_ws r2) with
                  | Raise e => Raise e
                  | Ok (v, r3) =>
                      match skip_ws r3 with
                      | String "}" r' => Ok ([(k, v)], r')
                      | String "," r' =>
                          match scan_members f (skip_ws r') with
                          | Ok (kvs, rest) => Ok ((k, v) :: kvs, rest)
                          | Raise e => Raise e
                          end
                      | _ => Raise JSONDecodeError
                      end
                  end
              | _ => Raise JSONDecodeError
              end
          end
      | EmptyString => Raise JSONDecodeError
      end
  end.

(** [JSONDecoder.decode(s)]: white space, one value, white space, end of
    text.  Every call of the scanner consumes a character or stops, so
    twice the length of the text is fuel enough. *)
Definition decode (s : string) : result pyval :=
  match scan_value (2 * String.length s + 2) (skip_ws s) with
  | Ok (v, rest) =>
      match skip_ws rest with
      | EmptyString => Ok v
      | String _ _ => Raise JSONDecodeError
      end
  | Raise e => Raise e
  end.

(** [json.loads(s)], as a partial function: the value, or [None] when
    the call raises. *)
Definition loads (s : string) : option pyval :=
  match decode s with
  | Ok v => Some v
  | Raise _ => None
  end.

End Json.



(** ** The NAStool database, as [sqlite3] hands it over *)

(** A column value: [NULL], an integer or a text ([None], [int] and
    [str] in Python). *)
Inductive sqlval : Type :=
| SNull
| SInt (z : Z)
| SText (s : string).

Module Sql.

(** [str(v)] in Python *)
Definition str (v : sqlval) : string :=
  match v with
  | SNull => "None"
  | SInt z => PyStr.of_Z z
  | SText s => s
  end.

(** The same value as a Python object. *)
Definition to_py (v : sqlval) : pyval :=
  match v with
  | SNull => PNone
  | SInt z => PInt z
  | SText s => PStr s
  end.

(** The text SQLite's string functions see. *)
Definition text (v : sqlval) : option string :=
  match v with
  | SNull => None
  | SInt z => Some (PyStr.of_Z z)
  | SText s => Some s
  end.

(** [substr(X, 1, instr(X, ' ') - 1)]: what stands before the first
    space; nothing when [X] has no space ([instr] is 0, the length -1). *)
Fixpoint before_space (s : string) : option string :=
  match s with
  | EmptyString => None
  | String c r =>
      if Ascii.eqb c " " then Some EmptyString
      else option_map (String c) (before_space r)
  end.

(** [substr(X, instr(X, ' ') + 1)]: what follows the first space; all of
    [X] when it has no space. *)
Fixpoint after_space (s : string) : option string :=
  match s with
  | EmptyString => None
  | String c r => if Ascii.eqb c " " then Some r else after_space r
  end.

(** [CASE X WHEN NULL THEN NULL ELSE substr(X, 1, instr(X, ' ') - 1) END];
    the [WHEN NULL] arm never fires, and the [ELSE] arm is [NULL] on
    [NULL]. *)
Definition seasons_of (se : sqlval) : sqlval :=
  match text se with
  | None => SNull
  | Some s =>
      match before_space s with
      | Some b => SText b
      | None => SText EmptyString
      end
  end.

Definition episodes_of (se : sqlval) : sqlval :=
  match text se with
  | None => SNull
  | Some s =>
      match after_space s with
      | Some a => SText a
      | None => SText s
      end
  end.

(** [X || Y]: the two texts joined, [NULL] when an operand is [NULL]. *)
Definition concat (a b : option string) : option string :=
  match a, b with
  | Some x, Some y => Some (x ++ y)
  | _, _ => None
  end.

(** [X = Y] as a condition: it holds of two integers or of two texts
    that are the same, and of nothing else ([NULL] equals nothing). *)
Definition eq (a b : sqlval) : bool :=
  match a, b with
  | SInt x, SInt y => Z.eqb x y
  | SText x, SText y => String.eqb x y
  | _, _ => false
  end.

(** [CASE X WHEN 'a' THEN u WHEN 'b' THEN v ... ELSE w END], the
    [WHEN]s being text literals. *)
Definition case_when (x : sqlval) (arms : list (string * sqlval))
  (otherwise : sqlval) : sqlval :=
  match x with
  | SText s =>
      match find (fun arm => String.eqb s (fst arm)) arms with
      | Some arm => snd arm
      | None => otherwise
      end
  | _ => otherwise
  end.

End Sql.

(** The columns of table [TRANSFER_HISTORY] the transfer query reads. *)
Module TransferTable.
Record t : Type := mk {
  SOURCE_PATH : sqlval;
  SOURCE_FILENAME : sqlval;
  DEST_PATH : sqlval;
  DEST_FILENAME : sqlval;
  MODE : sqlval;
  TYPE : sqlval;
  CATEGORY : sqlval;
  TITLE : sqlval;
  YEAR : sqlval;
  TMDBID : sqlval;
  SEASON_EPISODE : sqlval;
  DATE : sqlval
}.
End TransferTable.

(** A row of the transfer query of [get_nt_transfer_history], columns in
    the order of its [SELECT].  [src] and [dest] are built with [||]:
    a text, or [NULL] when a part is [NULL]. *)
Module TransferRow.
Record t : Type := mk {
  src : option string;
  dest : option string;
  mode : sqlval;
  type : sqlval;
  category : sqlval;
  title : sqlval;
  year : sqlval;
  tmdbid : sqlval;
  seasons : sqlval;
  episodes : sqlval;
  image : sqlval;
  download_hash : sqlval;
  date : sqlval
}.
End TransferRow.

(** A row of [select * from PLUGIN_HISTORY], read at indexes 1, 2, 3.
    Identifier and key are text columns. *)
Module PluginRow.
Record t : Type := mk {
  plugin_id : string;
  plugin_key : string;
  plugin_value : sqlval
}.
End PluginRow.

(** The columns of table [DOWNLOAD_HISTORY] the download query reads. *)
Module DownloadTable.
Record t : Type := mk {
  SAVE_PATH : sqlval;
  TYPE : sqlval;
  TITLE : sqlval;
  YEAR : sqlval;
  TMDBID : sqlval;
  SE : sqlval;
  POSTER : sqlval;
  DOWNLOAD_ID : sqlval;
  TORRENT : sqlval;
  DESC : sqlval;
  SITE : sqlval
}.
End DownloadTable.

(** A row of the download query, columns 0 to 11. *)
Module DownloadRow.
Record t : Type := mk {
  save_path : sqlval;
  type : sqlval;
  title : sqlval;
  year : sqlval;
  tmdbid : sqlval;
  seasons : sqlval;
  episodes : sqlval;
  poster : sqlval;
  download_id : sqlval;
  torrent : sqlval;
  desc : sqlval;
  site : sqlval
}.
End DownloadRow.

(** What a cursor on the NAStool database reads: the three tables, rows
    in the order a scan visits them, and the answer of the subquery
    [SELECT * FROM DOWNLOAD_HISTORY GROUP BY TMDBID] of the transfer
    query, for which SQLite keeps one row of every group as it sees
    fit. *)
Record NtDb : Type := {
  TRANSFER_HISTORY : list TransferTable.t;
  PLUGIN_HISTORY : list PluginRow.t;
  DOWNLOAD_HISTORY : list DownloadTable.t;
  download_by_tmdbid : list DownloadTable.t
}.

(** ** The stores of MoviePilot *)

(** Keyword arguments of [TransferHistoryOper.add]. *)
Module TransferHistory.
Record t : Type := mk {
  src : string;
  dest : string;
  mode : sqlval;
  type : sqlval;
  category : sqlval;
  title : sqlval;
  year : sqlval;
  tmdbid : sqlval;
  seasons : sqlval;
  episodes : sqlval;
  image : sqlval;
  download_hash : sqlval;
  date : sqlval
}.
End TransferHistory.

(** Keyword arguments of [DownloadHistoryOper.add]. *)
Module DownloadHistory.
Record t : Type := mk {
  path : string;
  type : sqlval;
  title : sqlval;
  year : sqlval;
  tmdbid : sqlval;
  seasons : sqlval;
  episodes : sqlval;
  image : sqlval;
  download_hash : sqlval;
  torrent_name : sqlval;
  torrent_description : sqlval;
  torrent_site : sqlval
}.
End DownloadHistory.

(** The plugin's configuration dict; [None] is a missing key or a null. *)
Record Config : Type := {
  clear : option bool;
  nt_db_path : option string;
  path : option string;
  downloader : option string;
  site : option string;
  transfer : option bool;
  plugin : option bool;
  download : option bool
}.

Inductive category : Type := Transfer | Plugin | Download.

Inductive level : Type := Debug | Info | Error.

Inductive message : Type :=
| Started (c : category)
| Cleared (c : category)
| Finished (c : category)
| NothingFetched (c : category)
| Fetched (c : category) (n : nat)
| Synced (r : TransferHistory.t).

(** What the plugin does to the outside, in order. *)
Inductive event : Type :=
| TransferTruncate
| TransferAdd (r : TransferHistory.t)
| PluginTruncate
| PluginSave (plugin_id key : string) (value : pyval)
| DownloadTruncate
| DownloadAdd (r : DownloadHistory.t)
| UpdateConfig (c : Config)
| Log (l : level) (m : message).

(** ** The plugin *)

Module NAStoolSync.

(** Python truth of a switch and of a text. *)
Definition truthy (b : option bool) : bool :=
  match b with
  | Some true => true
  | _ => false
  end.

Definition nonempty (s : option string) : bool :=
  match s with
  | Some (String _ _) => true
  | _ => false
  end.

(** The private attributes of the instance. *)
Record Self : Type := {
  _clear : option bool;
  _nt_db_path : option string;
  _path : option string;
  _site : option string;
  _transfer : option bool;
  _plugin : option bool;
  _download : option bool;
  _downloader : option string
}.

(** The class attributes: all [None]. *)
Definition fresh : Self :=
  {| _clear := None; _nt_db_path := None; _path := None; _site := None;
     _transfer := None; _plugin := None; _download := None;
     _downloader := None |}.

(** What a computation leaves: its value or the exception it raised,
    the instance, and what it did to the outside, in order. *)
Record outcome (A : Type) : Type := {
  value : result A;
  final : Self;
  emitted : list event
}.
Arguments value {A} o.
Arguments final {A} o.
Arguments emitted {A} o.

(** Computations that read and write the instance, act on the outside
    and may raise. *)
Definition M (A : Type) : Type := Self -> outcome A.

Definition ret {A : Type} (a : A) : M A :=
  fun s => {| value := Ok a; final := s; emitted := [] |}.

Definition bind {A B : Type} (m : M A) (k : A -> M B) : M B :=
  fun s =>
    let o := m s in
    match value o with
    | Ok a =>
        let o' := k a (final o) in
        {| value := value o'; final := final o';
           emitted := emitted o ++ emitted o' |}
    | Raise e => {| value := Raise e; final := final o; emitted := emitted o |}
    end.

Definition raise {A : Type} (e : exn) : M A :=
  fun s => {| value := Raise e; final := s; emitted := [] |}.

Definition lift {A : Type} (r : result A) : M A :=
  fun s => {| value := r; final := s; emitted := [] |}.

Definition emit (e : event) : M unit :=
  fun s => {| value := Ok tt; final := s; emitted := [e] |}.

Definition log (l : level) (m : message) : M unit := emit (Log l m).

Definition get_self : M Self :=
  fun s => {| value := Ok s; final := s; emitted := [] |}.

Definition set_self (s : Self) : M unit :=
  fun _ => {| value := Ok tt; final := s; emitted := [] |}.

Definition when (b : bool) (m : M unit) : M unit := if b then m else ret tt.

Declare Scope m_scope.
Delimit Scope m_scope with M.
Notation "x <- m ;; k" := (bind m (fun x => k))
  (at level 61, m at next level, right associativity) : m_scope.
Notation "m ;; k" := (bind m (fun _ => k))
  (at level 61, right associativity) : m_scope.
Local Open Scope m_scope.

(** [for x in l: body(x)] *)
Fixpoint for_each {A : Type} (l : list A) (body : A -> M unit) : M unit :=
  match l with
  | [] => ret tt
  | a :: l' => body a ;; for_each l' body
  end.

(** [for x in xs] where [xs] may be [None]: [None] is not iterable. *)
Definition for_rows {A : Type} (xs : option (list A)) (body : A -> M unit)
  : M unit :=
  match xs with
  | Some l => for_each l body
  | None => raise TypeError
  end.

Definition newline : ascii := ascii_of_nat 10.
Definition backslash : string := String (ascii_of_nat 92) EmptyString.

(** *** Transfer history *)

(** One turn of the loop over the path rules:
    [msrc = msrc.replace(sub_paths[0], sub_paths[1]).replace('\\', '/')],
    and the same for [mdest]. *)
Definition remap_path (sd : string * string) (path : string)
  : result (string * string) :=
  let sub_paths := PyStr.split ":" path in
  let (msrc, mdest) := sd in
  rbind (PyStr.item sub_paths 0) (fun p0 =>
  rbind (PyStr.item sub_paths 1) (fun p1 =>
  Ok (PyStr.replace backslash "/" (PyStr.replace p0 p1 msrc),
      PyStr.replace backslash "/" (PyStr.replace p0 p1 mdest)))).

(** [if self._path: for path in self._path.split("\n"): ...] *)
Definition remap_paths (_path : option string) (msrc mdest : string)
  : result (string * string) :=
  match _path with
  | Some (String _ _ as p) => rfold remap_path (PyStr.split newline p) (msrc, mdest)
  | _ => Ok (msrc, mdest)
  end.

(** The body of the loop of [sync_transfer_history] for one row. *)
Definition sync_transfer_row (history : TransferRow.t) : M unit :=
  let msrc := TransferRow.src history in
  let mdest := TransferRow.dest history in
  match msrc, mdest with
  | Some (String _ _ as msrc), Some (String _ _ as mdest) =>
      s <- get_self ;;
      sd <- lift (remap_paths (_path s) msrc mdest) ;;
      let r := TransferHistory.mk (fst sd) (snd sd)
                 (TransferRow.mode history) (TransferRow.type history)
                 (TransferRow.category history) (TransferRow.title history)
                 (TransferRow.year history) (TransferRow.tmdbid history)
                 (TransferRow.seasons history) (TransferRow.episodes history)
                 (TransferRow.image history) (TransferRow.download_hash history)
                 (TransferRow.date history) in
      emit (TransferAdd r) ;;
      log Debug (Synced r)
  | _, _ => ret tt
  end.

(** [sync_transfer_history(transfer_history)]; the elapsed time of the
    last log line is left out, here and in the two other importers. *)
Definition sync_transfer_history (transfer_history : option (list TransferRow.t))
  : M unit :=
  log Info (Started Transfer) ;;
  s <- get_self ;;
  when (truthy (_clear s))
       (log Info (Cleared Transfer) ;; emit TransferTruncate) ;;
  for_rows transfer_history sync_transfer_row ;;
  log Info (Finished Transfer).

(** *** Plugin history *)

(** [if keys[0].isdigit() and int(keys[0]) == int(sub_downloaders[0]):
       plugin_key = plugin_key.replace(keys[0], sub_downloaders[1])] *)
Definition remap_key (sub_downloaders : list string) (plugin_key : string)
  : result string :=
  let keys := PyStr.split "-" plugin_key in
  rbind (PyStr.item keys 0) (fun k0 =>
  if PyStr.isdigit k0 then
    rbind (PyStr.int k0) (fun i =>
    rbind (PyStr.item sub_downloaders 0) (fun d0 =>
    rbind (PyStr.int d0) (fun j =>
    if (i =? j)%Z then
      rbind (PyStr.item sub_downloaders 1) (fun d1 =>
      Ok (PyStr.replace k0 d1 plugin_key))
    else Ok plugin_key)))
  else Ok plugin_key).

(** [if isinstance(plugin_value, str): plugin_value = json.loads(plugin_value)] *)
Definition decode (plugin_value : pyval) : result pyval :=
  match plugin_value with
  | PStr s => Json.decode s
  | _ => Ok plugin_value
  end.

(** [if str(d.get(field)).isdigit() and int(d.get(field)) == int(sub_downloaders[0]):
       d[field] = sub_downloaders[1]] *)
Definition remap_field (field : string) (sub_downloaders : list string) (d : pyval)
  : result pyval :=
  rbind (PyVal.get d field) (fun x =>
  if PyVal.str_isdigit x then
    rbind (PyVal.to_int x) (fun i =>
    rbind (PyStr.item sub_downloaders 0) (fun d0 =>
    rbind (PyStr.int d0) (fun j =>
    if (i =? j)%Z then
      rbind (PyStr.item sub_downloaders 1) (fun d1 =>
      match d with
      | PDict items => Ok (PDict (PyVal.setitem field (PStr d1) items))
      | _ => Raise TypeError
      end)
    else Ok d)))
  else Ok d).

(** [for value in plugin_value: ...]: the dicts of a list are updated in
    place; the keys of a dict and the characters of a text are texts,
    which have no [get]. *)
Definition remap_seeds (sub_downloaders : list string) (plugin_value : pyval)
  : result pyval :=
  match plugin_value with
  | PList l =>
      rbind (rmap (remap_field "downloader" sub_downloaders) l) (fun l' =>
      Ok (PList l'))
  | _ =>
      rbind (PyVal.iter plugin_value) (fun xs =>
      rbind (rmap (remap_field "downloader" sub_downloaders) xs) (fun _ =>
      Ok plugin_value))
  end.

(** One turn of the loop over the downloader rules. *)
Definition remap_downloader (plugin_id : string) (kv : string * pyval)
  (downloader : string) : result (string * pyval) :=
  let sub_downloaders := PyStr.split ":" downloader in
  let (plugin_key, plugin_value) := kv in
  rbind
    (if String.eqb plugin_id "TorrentTransfer" then
       rbind (remap_key sub_downloaders plugin_key) (fun plugin_key' =>
       rbind (decode plugin_value) (fun v =>
       rbind (remap_field "to_download" sub_downloaders v) (fun v' =>
       Ok (plugin_key', v'))))
     else Ok (plugin_key, plugin_value))
    (fun kv1 =>
     if String.eqb plugin_id "IYUUAutoSeed" then
       rbind (decode (snd kv1)) (fun v =>
       rbind (remap_seeds sub_downloaders v) (fun v' =>
       Ok (fst kv1, v')))
     else Ok kv1).

(** [if self._downloader: for downloader in self._downloader.split("\n"): ...] *)
Definition remap_downloaders (_downloader : option string) (plugin_id : string)
  (plugin_key : string) (plugin_value : pyval) : result (string * pyval) :=
  match _downloader with
  | Some (String _ _ as d) =>
      rfold (remap_downloader plugin_id) (PyStr.split newline d)
            (plugin_key, plugin_value)
  | _ => Ok (plugin_key, plugin_value)
  end.

(** The body of the loop of [sync_plugin_history] for one row. *)
Definition sync_plugin_row (history : PluginRow.t) : M unit :=
  let plugin_id := PluginRow.plugin_id history in
  let plugin_key := PluginRow.plugin_key history in
  let plugin_value := Sql.to_py (PluginRow.plugin_value history) in
  s <- get_self ;;
  kv <- lift (remap_downloaders (_downloader s) plugin_id plugin_key plugin_value) ;;
  emit (PluginSave plugin_id (fst kv) (snd kv)).

Definition sync_plugin_history (plugin_history : option (list PluginRow.t))
  : M unit :=
  log Info (Started Plugin) ;;
  s <- get_self ;;
  when (truthy (_clear s))
       (log Info (Cleared Plugin) ;; emit PluginTruncate) ;;
  for_rows plugin_history sync_plugin_row ;;
  log Info (Finished Plugin).

(** *** Download history *)

(** One turn of the loop over the site rules:
    [if str(msite) == str(sub_sites[0]): msite = str(sub_sites[1])] *)
Definition remap_site (msite : sqlval) (site : string) : result sqlval :=
  let sub_sites := PyStr.split ":" site in
  rbind (PyStr.item sub_sites 0) (fun s0 =>
  if String.eqb (Sql.str msite) s0 then
    rbind (PyStr.item sub_sites 1) (fun s1 => Ok (SText s1))
  else Ok msite).

(** [if self._site: for site in self._site.split("\n"): ...] *)
Definition remap_sites (_site : option string) (msite : sqlval) : result sqlval :=
  match _site with
  | Some (String _ _ as t) => rfold remap_site (PyStr.split newline t) msite
  | _ => Ok msite
  end.

(** [os.path.basename(mpath)]: a path has to be a text. *)
Definition os_path_basename (mpath : sqlval) : result string :=
  match mpath with
  | SText p => Ok (PyStr.basename p)
  | _ => Raise TypeError
  end.

(** [X IS NOT NULL] in SQL, [x is not None] in Python. *)
Definition is_not_null (v : sqlval) : bool :=
  match v with
  | SNull => false
  | _ => true
  end.

(** [self._downloadhistory.add], called with keyword arguments.  The
    model [DownloadHistory] declares its
    columns [path], [type] and [title] with [nullable=False]: a record
    without type or without title is refused by the table, with
    [IntegrityError], and not stored; [path] is always a text here. *)
Definition downloadhistory_add (r : DownloadHistory.t) : M unit :=
  if is_not_null (DownloadHistory.type r) && is_not_null (DownloadHistory.title r)
  then emit (DownloadAdd r)
  else raise IntegrityError.

(** The body of the loop of [sync_download_history] for one row. *)
Definition sync_download_row (history : DownloadRow.t) : M unit :=
  s <- get_self ;;
  msite <- lift (remap_sites (_site s) (DownloadRow.site history)) ;;
  p <- lift (os_path_basename (DownloadRow.save_path history)) ;;
  downloadhistory_add
    (DownloadHistory.mk p
       (DownloadRow.type history) (DownloadRow.title history)
       (DownloadRow.year history) (DownloadRow.tmdbid history)
       (DownloadRow.seasons history) (DownloadRow.episodes history)
       (DownloadRow.poster history) (DownloadRow.download_id history)
       (DownloadRow.torrent history) (DownloadRow.desc history)
       msite).

Definition sync_download_history (download_history : option (list DownloadRow.t))
  : M unit :=
  log Info (Started Download) ;;
  s <- get_self ;;
  when (truthy (_clear s))
       (log Info (Cleared Download) ;; emit DownloadTruncate) ;;
  for_rows download_history sync_download_row ;;
  log Info (Finished Download).

(** *** The extraction queries *)

(** [if not rows: logger.error(...); return] and otherwise
    [logger.info(...); return rows]: no rows give [None]. *)
Definition fetched {A : Type} (c : category) (rows : list A) : M (option (list A)) :=
  match rows with
  | [] => log Error (NothingFetched c) ;; ret None
  | _ :: _ => log Info (Fetched c (List.length rows)) ;; ret (Some rows)
  end.

Definition get_nt_plugin_history (cursor : NtDb) : M (option (list PluginRow.t)) :=
  fetched Plugin (PLUGIN_HISTORY cursor).

(** The [SELECT] list of the download query. *)
Definition select_download (d : DownloadTable.t) : DownloadRow.t :=
  DownloadRow.mk
    (DownloadTable.SAVE_PATH d) (DownloadTable.TYPE d) (DownloadTable.TITLE d)
    (DownloadTable.YEAR d) (DownloadTable.TMDBID d)
    (Sql.seasons_of (DownloadTable.SE d)) (Sql.episodes_of (DownloadTable.SE d))
    (DownloadTable.POSTER d) (DownloadTable.DOWNLOAD_ID d)
    (DownloadTable.TORRENT d) (DownloadTable.DESC d) (DownloadTable.SITE d).

Definition download_query (table : list DownloadTable.t) : list DownloadRow.t :=
  map select_download
      (filter (fun d => is_not_null (DownloadTable.SAVE_PATH d)) table).

Definition get_nt_download_history (cursor : NtDb)
  : M (option (list DownloadRow.t)) :=
  fetched Download (download_query (DOWNLOAD_HISTORY cursor)).

(** The [ON] condition of the transfer query:
    [t.TITLE = d.TITLE AND t.TYPE = d.TYPE]. *)
Definition joins (t : TransferTable.t) (d : DownloadTable.t) : bool :=
  Sql.eq (TransferTable.TITLE t) (DownloadTable.TITLE d)
  && Sql.eq (TransferTable.TYPE t) (DownloadTable.TYPE d).

(** The [SELECT] list of the transfer query, for a row [t] of
    [TRANSFER_HISTORY] and the row [d] joined to it, if any. *)
Definition select_transfer (t : TransferTable.t) (d : option DownloadTable.t)
  : TransferRow.t :=
  TransferRow.mk
    (Sql.concat (Sql.concat (Sql.text (TransferTable.SOURCE_PATH t)) (Some "/"))
                (Sql.text (TransferTable.SOURCE_FILENAME t)))
    (Sql.concat (Sql.concat (Sql.text (TransferTable.DEST_PATH t)) (Some "/"))
                (Sql.text (TransferTable.DEST_FILENAME t)))
    (Sql.case_when (TransferTable.MODE t)
       [("硬链接", SText "link"); ("移动", SText "move"); ("复制", SText "copy")]
       SNull)
    (Sql.case_when (TransferTable.TYPE t) [("动漫", SText "电视剧")]
       (TransferTable.TYPE t))
    (TransferTable.CATEGORY t) (TransferTable.TITLE t) (TransferTable.YEAR t)
    (TransferTable.TMDBID t)
    (Sql.seasons_of (TransferTable.SEASON_EPISODE t))
    (Sql.episodes_of (TransferTable.SEASON_EPISODE t))
    (match d with Some x => DownloadTable.POSTER x | None => SNull end)
    (match d with Some x => DownloadTable.DOWNLOAD_ID x | None => SNull end)
    (TransferTable.DATE t).

(** [TRANSFER_HISTORY t LEFT JOIN (...) d ON ...], for one row of [t]:
    the row once for every row of [d] it joins, and once, with [NULL]s
    for the columns of [d], when it joins none. *)
Definition left_join (groups : list DownloadTable.t) (t : TransferTable.t)
  : list TransferRow.t :=
  match filter (joins t) groups with
  | [] => [select_transfer t None]
  | ds => map (fun d => select_transfer t (Some d)) ds
  end.

Definition transfer_query (cursor : NtDb) : list TransferRow.t :=
  flat_map (left_join (download_by_tmdbid cursor)) (TRANSFER_HISTORY cursor).

Definition get_nt_transfer_history (cursor : NtDb)
  : M (option (list TransferRow.t)) :=
  fetched Transfer (transfer_query cursor).

(** *** The coordinator *)

(** [sqlite3.connect(path)] and [cursor()]: [files] tells which paths
    hold a database that can be read. *)
Definition connect (files : string -> option NtDb) (p : option string) : M NtDb :=
  match p with
  | Some f =>
      match files f with
      | Some db => ret db
      | None => raise OperationalError
      end
  | None => raise TypeError
  end.

(** [update_config] of the plugin base: the dict is stored as the
    plugin's configuration. *)
Definition update_config (c : Config) : M unit := emit (UpdateConfig c).

(** [init_plugin(config)].  [None] stands for a [config] that is [None]
    or an empty dict, [Some c] for one with keys.  The three store
    handles are the three families of events; [cursor.close()] has no
    effect of its own here. *)
Definition init_plugin (files : string -> option NtDb) (config : option Config)
  : M unit :=
  match config with
  | None => ret tt
  | Some c =>
      set_self {| _clear := clear c;
                  _nt_db_path := nt_db_path c;
                  _path := path c;
                  _site := site c;
                  _transfer := transfer c;
                  _plugin := plugin c;
                  _download := download c;
                  _downloader := downloader c |} ;;
      s <- get_self ;;
      if nonempty (_nt_db_path s)
         && (truthy (_transfer s) || truthy (_plugin s) || truthy (_download s))
      then
        cursor <- connect files (_nt_db_path s) ;;
        when (truthy (_transfer s))
             (transfer_history <- get_nt_transfer_history cursor ;;
              sync_transfer_history transfer_history) ;;
        when (truthy (_plugin s))
             (plugin_history <- get_nt_plugin_history cursor ;;
              sync_plugin_history plugin_history) ;;
        when (truthy (_download s))
             (download_history <- get_nt_download_history cursor ;;
              sync_download_history download_history) ;;
        update_config {| clear := Some false;
                         nt_db_path := _nt_db_path s;
                         path := _path s;
                         downloader := _downloader s;
                         site := _site s;
                         transfer := Some false;
                         plugin := Some false;
                         download := Some false |}
      else ret tt
  end.

(** [get_state()] *)
Definition get_state (s : Self) : bool :=
  if truthy (_transfer s) || truthy (_plugin s) || truthy (_download s)
  then true else false.

(** The configuration the run has stored last, if any. *)
Fixpoint stored_config (evs : list event) : option Config :=
  match evs with
  | [] => None
  | e :: rest =>
      match stored_config rest with
      | Some c => Some c
      | None =>
          match e with
          | UpdateConfig c => Some c
          | _ => None
          end
      end
  end.

(** The calls a store has received, in order. *)
Definition on_transfer_store (e : event) : bool :=
  match e with
  | TransferTruncate | TransferAdd _ => true
  | _ => false
  end.

Definition on_download_store (e : event) : bool :=
  match e with
  | DownloadTruncate | DownloadAdd _ => true
  | _ => false
  end.

End NAStoolSync.

(** * Vocabulary of the properties *)

Import NAStoolSync.
Local Open Scope m_scope.

(** [s[:n]] and [s[n:]] *)
Fixpoint slice_to (n : nat) (s : string) : string :=
  match n, s with
  | S n', String c r => String c (slice_to n' r)
  | _, _ => EmptyString
  end.

Fixpoint slice_from (n : nat) (s : string) : string :=
  match n, s with
  | S n', String _ r => slice_from n' r
  | _, _ => s
  end.

(** [c] does not occur in [s]. *)
Fixpoint free_of (c : ascii) (s : string) : bool :=
  match s with
  | EmptyString => true
  | String a r => negb (Ascii.eqb a c) && free_of c r
  end.

(** Every line of a rule text has a [':'], so that both sides of each
    rule can be read. *)
Definition has_two_sides (line : string) : bool :=
  (2 <=? List.length (PyStr.split ":" line))%nat.

Definition rules_readable (text : option string) : bool :=
  match text with
  | Some (String _ _ as t) => forallb has_two_sides (PyStr.split newline t)
  | _ => true
  end.

(** The attributes [init_plugin] copies from a configuration. *)
Definition attributes_of (c : Config) : Self :=
  {| _clear := clear c; _nt_db_path := nt_db_path c; _path := path c;
     _site := site c; _transfer := transfer c; _plugin := plugin c;
     _download := download c; _downloader := downloader c |}.

(** A category is switched on in a configuration. *)
Definition enabled (k : category) (c : Config) : bool :=
  match k with
  | Transfer => truthy (transfer c)
  | Plugin => truthy (plugin c)
  | Download => truthy (download c)
  end.

(** The run takes place: there is a database path and some category is
    switched on. *)
Definition runs (c : Config) : bool :=
  nonempty (nt_db_path c)
  && (truthy (transfer c) || truthy (plugin c) || truthy (download c)).

(** What [init_plugin] does once the attributes [s] are set and the run
    takes place: the three categories in turn, then the configuration. *)
Definition import_all (files : string -> option NtDb) (s : Self) : M unit :=
  cursor <- connect files (_nt_db_path s) ;;
  when (truthy (_transfer s))
       (transfer_history <- get_nt_transfer_history cursor ;;
        sync_transfer_history transfer_history) ;;
  when (truthy (_plugin s))
       (plugin_history <- get_nt_plugin_history cursor ;;
        sync_plugin_history plugin_history) ;;
  when (truthy (_download s))
       (download_history <- get_nt_download_history cursor ;;
        sync_download_history download_history) ;;
  update_config {| clear := Some false;
                   nt_db_path := _nt_db_path s;
                   path := _path s;
                   downloader := _downloader s;
                   site := _site s;
                   transfer := Some false;
                   plugin := Some false;
                   download := Some false |}.

Definition is_update_config (e : event) : bool :=
  match e with
  | UpdateConfig _ => true
  | _ => false
  end.

Definition is_plugin_save (e : event) : bool :=
  match e with
  | PluginSave _ _ _ => true
  | _ => false
  end.

(** The two plugin identifiers whose records are rewritten. *)
Definition rewritten (plugin_id : string) : bool :=
  String.eqb plugin_id "TorrentTransfer" || String.eqb plugin_id "IYUUAutoSeed".

(** A transfer row has a source path, a destination path. *)
Definition has_src (r : TransferRow.t) : bool := nonempty (TransferRow.src r).
Definition has_dest (r : TransferRow.t) : bool := nonempty (TransferRow.dest r).

(** A row of [TRANSFER_HISTORY] has a source, a destination: neither
    the directory nor the file name is [NULL]. *)
Definition has_source (t : TransferTable.t) : bool :=
  is_not_null (TransferTable.SOURCE_PATH t)
  && is_not_null (TransferTable.SOURCE_FILENAME t).

Definition has_destination (t : TransferTable.t) : bool :=
  is_not_null (TransferTable.DEST_PATH t)
  && is_not_null (TransferTable.DEST_FILENAME t).

(** What every answer to [SELECT * FROM DOWNLOAD_HISTORY GROUP BY TMDBID]
    has: its rows are rows of the table, no two of them with the same
    [TMDBID], one for every [TMDBID] of the table ([NULL] is one of
    them). *)
Definition grouped_by_tmdbid (table answer : list DownloadTable.t) : Prop :=
  incl answer table
  /\ NoDup (map DownloadTable.TMDBID answer)
  /\ forall d, In d table ->
               In (DownloadTable.TMDBID d) (map DownloadTable.TMDBID answer).

(** The downloads a transfer joins are downloads of one [TMDBID]. *)
Definition joins_one_tmdbid (db : NtDb) : Prop :=
  forall t d d',
    In t (TRANSFER_HISTORY db) ->
    In d (DOWNLOAD_HISTORY db) -> In d' (DOWNLOAD_HISTORY db) ->
    joins t d = true -> joins t d' = true ->
    DownloadTable.TMDBID d = DownloadTable.TMDBID d'.

(** The row of the subquery a transfer is joined to, when there is at
    most one. *)
Definition joined (db : NtDb) (t : TransferTable.t) : option DownloadTable.t :=
  hd_error (filter (joins t) (download_by_tmdbid db)).

(** The record written for a transfer row whose paths have become [msrc]
    and [mdest]. *)
Definition transfer_record (msrc mdest : string) (r : TransferRow.t)
  : TransferHistory.t :=
  TransferHistory.mk msrc mdest
    (TransferRow.mode r) (TransferRow.type r) (TransferRow.category r)
    (TransferRow.title r) (TransferRow.year r) (TransferRow.tmdbid r)
    (TransferRow.seasons r) (TransferRow.episodes r) (TransferRow.image r)
    (TransferRow.download_hash r) (TransferRow.date r).

Definition text_of (s : option string) : string :=
  match s with
  | Some t => t
  | None => EmptyString
  end.

(** The record written for a row when no path rule applies. *)
Definition copied (r : TransferRow.t) : TransferHistory.t :=
  transfer_record (text_of (TransferRow.src r)) (text_of (TransferRow.dest r)) r.

(** The record written for a row under the path rules [_path]. *)
Definition moved (_path : option string) (r : TransferRow.t) : TransferHistory.t :=
  match remap_paths _path (text_of (TransferRow.src r))
                    (text_of (TransferRow.dest r)) with
  | Ok (msrc, mdest) => transfer_record msrc mdest r
  | Raise _ => copied r
  end.

(** What the loop of [sync_transfer_history] does for one row when it
    does not raise. *)
Definition transfer_events (_path : option string) (r : TransferRow.t)
  : list event :=
  if has_src r && has_dest r
  then [TransferAdd (moved _path r); Log Debug (Synced (moved _path r))]
  else [].

(** A computation leaves the instance as it found it. *)
Definition keeps_self {A : Type} (m : M A) : Prop :=
  forall s, final (m s) = s.

(** Everything a computation does to the outside satisfies [P]. *)
Definition emits {A : Type} (P : event -> Prop) (m : M A) : Prop :=
  forall s, Forall P (emitted (m s)).

(** A computation that ends does so with event [e]. *)
Definition ends_with {A : Type} (e : event) (m : M A) : Prop :=
  forall s a, value (m s) = Ok a -> exists evs, emitted (m s) = (evs ++ [e])%list.

(** A download record was made from a row of [table] whose [SAVE_PATH]
    is a text, and carries the last component of that path. *)
Definition made_from (table : list DownloadTable.t) (r : DownloadHistory.t)
  : Prop :=
  exists d q,
    In d table
    /\ In (select_download d) (download_query table)
    /\ DownloadTable.SAVE_PATH d = SText q
    /\ DownloadHistory.path r = PyStr.basename q.

Definition download_adds_from (table : list DownloadTable.t) (e : event) : Prop :=
  match e with
  | DownloadAdd r => made_from table r
  | _ => True
  end.

(** A computation raises from every state. *)
Definition fails {A : Type} (m : M A) : Prop :=
  forall s, exists e, value (m s) = Raise e.

(** When the computation raises, everything it has done satisfies [P]. *)
Definition emits_if_raised {A : Type} (P : event -> Prop) (m : M A) : Prop :=
  forall s e, value (m s) = Raise e -> Forall P (emitted (m s)).

(** The number of rows the query of a category answers. *)
Definition extracted (k : category) (db : NtDb) : nat :=
  match k with
  | Transfer => List.length (transfer_query db)
  | Plugin => List.length (PLUGIN_HISTORY db)
  | Download => List.length (download_query (DOWNLOAD_HISTORY db))
  end.

(** The category a log line is about, the category an event belongs to,
    and the order in which a run takes the categories. *)
Definition message_category (m : message) : category :=
  match m with
  | Started k | Cleared k | Finished k | NothingFetched k | Fetched k _ => k
  | Synced _ => Transfer
  end.

Definition category_eqb (a b : category) : bool :=
  match a, b with
  | Transfer, Transfer | Plugin, Plugin | Download, Download => true
  | _, _ => false
  end.

Definition concerns (k : category) (e : event) : bool :=
  match e with
  | TransferTruncate | TransferAdd _ => category_eqb Transfer k
  | PluginTruncate | PluginSave _ _ _ => category_eqb Plugin k
  | DownloadTruncate | DownloadAdd _ => category_eqb Download k
  | UpdateConfig _ => false
  | Log _ m => category_eqb (message_category m) k
  end.

Definition follows (k k' : category) : bool :=
  match k, k' with
  | Transfer, Plugin | Transfer, Download | Plugin, Download => true
  | _, _ => false
  end.

(** The log lines about category [k] satisfy [P]. *)
Definition logs_of (P : event -> Prop) (k : category) : Prop :=
  forall l m, message_category m = k -> P (Log l m).

(** ** Sample data *)

Definition sample_row (src dest : option string) (title : string)
  : TransferRow.t :=
  TransferRow.mk src dest (SText "link") (SText "movie") SNull (SText title)
    (SText "2020") (SInt 603) SNull SNull SNull SNull SNull.



Definition full_row : TransferRow.t :=
  sample_row (Some "/dl/c.mkv") (Some "/media/c.mkv") "C".

Definition other_row : TransferRow.t :=
  sample_row (Some "/dl/d.mkv") (Some "/media/d.mkv") "D".

(** The attributes with one path rule, clear set. *)
Definition with_path_rule : Self :=
  {| _clear := Some true; _nt_db_path := Some "/nt/user.db";
     _path := Some "/dl:/downloads"; _site := None;
     _transfer := Some true; _plugin := None; _download := None;
     _downloader := None |}.

(** Two rules, one per line. *)
Definition two_rules (first second : string) : string :=
  first ++ String newline second.

(** The attributes with the single downloader rule [1:2], plugin
    category switched on. *)
Definition with_downloader_rule : Self :=
  {| _clear := None; _nt_db_path := Some "/nt/user.db"; _path := None;
     _site := None; _transfer := None; _plugin := Some true;
     _download := None; _downloader := Some "1:2" |}.

(** The record of the docstring of [sync_plugin_history], with a short
    hash. *)
Definition transfer_seed_row : PluginRow.t :=
  PluginRow.mk "TorrentTransfer" "1-abc123"
    (SText (Json.quoted "{'to_download': 1}")).

Definition sample_download (save_path : sqlval) (site : string)
  : DownloadTable.t :=
  DownloadTable.mk save_path (SText "movie") (SText "C") (SText "2020")
    (SInt 603) (SText "S01 E02") SNull (SText "abc123") (SText "C.2020")
    SNull (SText site).

(** A row of [TRANSFER_HISTORY]: file [file] of [/dl], linked under the
    same name into the directory [dest_path]. *)
Definition sample_transfer (dest_path : sqlval) (file title : string)
  : TransferTable.t :=
  TransferTable.mk (SText "/dl") (SText file) dest_path (SText file)
    (SText "硬链接") (SText "movie") SNull (SText title) (SText "2020")
    (SInt 603) SNull (SText "2023-08-01 12:00:00").

(** Three transfers, the first without destination path; two downloads
    of the same film, of which the subquery keeps the second. *)
Definition sample_db : NtDb :=
  {| TRANSFER_HISTORY := [sample_transfer SNull "b.mkv" "B";
                          sample_transfer (SText "/media") "c.mkv" "C";
                          sample_transfer (SText "/media") "d.mkv" "D"];
     PLUGIN_HISTORY := [transfer_seed_row];
     DOWNLOAD_HISTORY := [sample_download SNull "OldSite";
                          sample_download (SText "/downloads/movies/c.mkv")
                                          "OldSite"];
     download_by_tmdbid := [sample_download (SText "/downloads/movies/c.mkv")
                                            "OldSite"] |}.

Definition sample_files (p : string) : option NtDb :=
  if String.eqb p "/nt/user.db" then Some sample_db else None.

(** The same, but the destination path of the first transfer is the
    empty text. *)
Definition empty_dest_db : NtDb :=
  {| TRANSFER_HISTORY := [sample_transfer (SText EmptyString) "b.mkv" "B";
                          sample_transfer (SText "/media") "c.mkv" "C";
                          sample_transfer (SText "/media") "d.mkv" "D"];
     PLUGIN_HISTORY := PLUGIN_HISTORY sample_db;
     DOWNLOAD_HISTORY := DOWNLOAD_HISTORY sample_db;
     download_by_tmdbid := download_by_tmdbid sample_db |}.

Definition empty_dest_files (p : string) : option NtDb :=
  if String.eqb p "/nt/user.db" then Some empty_dest_db else None.

(** One transfer without destination, and two downloads with its title
    and type under two [TMDBID]s: the subquery keeps both. *)
Definition twice_joined_db : NtDb :=
  {| TRANSFER_HISTORY := [sample_transfer SNull "b.mkv" "C";
                          sample_transfer (SText "/media") "c.mkv" "C"];
     PLUGIN_HISTORY := [];
     DOWNLOAD_HISTORY :=
       [sample_download (SText "/downloads/movies/c.mkv") "OldSite";
        DownloadTable.mk (SText "/downloads/movies/c.2.mkv") (SText "movie")
          (SText "C") (SText "2021") (SInt 604) SNull SNull (SText "def456")
          SNull SNull SNull];
     download_by_tmdbid :=
       [sample_download (SText "/downloads/movies/c.mkv") "OldSite";
        DownloadTable.mk (SText "/downloads/movies/c.2.mkv") (SText "movie")
          (SText "C") (SText "2021") (SInt 604) SNull SNull (SText "def456")
          SNull SNull SNull] |}.

Definition twice_joined_files (p : string) : option NtDb :=
  if String.eqb p "/nt/user.db" then Some twice_joined_db else None.

(** Everything switched on, clear set, one site rule, no other rule. *)
Definition sample_config : Config :=
  {| clear := Some true; nt_db_path := Some "/nt/user.db"; path := None;
     downloader := None; site := Some "OldSite:NewSite";
     transfer := Some true; plugin := Some true; download := Some true |}.

(** A database without plugin history, and a configuration that imports
    plugin and download history from it. *)
Definition no_plugin_db : NtDb :=
  {| TRANSFER_HISTORY := [sample_transfer (SText "/media") "c.mkv" "C"];
     PLUGIN_HISTORY := [];
     DOWNLOAD_HISTORY := [sample_download (SText "/downloads/movies/c.mkv")
                                          "OldSite"];
     download_by_tmdbid := [sample_download (SText "/downloads/movies/c.mkv")
                                            "OldSite"] |}.

Definition no_plugin_files (p : string) : option NtDb :=
  if String.eqb p "/nt/user.db" then Some no_plugin_db else None.

Definition plugin_and_download : Config :=
  {| clear := Some true; nt_db_path := Some "/nt/user.db"; path := None;
     downloader := None; site := None;
     transfer := Some false; plugin := Some true; download := Some true |}.

(** A record of [IYUUAutoSeed] whose value is cut short, the record of
    [TorrentTransfer] after it, and a run over the two under the
    downloader rule [1:2]. *)
Definition cut_short_row : PluginRow.t :=
  PluginRow.mk "IYUUAutoSeed" "f161efaf" (SText (Json.quoted "[{'downloader': '1'")).

Definition cut_short_db : NtDb :=
  {| TRANSFER_HISTORY := [];
     PLUGIN_HISTORY := [cut_short_row; transfer_seed_row];
     DOWNLOAD_HISTORY := [];
     download_by_tmdbid := [] |}.

Definition cut_short_files (p : string) : option NtDb :=
  if String.eqb p "/nt/user.db" then Some cut_short_db else None.

Definition plugin_with_rule : Config :=
  {| clear := Some false; nt_db_path := Some "/nt/user.db"; path := None;
     downloader := Some "1:2"; site := None;
     transfer := Some false; plugin := Some true; download := Some false |}.

(** ** More of the plugin and of its base class *)

(** The data half of what [get_form] returns: the values of a form that
    was never filled in.  (The other half lays out the page.) *)
Definition get_form_data : Config :=
  {| clear := Some false; nt_db_path := Some EmptyString;
     path := Some EmptyString; downloader := Some EmptyString;
     site := Some EmptyString;
     transfer := Some false; plugin := Some false; download := Some false |}.

(** The truncate call of a category's store, the calls on it. *)
Definition truncate_of (k : category) : event :=
  match k with
  | Transfer => TransferTruncate
  | Plugin => PluginTruncate
  | Download => DownloadTruncate
  end.

Definition is_truncate (e : event) : bool :=
  match e with
  | TransferTruncate | PluginTruncate | DownloadTruncate => true
  | _ => false
  end.

Definition on_store (k : category) (e : event) : bool :=
  match e with
  | Log _ _ => false
  | _ => concerns k e
  end.

(** Event [e] truncates the store of category [k]. *)
Definition truncates (k : category) (e : event) : bool :=
  on_store k e && is_truncate e.

(** In a list of events, nothing has been done to the store of [k]
    before it is truncated. *)
Definition truncate_first (k : category) (evs : list event) : Prop :=
  forall before after,
    evs = (before ++ truncate_of k :: after)%list ->
    Forall (fun e => on_store k e = false) before.

(** A list of events made of a part that leaves the store of [k] alone,
    then a part in which only the first event may truncate it. *)
Definition truncate_leads (k : category) (evs : list event) : Prop :=
  exists quiet rest,
    evs = (quiet ++ rest)%list
    /\ Forall (fun e => on_store k e = false) quiet
    /\ Forall (fun e => truncates k e = false) (tl rest).

(** The call that saves a plugin row exactly as it was read. *)
Definition saved_as_read (r : PluginRow.t) : event :=
  PluginSave (PluginRow.plugin_id r) (PluginRow.plugin_key r)
             (Sql.to_py (PluginRow.plugin_value r)).

(** Two dicts have the same keys in the same order and the same value
    under every key but [field]. *)
Definition same_but (field : string) (items items' : list (string * pyval))
  : Prop :=
  map fst items' = map fst items
  /\ forall g, g <> field -> PyVal.lookup g items' = PyVal.lookup g items.

(** Two values are dicts that differ at most under [field]. *)
Definition same_dict_but (field : string) (x x' : pyval) : Prop :=
  exists items items',
    x = PDict items /\ x' = PDict items' /\ same_but field items items'.

(** A configuration that imports the plugin history of the sample
    database under the rule [1:2]. *)
Definition sample_plugin_config : Config :=
  {| clear := Some true; nt_db_path := Some "/nt/user.db"; path := None;
     downloader := Some "1:2"; site := None;
     transfer := Some false; plugin := Some true; download := Some false |}.

(** A record of a plugin that is not rewritten, and rules that cannot be
    read. *)
Definition other_plugin_row : PluginRow.t :=
  PluginRow.mk "DoubanSync" "1-abc123" (SText "{not json").

Definition with_unreadable_rules : Self :=
  {| _clear := None; _nt_db_path := Some "/nt/user.db"; _path := None;
     _site := None; _transfer := None; _plugin := Some true;
     _download := None; _downloader := Some "no colon here" |}.

(** The record of the docstring of [sync_plugin_history] for
    [IYUUAutoSeed], with short hashes. *)
Definition seed_row : PluginRow.t :=
  PluginRow.mk "IYUUAutoSeed" "1-f161efaf"
    (SText (Json.quoted "[{'downloader': '1', 'torrents': ['bd64a8ed']}]")).

(** The download record written for a row of the download query under
    the site rules [_site]. *)
Definition download_record (_site : option string) (row : DownloadRow.t)
  : DownloadHistory.t :=
  DownloadHistory.mk
    (match DownloadRow.save_path row with
     | SText p => PyStr.basename p
     | _ => EmptyString
     end)
    (DownloadRow.type row) (DownloadRow.title row) (DownloadRow.year row)
    (DownloadRow.tmdbid row) (DownloadRow.seasons row)
    (DownloadRow.episodes row) (DownloadRow.poster row)
    (DownloadRow.download_id row) (DownloadRow.torrent row)
    (DownloadRow.desc row)
    (match remap_sites _site (DownloadRow.site row) with
     | Ok msite => msite
     | Raise _ => DownloadRow.site row
     end).

(** A save path is [NULL] or a text. *)
Definition null_or_text (v : sqlval) : bool :=
  match v with
  | SInt _ => false
  | _ => true
  end.

(** A row of [DOWNLOAD_HISTORY] that has what the download store
    insists on, a type and a title, or that the download query leaves
    out anyway. *)
Definition storable (d : DownloadTable.t) : bool :=
  negb (is_not_null (DownloadTable.SAVE_PATH d))
  || (is_not_null (DownloadTable.TYPE d)
      && is_not_null (DownloadTable.TITLE d)).

Definition backslash_char : ascii := ascii_of_nat 92.

(** The attributes of the sample configuration. *)
Definition sample_attributes : Self := attributes_of sample_config.

(** ** The plugin base class, [app/plugins/__init__.py] *)

Module PluginBase.

(** [if not plugin_id: plugin_id = self.__class__.__name__] *)
Definition effective_id (class_name : string) (plugin_id : option string)
  : string :=
  match plugin_id with
  | Some (String _ _ as p) => p
  | _ => class_name
  end.

(** The key [f"plugin.{plugin_id}"] under which a plugin's configuration
    is kept. *)
Definition config_key (class_name : string) (plugin_id : option string)
  : string :=
  "plugin." ++ effective_id class_name plugin_id.

(** [update_config] and [get_config], over the system configuration:
    a store with the operations [set] and [get] of [SystemConfigOper],
    which are taken as given. *)
Section SystemConfig.
Variables store value : Type.
Variable set : string -> value -> store -> store.
Variable get : string -> store -> option value.

Definition update_config (class_name : string) (config : value)
  (plugin_id : option string) (st : store) : store :=
  set (config_key class_name plugin_id) config st.

Definition get_config (class_name : string) (plugin_id : option string)
  (st : store) : option value :=
  get (config_key class_name plugin_id) st.
End SystemConfig.

End PluginBase.

(** A system configuration kept as a function from keys, for
    examples. *)
Definition function_set (k : string) (v : Config)
  (st : string -> option Config) : string -> option Config :=
  fun k' => if String.eqb k' k then Some v else st k'.

Definition function_get (k : string) (st : string -> option Config)
  : option Config :=
  st k.

(** ** The download history table, [app/db/models/downloadhistory.py] *)

Module DownloadHistoryModel.

(** [query.offset(offset).limit(limit).all()] on the rows of a table in
    the order the database returns them.  As SQLite has it, a negative
    offset is no offset and a negative limit is no limit. *)
Definition offset_limit {A : Type} (offset limit : Z) (rows : list A) : list A :=
  let rest := skipn (Z.to_nat offset) rows in
  if (limit <? 0)%Z then rest else firstn (Z.to_nat limit) rest.

(** An [int] of Python that SQLite takes as a parameter: one of 64
    bits.  Binding any other raises [OverflowError]. *)
Definition fits_integer (z : Z) : bool :=
  (- 2 ^ 63 <=? z)%Z && (z <? 2 ^ 63)%Z.

(** [list_by_page(db, page, count)]: offset and limit are parameters of
    the statement. *)
Definition list_by_page {A : Type} (db : list A) (page count : Z)
  : result (list A) :=
  let offset := ((page - 1) * count)%Z in
  if fits_integer offset && fits_integer count
  then Ok (offset_limit offset count db)
  else Raise OverflowError.

End DownloadHistoryModel.

(** [DownloadHistoryOper.list_by_page(page=1, count=30)] of
    [app/db/downloadhistory_oper.py]; [None] is an argument left out. *)
Definition oper_list_by_page {A : Type} (db : list A) (page count : option Z)
  : result (list A) :=
  DownloadHistoryModel.list_by_page db
    (match page with Some p => p | None => 1%Z end)
    (match count with Some n => n | None => 30%Z end).

(** * Properties *)

(** ** The monad *)

Section Monad.
Context {A B : Type}.

Lemma keeps_ret (a : A) : keeps_self (ret a).
Proof. intro s; reflexivity. Qed.

Lemma keeps_raise (e : exn) : keeps_self (@raise A e).
Proof. intro s; reflexivity. Qed.

Lemma keeps_lift (r : result A) : keeps_self (lift r).
Proof. intro s; reflexivity. Qed.

Lemma keeps_bind (m : M A) (k : A -> M B) :
  keeps_self m -> (forall a, keeps_self (k a)) -> keeps_self (bind m k).
Proof.
  intros Hm Hk s. unfold bind.
  destruct (value (m s)) eqn:E; cbn.
  - rewrite Hk. apply Hm.
  - apply Hm.
Qed.

Lemma emits_ret P (a : A) : emits P (ret a).
Proof. intro s; constructor. Qed.

Lemma emits_raise P (e : exn) : emits P (@raise A e).
Proof. intro s; constructor. Qed.

Lemma emits_lift P (r : result A) : emits P (lift r).
Proof. intro s; constructor. Qed.

Lemma emits_bind P (m : M A) (k : A -> M B) :
  emits P m -> (forall a, emits P (k a)) -> emits P (bind m k).
Proof.
  intros Hm Hk s. unfold bind.
  destruct (value (m s)) eqn:E; cbn.
  - apply Forall_app; split; [apply Hm | apply Hk].
  - apply Hm.
Qed.
End Monad.

Lemma keeps_emit e : keeps_self (emit e).
Proof. intro s; reflexivity. Qed.

Lemma keeps_get_self : keeps_self get_self.
Proof. intro s; reflexivity. Qed.

Lemma keeps_when b m : keeps_self m -> keeps_self (when b m).
Proof. destruct b; cbn; [trivial | intros _; apply keeps_ret]. Qed.

Lemma keeps_for_each {A : Type} (l : list A) body :
  (forall a, keeps_self (body a)) -> keeps_self (for_each l body).
Proof.
  intro H; induction l as [|a l IH]; cbn.
  - apply keeps_ret.
  - apply keeps_bind; auto.
Qed.

Lemma keeps_for_rows {A : Type} (xs : option (list A)) body :
  (forall a, keeps_self (body a)) -> keeps_self (for_rows xs body).
Proof.
  intro H; destruct xs; cbn; [now apply keeps_for_each | apply keeps_raise].
Qed.

Lemma emits_emit (P : event -> Prop) e : P e -> emits P (emit e).
Proof. intros H s; cbn; auto. Qed.

Lemma emits_get_self P : emits P get_self.
Proof. intro s; constructor. Qed.

Lemma emits_set_self P s' : emits P (set_self s').
Proof. intro s; constructor. Qed.

Lemma emits_when P b m : emits P m -> emits P (when b m).
Proof. destruct b; cbn; [trivial | intros _; apply emits_ret]. Qed.

Lemma emits_for_each {A : Type} P (l : list A) body :
  (forall a, In a l -> emits P (body a)) -> emits P (for_each l body).
Proof.
  induction l as [|a l IH]; cbn; intro H.
  - apply emits_ret.
  - apply emits_bind; [apply H; now left | intros _; apply IH; auto].
Qed.

Lemma emits_for_rows {A : Type} P (xs : option (list A)) body :
  (forall l a, xs = Some l -> In a l -> emits P (body a)) ->
  emits P (for_rows xs body).
Proof.
  intro H; destruct xs; cbn; [apply emits_for_each; eauto | apply emits_raise].
Qed.

Lemma keeps_downloadhistory_add r : keeps_self (downloadhistory_add r).
Proof.
  unfold downloadhistory_add.
  destruct (_ && _); [apply keeps_emit | apply keeps_raise].
Qed.

Lemma emits_downloadhistory_add (P : event -> Prop) r :
  P (DownloadAdd r) -> emits P (downloadhistory_add r).
Proof.
  intro H. unfold downloadhistory_add.
  destruct (_ && _); [now apply emits_emit | apply emits_raise].
Qed.

Ltac keeps :=
  repeat first
    [ apply keeps_bind | apply keeps_when | apply keeps_for_rows
    | apply keeps_for_each | apply keeps_emit | apply keeps_ret
    | apply keeps_lift | apply keeps_raise | apply keeps_get_self
    | apply keeps_downloadhistory_add
    | match goal with |- forall _, _ => intro end ].

Lemma keeps_sync_transfer_row r : keeps_self (sync_transfer_row r).
Proof.
  unfold sync_transfer_row, log.
  destruct (TransferRow.src r) as [[|? ?]|]; keeps;
    destruct (TransferRow.dest r) as [[|? ?]|]; keeps.
Qed.

Lemma keeps_sync_transfer_history h : keeps_self (sync_transfer_history h).
Proof.
  unfold sync_transfer_history, log. keeps. apply keeps_sync_transfer_row.
Qed.

Lemma keeps_sync_plugin_history h : keeps_self (sync_plugin_history h).
Proof. unfold sync_plugin_history, sync_plugin_row, log. keeps. Qed.

Lemma keeps_sync_download_history h : keeps_self (sync_download_history h).
Proof. unfold sync_download_history, sync_download_row, log. keeps. Qed.

Lemma keeps_fetched {A : Type} k (rows : list A) : keeps_self (fetched k rows).
Proof. destruct rows; cbn; unfold log; keeps. Qed.

Lemma keeps_connect files p : keeps_self (connect files p).
Proof. unfold connect. destruct p; [destruct (files _)|]; keeps. Qed.

Lemma bind_set_self {B : Type} x (k : unit -> M B) s :
  bind (set_self x) k s = k tt x.
Proof. unfold bind, set_self; cbn. now destruct (k tt x). Qed.

Lemma bind_get_self {B : Type} (k : Self -> M B) s :
  bind get_self k s = k s s.
Proof. unfold bind, get_self; cbn. now destruct (k s s). Qed.

Lemma bind_outcome {A B : Type} (m : M A) (k : A -> M B) s a s' evs :
  m s = {| value := Ok a; final := s'; emitted := evs |} ->
  bind m k s = {| value := value (k a s'); final := final (k a s');
                  emitted := (evs ++ emitted (k a s'))%list |}.
Proof. intro H. unfold bind. now rewrite H. Qed.

Lemma bind_emit {B : Type} e (k : unit -> M B) s :
  bind (emit e) k s = {| value := value (k tt s); final := final (k tt s);
                         emitted := e :: emitted (k tt s) |}.
Proof. reflexivity. Qed.

Lemma bind_raises {A B : Type} (m : M A) (k : A -> M B) s e s' evs :
  m s = {| value := Raise e; final := s'; emitted := evs |} ->
  bind m k s = {| value := Raise e; final := s'; emitted := evs |}.
Proof. intro H. unfold bind. now rewrite H. Qed.

(** [init_plugin] with a configuration sets the attributes, then runs or
    does nothing. *)
Lemma init_plugin_unfold files c s :
  init_plugin files (Some c) s =
  if runs c then import_all files (attributes_of c) (attributes_of c)
  else ret tt (attributes_of c).
Proof.
  unfold init_plugin. rewrite bind_set_self, bind_get_self.
  unfold runs. fold (attributes_of c). cbn [attributes_of _nt_db_path _transfer _plugin _download].
  destruct (_ && _); reflexivity.
Qed.

Lemma keeps_import_all files s : keeps_self (import_all files s).
Proof.
  unfold import_all, get_nt_transfer_history, get_nt_plugin_history,
    get_nt_download_history, update_config.
  keeps; auto using keeps_fetched, keeps_sync_transfer_row, keeps_connect.
Qed.

(** [init_plugin] with a configuration leaves the attributes read from
    it, whether the run ends or raises. *)
Lemma final_init_plugin files c s :
  final (init_plugin files (Some c) s) = attributes_of c.
Proof.
  rewrite init_plugin_unfold. destruct (runs c); [apply keeps_import_all | reflexivity].
Qed.

(** C9.  After [init_plugin] has read a configuration, [get_state()] is
    true exactly when one of the switches transfer, plugin, download is
    set in it, whether the run ended or raised; putting any other
    database path, rule texts and clear flag in the configuration does
    not change it.  On a plugin that was given no configuration the
    state is false. *)
Theorem get_state_reads_the_three_switches :
  (forall files c s,
      get_state (final (init_plugin files (Some c) s))
      = truthy (transfer c) || truthy (plugin c) || truthy (download c))
  /\ (forall files files' c s s' clear' db' path' downloader' site',
         get_state (final (init_plugin files (Some c) s))
         = get_state
             (final (init_plugin files'
                       (Some {| clear := clear'; nt_db_path := db';
                                path := path'; downloader := downloader';
                                site := site'; transfer := transfer c;
                                plugin := plugin c; download := download c |})
                       s')))
  /\ (forall files, get_state (final (init_plugin files None fresh)) = false).
Proof.
  split; [|split].
  - intros files c s. rewrite final_init_plugin. unfold get_state; cbn.
    now destruct (_ || _).
  - intros. now rewrite !final_init_plugin.
  - reflexivity.
Qed.

(** ** The end of a run *)

Lemma bind_ok_inv {A B : Type} (m : M A) (k : A -> M B) s b :
  value (bind m k s) = Ok b ->
  exists a, value (m s) = Ok a
            /\ value (k a (final (m s))) = Ok b
            /\ emitted (bind m k s)
               = (emitted (m s) ++ emitted (k a (final (m s))))%list.
Proof.
  unfold bind. destruct (value (m s)) as [a|e] eqn:E; cbn; intro H.
  - exists a; auto.
  - discriminate.
Qed.

Lemma stored_config_last evs c :
  stored_config (evs ++ [UpdateConfig c])%list = Some c.
Proof.
  induction evs as [|e evs IH]; cbn; [reflexivity | now rewrite IH].
Qed.

Lemma ends_with_bind {A B : Type} e (m : M A) (k : A -> M B) :
  (forall a, ends_with e (k a)) -> ends_with e (bind m k).
Proof.
  intros Hk s b Hb.
  destruct (bind_ok_inv m k s b Hb) as (a & _ & Ha & ->).
  destruct (Hk a _ _ Ha) as (evs & ->).
  exists (emitted (m s) ++ evs)%list. now rewrite app_assoc.
Qed.

Lemma import_all_ends_with_update files s :
  ends_with (UpdateConfig {| clear := Some false;
                             nt_db_path := _nt_db_path s;
                             path := _path s;
                             downloader := _downloader s;
                             site := _site s;
                             transfer := Some false;
                             plugin := Some false;
                             download := Some false |})
            (import_all files s).
Proof.
  unfold import_all.
  do 4 (apply ends_with_bind; intros ?).
  intros s0 u _. now exists [].
Qed.

(** C8.  When the run takes place and all its categories finish, the
    last thing the coordinator does is store a configuration whose clear
    flag and three category switches are false and whose database path
    and path, downloader and site rule texts are those it was given; run
    again with that stored configuration, the plugin touches nothing. *)
Theorem finished_run_switches_everything_off files c s :
  runs c = true ->
  value (init_plugin files (Some c) s) = Ok tt ->
  let c' := {| clear := Some false;
               nt_db_path := nt_db_path c;
               path := path c;
               downloader := downloader c;
               site := site c;
               transfer := Some false;
               plugin := Some false;
               download := Some false |} in
  (exists evs,
      emitted (init_plugin files (Some c) s) = (evs ++ [UpdateConfig c'])%list)
  /\ stored_config (emitted (init_plugin files (Some c) s)) = Some c'
  /\ forall files' s',
       value (init_plugin files' (Some c') s') = Ok tt
       /\ emitted (init_plugin files' (Some c') s') = [].
Proof.
  intros Hrun Hok c'.
  rewrite init_plugin_unfold, Hrun in Hok |- *.
  destruct (import_all_ends_with_update files (attributes_of c) _ _ Hok)
    as (evs & Hevs).
  cbn [attributes_of _nt_db_path _path _downloader _site] in Hevs.
  fold c' in Hevs. rewrite Hevs.
  split; [now exists evs|]. split; [apply stored_config_last|].
  intros files' s'. rewrite init_plugin_unfold.
  unfold runs, c'; cbn. rewrite andb_false_r. now split.
Qed.

(** ** Transfer history *)

Lemma has_two_sides_items line :
  has_two_sides line = true ->
  exists p0 p1, PyStr.item (PyStr.split ":" line) 0 = Ok p0
                /\ PyStr.item (PyStr.split ":" line) 1 = Ok p1.
Proof.
  unfold has_two_sides, PyStr.item. intro H.
  destruct (PyStr.split ":" line) as [|p0 [|p1 l]]; cbn in H; try discriminate.
  now exists p0, p1.
Qed.

Lemma rfold_remap_path_ok lines sd :
  forallb has_two_sides lines = true ->
  exists sd', rfold remap_path lines sd = Ok sd'.
Proof.
  revert sd. induction lines as [|line lines IH]; intros sd H; cbn.
  - now exists sd.
  - cbn in H. apply andb_true_iff in H as [H1 H2].
    destruct (has_two_sides_items line H1) as (p0 & p1 & E0 & E1).
    unfold remap_path. destruct sd as [msrc mdest].
    rewrite E0, E1. cbn. apply IH, H2.
Qed.

(** Readable path rules never raise. *)
Lemma remap_paths_ok _path msrc mdest :
  rules_readable _path = true ->
  exists sd, remap_paths _path msrc mdest = Ok sd.
Proof.
  unfold rules_readable, remap_paths.
  destruct _path as [[|c t]|]; intro H; try (now eexists).
  now apply rfold_remap_path_ok.
Qed.

Lemma sync_transfer_row_outcome s r :
  rules_readable (_path s) = true ->
  sync_transfer_row r s =
  {| value := Ok tt; final := s; emitted := transfer_events (_path s) r |}.
Proof.
  intro H. unfold sync_transfer_row, transfer_events, moved, has_src, has_dest.
  destruct (TransferRow.src r) as [[|c1 t1]|]; try reflexivity;
    destruct (TransferRow.dest r) as [[|c2 t2]|]; try reflexivity.
  cbn [nonempty andb text_of].
  destruct (remap_paths_ok (_path s) (String c1 t1) (String c2 t2) H)
    as ([msrc mdest] & E).
  rewrite bind_get_self. unfold bind, lift, log, emit. cbn. rewrite E. reflexivity.
Qed.

Lemma for_each_transfer_rows s rows :
  rules_readable (_path s) = true ->
  for_each rows sync_transfer_row s =
  {| value := Ok tt; final := s;
     emitted := flat_map (transfer_events (_path s)) rows |}.
Proof.
  intro H. induction rows as [|r rows IH]; [reflexivity|].
  cbn [for_each flat_map]. unfold bind.
  rewrite (sync_transfer_row_outcome s r H). cbn. now rewrite IH.
Qed.

(** The whole of [sync_transfer_history] on rows, under readable path
    rules. *)
Lemma sync_transfer_history_outcome s rows :
  rules_readable (_path s) = true ->
  sync_transfer_history (Some rows) s =
  {| value := Ok tt; final := s;
     emitted := (Log Info (Started Transfer)
                 :: (if truthy (_clear s)
                     then [Log Info (Cleared Transfer); TransferTruncate]
                     else [])
                 ++ flat_map (transfer_events (_path s)) rows
                 ++ [Log Info (Finished Transfer)])%list |}.
Proof.
  intro H. unfold sync_transfer_history, for_rows, log.
  rewrite bind_emit, bind_get_self.
  assert (W : when (truthy (_clear s))
                (emit (Log Info (Cleared Transfer));; emit TransferTruncate) s
              = {| value := Ok tt; final := s;
                   emitted := if truthy (_clear s)
                              then [Log Info (Cleared Transfer); TransferTruncate]
                              else [] |}).
  { destruct (truthy (_clear s)); reflexivity. }
  rewrite (bind_outcome _ _ _ _ _ _ W).
  rewrite (bind_outcome _ _ _ _ _ _ (for_each_transfer_rows s rows H)).
  reflexivity.
Qed.

Lemma filter_transfer_events _path rows :
  filter on_transfer_store (flat_map (transfer_events _path) rows)
  = map (fun r => TransferAdd (moved _path r))
        (filter (fun r => has_src r && has_dest r) rows).
Proof.
  induction rows as [|r rows IH]; [reflexivity|].
  cbn [flat_map]. rewrite filter_app, IH. unfold transfer_events. cbn [filter].
  destruct (has_src r && has_dest r); reflexivity.
Qed.

(** ** What each part of a run may emit *)

Lemma emitted_bind {A B : Type} (m : M A) (k : A -> M B) s :
  emitted (bind m k s)
  = (emitted (m s)
     ++ match value (m s) with
        | Ok a => emitted (k a (final (m s)))
        | Raise _ => []
        end)%list.
Proof.
  unfold bind. destruct (value (m s)); cbn; [reflexivity | now rewrite app_nil_r].
Qed.

Lemma value_bind {A B : Type} (m : M A) (k : A -> M B) s :
  value (bind m k s)
  = match value (m s) with
    | Ok a => value (k a (final (m s)))
    | Raise e => Raise e
    end.
Proof. unfold bind. now destruct (value (m s)). Qed.

(** [emits_bind] when what follows depends on the value passed on. *)
Lemma emits_bind_value {A B : Type} P (m : M A) (k : A -> M B) :
  emits P m ->
  (forall s a, value (m s) = Ok a -> emits P (k a)) ->
  emits P (bind m k).
Proof.
  intros Hm Hk s. rewrite emitted_bind. apply Forall_app; split; [apply Hm|].
  destruct (value (m s)) eqn:E; [eapply Hk; eauto | constructor].
Qed.

Lemma filter_emits_nil {A : Type} f (m : M A) s :
  emits (fun e => f e = false) m -> filter f (emitted (m s)) = [].
Proof.
  intro H. specialize (H s). induction H as [|e l He _ IH]; cbn;
    [reflexivity | now rewrite He].
Qed.

Ltac side := try unfold logs_of; intros; first [exact I | reflexivity].

Ltac emits :=
  repeat first
    [ apply emits_bind | apply emits_when | apply emits_for_rows
    | apply emits_for_each | apply emits_ret | apply emits_lift
    | apply emits_raise | apply emits_get_self | apply emits_set_self
    | apply emits_emit; solve [auto]
    | apply emits_downloadhistory_add; solve [auto]
    | match goal with |- forall _, _ => intro end ].

Section Emits.
Variable P : event -> Prop.

Lemma emits_fetched {A : Type} k (rows : list A) :
  logs_of P k -> emits P (fetched k rows).
Proof. intro L. destruct rows; cbn; unfold log; emits; now apply L. Qed.

Lemma emits_connect files p : emits P (connect files p).
Proof. unfold connect. destruct p; [destruct (files _)|]; emits. Qed.

Lemma emits_sync_transfer_row r :
  logs_of P Transfer -> (forall x, P (TransferAdd x)) ->
  emits P (sync_transfer_row r).
Proof.
  intros L H. unfold sync_transfer_row, log.
  destruct (TransferRow.src r) as [[|? ?]|]; emits;
    destruct (TransferRow.dest r) as [[|? ?]|]; emits; now apply L.
Qed.

Lemma emits_sync_transfer_history h :
  logs_of P Transfer -> P TransferTruncate -> (forall x, P (TransferAdd x)) ->
  emits P (sync_transfer_history h).
Proof.
  intros L H1 H2. unfold sync_transfer_history, log. emits;
    try (now apply L). now apply emits_sync_transfer_row.
Qed.

Lemma emits_sync_plugin_history h :
  logs_of P Plugin -> P PluginTruncate -> (forall i k v, P (PluginSave i k v)) ->
  emits P (sync_plugin_history h).
Proof.
  intros L H1 H2. unfold sync_plugin_history, sync_plugin_row, log. emits;
    now apply L.
Qed.

Lemma emits_sync_download_history h :
  logs_of P Download -> P DownloadTruncate -> (forall x, P (DownloadAdd x)) ->
  emits P (sync_download_history h).
Proof.
  intros L H1 H2. unfold sync_download_history, sync_download_row, log. emits;
    now apply L.
Qed.

Lemma emits_transfer_category s cursor :
  logs_of P Transfer -> P TransferTruncate -> (forall x, P (TransferAdd x)) ->
  emits P (when (truthy (_transfer s))
                (transfer_history <- get_nt_transfer_history cursor ;;
                 sync_transfer_history transfer_history)).
Proof.
  intros L H1 H2. apply emits_when, emits_bind; [now apply emits_fetched|].
  intro h. now apply emits_sync_transfer_history.
Qed.

Lemma emits_plugin_category s cursor :
  logs_of P Plugin -> P PluginTruncate -> (forall i k v, P (PluginSave i k v)) ->
  emits P (when (truthy (_plugin s))
                (plugin_history <- get_nt_plugin_history cursor ;;
                 sync_plugin_history plugin_history)).
Proof.
  intros L H1 H2. apply emits_when, emits_bind; [now apply emits_fetched|].
  intro h. now apply emits_sync_plugin_history.
Qed.

Lemma emits_download_category s cursor :
  logs_of P Download -> P DownloadTruncate -> (forall x, P (DownloadAdd x)) ->
  emits P (when (truthy (_download s))
                (download_history <- get_nt_download_history cursor ;;
                 sync_download_history download_history)).
Proof.
  intros L H1 H2. apply emits_when, emits_bind; [now apply emits_fetched|].
  intro h. now apply emits_sync_download_history.
Qed.
End Emits.

Lemma fetched_some {A : Type} k (r : A) (rows : list A) s :
  fetched k (r :: rows) s
  = {| value := Ok (Some (r :: rows)); final := s;
       emitted := [Log Info (Fetched k (S (List.length rows)))] |}.
Proof. reflexivity. Qed.

Lemma connect_found files p db s :
  files p = Some db ->
  connect files (Some p) s = {| value := Ok db; final := s; emitted := [] |}.
Proof. intro H. unfold connect. now rewrite H. Qed.

Lemma no_rules_readable t : nonempty t = false -> rules_readable t = true.
Proof. destruct t as [[|? ?]|]; cbn; congruence. Qed.

Lemma no_rules_moved t r : nonempty t = false -> moved t r = copied r.
Proof. destruct t as [[|? ?]|]; cbn; try congruence; reflexivity. Qed.

(** The calls the transfer store receives in a run whose transfer
    category is switched on and has rows, under readable path rules:
    the truncate when clear is set, then one add per row with both
    paths; nothing the later categories do reaches this store. *)
Lemma transfer_store_calls files c s p db :
  truthy (transfer c) = true ->
  nt_db_path c = Some p -> p <> EmptyString -> files p = Some db ->
  rules_readable (path c) = true ->
  transfer_query db <> [] ->
  filter on_transfer_store (emitted (init_plugin files (Some c) s))
  = ((if truthy (clear c) then [TransferTruncate] else [])
     ++ map (fun r => TransferAdd (moved (path c) r))
            (filter (fun r => has_src r && has_dest r) (transfer_query db)))%list.
Proof.
  intros Ht Hp Hne Hf Hr Hrows.
  rewrite init_plugin_unfold.
  assert (Hrun : runs c = true).
  { unfold runs. rewrite Hp, Ht. destruct p; [congruence | reflexivity]. }
  rewrite Hrun. unfold import_all.
  cbn [attributes_of _nt_db_path _transfer _plugin _download _path _clear].
  rewrite Hp, (bind_outcome _ _ _ _ _ _ (connect_found files p db _ Hf)).
  cbn [emitted app]. rewrite Ht. cbn [when].
  rewrite emitted_bind, filter_app.
  match goal with
  | |- (_ ++ filter _ ?rest)%list = _ =>
      assert (R : filter on_transfer_store rest = [])
  end.
  { destruct (value _); [|reflexivity].
    apply filter_emits_nil.
    apply emits_bind;
      [apply emits_plugin_category with (s := attributes_of c); side|intros _].
    apply emits_bind;
      [apply emits_download_category with (s := attributes_of c); side|intros _].
    unfold update_config. now apply emits_emit. }
  rewrite R, app_nil_r. clear R.
  unfold get_nt_transfer_history.
  destruct (transfer_query db) as [|r rows] eqn:E; [congruence|].
  rewrite (bind_outcome _ _ _ _ _ _ (fetched_some Transfer r rows _)).
  rewrite sync_transfer_history_outcome by exact Hr.
  cbn [emitted attributes_of _path _clear app filter on_transfer_store].
  rewrite filter_app, filter_app, filter_transfer_events.
  cbn [filter on_transfer_store]. rewrite app_nil_r.
  destruct (truthy (clear c)); reflexivity.
Qed.

Lemma joined_path_nonempty a b :
  nonempty (Sql.concat (Sql.concat (Sql.text a) (Some "/")) (Sql.text b))
  = is_not_null a && is_not_null b.
Proof.
  assert (N : forall x y, nonempty (Some ((x ++ "/") ++ y)) = true).
  { intros x y. now destruct x. }
  destruct a as [|x|x], b as [|y|y];
    unfold Sql.text, Sql.concat, is_not_null; cbn [andb];
    first [reflexivity | apply N].
Qed.

Lemma has_src_select t d : has_src (select_transfer t d) = has_source t.
Proof. apply joined_path_nonempty. Qed.

Lemma has_dest_select t d : has_dest (select_transfer t d) = has_destination t.
Proof. apply joined_path_nonempty. Qed.

(** Among rows with different keys, at most one of those that all have
    the same key. *)
Lemma filter_at_most_one {A B : Type} (key : A -> B) (P : A -> bool) l :
  NoDup (map key l) ->
  (forall x y, In x l -> In y l -> P x = true -> P y = true -> key x = key y) ->
  List.length (filter P l) <= 1.
Proof.
  induction l as [|a l IH]; intros N H; cbn; [lia|].
  inversion N as [|? ? Ha Nl]; subst.
  destruct (P a) eqn:Pa.
  - assert (E : filter P l = []).
    { destruct (filter P l) as [|y f] eqn:F; [reflexivity|]. exfalso.
      assert (Iy : In y (filter P l)) by (rewrite F; now left).
      apply filter_In in Iy as [Iy Py]. apply Ha.
      rewrite (H a y (or_introl eq_refl) (or_intror Iy) Pa Py).
      now apply in_map. }
    rewrite E. cbn. lia.
  - apply IH; [exact Nl|]. intros x y Ix Iy. apply H; now right.
Qed.

(** A transfer is joined to one row at most when the downloads with its
    title and type have one [TMDBID]; the query then answers one row per
    transfer, in the order of the table. *)
Lemma transfer_query_one_per_row db :
  grouped_by_tmdbid (DOWNLOAD_HISTORY db) (download_by_tmdbid db) ->
  joins_one_tmdbid db ->
  transfer_query db
  = map (fun t => select_transfer t (joined db t)) (TRANSFER_HISTORY db).
Proof.
  intros (Hincl & Hnd & _) Hone. unfold transfer_query.
  assert (L : forall l, incl l (TRANSFER_HISTORY db) ->
              flat_map (left_join (download_by_tmdbid db)) l
              = map (fun t => select_transfer t (joined db t)) l).
  { induction l as [|t l IH]; intro Hl; [reflexivity|].
    cbn [flat_map map]. rewrite IH by (intros x Hx; apply Hl; now right).
    assert (It : In t (TRANSFER_HISTORY db)) by (apply Hl; now left).
    pose proof (filter_at_most_one DownloadTable.TMDBID (joins t)
                  (download_by_tmdbid db) Hnd) as M.
    unfold left_join, joined.
    destruct (filter (joins t) (download_by_tmdbid db)) as [|d [|d' f]];
      [reflexivity | reflexivity |].
    exfalso. cbn in M. assert (S (S (List.length f)) <= 1); [|lia].
    apply M. intros x y Ix Iy. apply (Hone t); auto. }
  apply L, incl_refl.
Qed.

Lemma filter_map_commute {A B : Type} (g : A -> B) (P : B -> bool) l :
  filter P (map g l) = map g (filter (fun a => P (g a)) l).
Proof.
  induction l as [|a l IH]; cbn; [reflexivity|].
  rewrite IH. now destruct (P (g a)).
Qed.

(** C5, as the code has it.  A transfer row has no destination when its
    destination directory or file name is [NULL]; an empty text is a
    destination like any other.  Three rows in [TRANSFER_HISTORY],
    exactly one of them without destination and the two others with a
    source too, each joined to one download at most (the downloads with
    its title and type have one [TMDBID]), clear set, transfer switched
    on and no path rules: the transfer store receives one truncate, then
    the two rows that have a destination, in the order of the table and
    as the query answers them, and nothing else. *)
Theorem three_transfers_one_without_destination files c s p db :
  truthy (clear c) = true ->
  truthy (transfer c) = true ->
  nt_db_path c = Some p -> p <> EmptyString -> files p = Some db ->
  nonempty (path c) = false ->
  grouped_by_tmdbid (DOWNLOAD_HISTORY db) (download_by_tmdbid db) ->
  joins_one_tmdbid db ->
  List.length (TRANSFER_HISTORY db) = 3 ->
  List.length (filter (fun t => negb (has_destination t)) (TRANSFER_HISTORY db))
  = 1 ->
  (forall t, In t (TRANSFER_HISTORY db) ->
             has_destination t = true -> has_source t = true) ->
  exists t1 t2,
    filter has_destination (TRANSFER_HISTORY db) = [t1; t2]
    /\ filter on_transfer_store (emitted (init_plugin files (Some c) s))
       = [TransferTruncate;
          TransferAdd (copied (select_transfer t1 (joined db t1)));
          TransferAdd (copied (select_transfer t2 (joined db t2)))].
Proof.
  intros Hc Ht Hp Hne Hf Hpath Hg Hone H3 H1 Hsrc.
  pose proof (transfer_query_one_per_row db Hg Hone) as Q.
  assert (Hrows : transfer_query db <> []).
  { rewrite Q. destruct (TRANSFER_HISTORY db); [discriminate H3 | discriminate]. }
  rewrite (transfer_store_calls files c s p db Ht Hp Hne Hf
             (no_rules_readable _ Hpath) Hrows), Hc, Q.
  rewrite filter_map_commute.
  assert (E : filter (fun t => has_src (select_transfer t (joined db t))
                               && has_dest (select_transfer t (joined db t)))
                     (TRANSFER_HISTORY db)
              = filter has_destination (TRANSFER_HISTORY db)).
  { apply filter_ext_in. intros t Hin.
    rewrite has_src_select, has_dest_select.
    destruct (has_destination t) eqn:D;
      [now rewrite (Hsrc t Hin D) | apply andb_false_r]. }
  rewrite E.
  pose proof (filter_length has_destination (TRANSFER_HISTORY db)) as L.
  rewrite H1, H3 in L.
  destruct (filter has_destination (TRANSFER_HISTORY db)) as [|t1 [|t2 [|t3 l]]];
    cbn in L; try lia.
  exists t1, t2. split; [reflexivity|].
  cbn. now rewrite !(no_rules_moved _ _ Hpath).
Qed.




(** ** Rule texts *)

Lemma split_free c s : free_of c s = true -> PyStr.split c s = [s].
Proof.
  induction s as [|a s IH]; cbn; [reflexivity|].
  intro H. apply andb_true_iff in H as [H1 H2].
  apply negb_true_iff in H1. rewrite H1, (IH H2). reflexivity.
Qed.

Lemma split_app c a b :
  free_of c a = true ->
  PyStr.split c (a ++ String c b) = a :: PyStr.split c b.
Proof.
  induction a as [|x a IH]; cbn.
  - intros _. now rewrite Ascii.eqb_refl.
  - intro H. apply andb_true_iff in H as [H1 H2].
    apply negb_true_iff in H1. rewrite H1, (IH H2). reflexivity.
Qed.

Lemma free_of_app c a b :
  free_of c (a ++ b) = free_of c a && free_of c b.
Proof.
  induction a as [|x a IH]; cbn; [reflexivity | now rewrite IH, andb_assoc].
Qed.

(** A rule [a:b] whose sides have no [':'] splits into its two sides. *)
Lemma split_rule a b :
  free_of ":" a = true -> free_of ":" b = true ->
  PyStr.split ":" (a ++ String ":" b) = [a; b].
Proof. intros Ha Hb. now rewrite split_app, (split_free _ b Hb). Qed.

(** ** [str.replace] *)

Lemma replace_scan_skip old new k s :
  PyStr.replace_scan old new k s = PyStr.replace_scan old new 0 (slice_from k s).
Proof.
  revert k. induction s as [|c r IH]; intro k.
  - now destruct k.
  - destruct k as [|k]; [reflexivity|]. cbn [PyStr.replace_scan slice_from]. apply IH.
Qed.

Lemma replace_scan_absent old new s :
  index 0 old s = None -> PyStr.replace_scan old new 0 s = s.
Proof.
  induction s as [|c r IH]; [reflexivity|].
  cbn [index PyStr.replace_scan].
  destruct (prefix old (String c r)); [discriminate|].
  destruct (index 0 old r); [discriminate|]. intros _. now rewrite IH.
Qed.

Lemma replace_scan_found a old' new s i :
  index 0 (String a old') s = Some i ->
  PyStr.replace_scan (String a old') new 0 s
  = slice_to i s ++ new
    ++ PyStr.replace_scan (String a old') new 0
         (slice_from (i + String.length (String a old')) s).
Proof.
  revert i. induction s as [|c r IH]; intro i; [discriminate|].
  cbn [index PyStr.replace_scan].
  destruct (prefix (String a old') (String c r)).
  - intro E; injection E as <-. cbn [slice_to append Nat.add String.length slice_from].
    replace (S (String.length old') - 1)%nat with (String.length old') by lia.
    now rewrite replace_scan_skip.
  - destruct (index 0 (String a old') r) as [n|]; [|discriminate].
    intro E; injection E as <-.
    cbn [slice_to append Nat.add slice_from]. now rewrite (IH n eq_refl).
Qed.

(** [s.replace(old, new)] for a non-empty [old], by the first place
    where [old] occurs in [s]: none, and [s] is returned; place [i], and
    the result is [s[:i]], [new], then the replacement carried on in
    what follows the occurrence. *)
Lemma replace_by_first_occurrence old new s :
  old <> EmptyString ->
  match index 0 old s with
  | None => PyStr.replace old new s = s
  | Some i =>
      PyStr.replace old new s
      = slice_to i s ++ new
        ++ PyStr.replace old new (slice_from (i + String.length old) s)
  end.
Proof.
  intro H. destruct old as [|a old']; [congruence|]. unfold PyStr.replace.
  destruct (index 0 (String a old') s) eqn:E.
  - now apply replace_scan_found.
  - now apply replace_scan_absent.
Qed.

(** C3, as the code has it.  Under the single path rule [p1:p2] ([p1]
    not empty, no [':'] nor line break in either side) a path is
    remapped by replacing every occurrence of [p1], leftmost first and
    without overlap, by [p2], and then every backslash by ['/'], whether
    or not [p1] occurs: by the first place [i] of [p1] in a text [s],
    the replacement is [s[:i]], [p2], and the replacement carried on
    after the occurrence; it is [s] when [p1] does not occur.  A path is
    returned as it is when there are no path rules. *)
Theorem path_rule_replaces_every_occurrence p1 p2 msrc mdest :
  p1 <> EmptyString ->
  free_of ":" p1 = true -> free_of ":" p2 = true ->
  free_of newline p1 = true -> free_of newline p2 = true ->
  remap_paths (Some (p1 ++ ":" ++ p2)) msrc mdest
  = Ok (PyStr.replace backslash "/" (PyStr.replace p1 p2 msrc),
        PyStr.replace backslash "/" (PyStr.replace p1 p2 mdest))
  /\ (forall s,
         match index 0 p1 s with
         | None => PyStr.replace p1 p2 s = s
         | Some i =>
             PyStr.replace p1 p2 s
             = slice_to i s ++ p2
               ++ PyStr.replace p1 p2 (slice_from (i + String.length p1) s)
         end)
  /\ (forall t, nonempty t = false -> remap_paths t msrc mdest = Ok (msrc, mdest)).
Proof.
  intros Hne Hc1 Hc2 Hn1 Hn2. split; [|split].
  - assert (Hline : PyStr.split newline (p1 ++ ":" ++ p2) = [p1 ++ ":" ++ p2]).
    { apply split_free. rewrite free_of_app, Hn1. cbn. exact Hn2. }
    destruct p1 as [|a p1']; [congruence|].
    unfold remap_paths. cbn [append].
    change (String a (p1' ++ String ":" p2))
      with (String a p1' ++ ":" ++ p2) in *.
    rewrite Hline. cbn [rfold]. unfold remap_path.
    change (String a p1' ++ ":" ++ p2) with (String a p1' ++ String ":" p2).
    rewrite (split_rule _ _ Hc1 Hc2). reflexivity.
  - intro s. now apply replace_by_first_occurrence.
  - intros t Ht. destruct t as [[|? ?]|]; cbn in Ht; try discriminate; reflexivity.
Qed.

Lemma path_rule_replaces_every_occurrence_witness :
  remap_paths (Some "/dl:/downloads") "/dl/x/dl/c.mkv" "D:\media\dl"
  = Ok ("/downloads/x/downloads/c.mkv", "D:/media/dl").
Proof.
  exact (proj1 (path_rule_replaces_every_occurrence "/dl" "/downloads"
                  "/dl/x/dl/c.mkv" "D:\media\dl"
                  ltac:(discriminate) eq_refl eq_refl eq_refl eq_refl)).
Defined.

(** C3 as stated fails twice: the second occurrence of the rule's source
    is replaced as well, and a path in which the source does not occur
    still has its backslashes turned into ['/']. *)
Lemma second_occurrence_is_replaced :
  remap_paths (Some "/old:/new") "/old/a/old/b" "C:\x"
  = Ok ("/new/a/new/b", "C:/x")
  /\ "/new/a/new/b" <> "/new/a/old/b"
  /\ index 0 "/old" "C:\x" = None
  /\ "C:/x" <> "C:\x".
Proof. repeat split; (reflexivity || discriminate). Qed.

(** C6, as the code has it.  The rules of a rule text are applied one
    after another, in the order of the lines, each to the value the
    lines before it have left: what the text [line], line break, [rest]
    makes of a value is what [rest] makes of the value [line] has made
    of it.  So a rule whose source matches the rewritten value rewrites
    it again; no rule stops the ones after it.  This holds for the site
    rules, the path rules and the downloader rules alike. *)
Theorem rules_are_applied_in_turn line rest :
  free_of newline line = true ->
  rest <> EmptyString ->
  (forall msite,
      remap_sites (Some (line ++ String newline rest)) msite
      = rbind (remap_site msite line) (remap_sites (Some rest)))
  /\ (forall msrc mdest,
         remap_paths (Some (line ++ String newline rest)) msrc mdest
         = rbind (remap_path (msrc, mdest) line)
                 (fun sd => remap_paths (Some rest) (fst sd) (snd sd)))
  /\ (forall plugin_id plugin_key plugin_value,
         remap_downloaders (Some (line ++ String newline rest))
                           plugin_id plugin_key plugin_value
         = rbind (remap_downloader plugin_id (plugin_key, plugin_value) line)
                 (fun kv => remap_downloaders (Some rest) plugin_id
                                              (fst kv) (snd kv))).
Proof.
  intros Hline Hrest.
  assert (Hs : PyStr.split newline (line ++ String newline rest)
               = line :: PyStr.split newline rest) by now apply split_app.
  assert (Hne : exists c t, line ++ String newline rest = String c t).
  { destruct line; cbn; eauto. }
  destruct Hne as (c & t & Hne).
  destruct rest as [|c' rest']; [congruence|].
  split; [|split].
  - intro msite. unfold remap_sites at 1. rewrite Hne, <- Hne, Hs. cbn [rfold].
    unfold rbind. destruct (remap_site msite line); reflexivity.
  - intros msrc mdest. unfold remap_paths at 1. rewrite Hne, <- Hne, Hs.
    cbn [rfold]. unfold rbind.
    destruct (remap_path (msrc, mdest) line) as [[s d]|]; reflexivity.
  - intros plugin_id plugin_key plugin_value.
    unfold remap_downloaders at 1. rewrite Hne, <- Hne, Hs. cbn [rfold].
    unfold rbind.
    destruct (remap_downloader plugin_id (plugin_key, plugin_value) line)
      as [[k v]|]; reflexivity.
Qed.

Lemma rules_are_applied_in_turn_witness :
  remap_sites (Some (two_rules "OldSite:MidSite" "MidSite:NewSite"))
              (SText "OldSite")
  = rbind (remap_site (SText "OldSite") "OldSite:MidSite")
          (remap_sites (Some "MidSite:NewSite")).
Proof.
  exact (proj1 (rules_are_applied_in_turn "OldSite:MidSite" "MidSite:NewSite"
                  eq_refl ltac:(discriminate)) (SText "OldSite")).
Defined.

(** C6 as stated fails for each of the three rule sets: the first rule
    that matches the original value does not win, the second rule
    rewrites what the first has written. *)
Lemma later_rule_rewrites_again :
  remap_sites (Some (two_rules "OldSite:MidSite" "MidSite:NewSite"))
              (SText "OldSite")
  = Ok (SText "NewSite")
  /\ remap_site (SText "OldSite") "OldSite:MidSite" = Ok (SText "MidSite")
  /\ remap_paths (Some (two_rules "/a:/b" "/b:/c")) "/a/x" "/a/y"
     = Ok ("/c/x", "/c/y")
  /\ remap_downloaders (Some (two_rules "1:2" "2:3")) "TorrentTransfer" "1-abc"
       (PStr (Json.quoted "{'to_download': 1}"))
     = Ok ("3-abc", PDict [("to_download", PStr "3")]).
Proof. repeat split; vm_compute; reflexivity. Qed.

(** ** Plugin history *)

Lemma remap_key_sample :
  remap_key ["1"; "2"] "1-abc123" = Ok "2-abc223".
Proof. reflexivity. Qed.

(** C2, what the code does at that very input.  Under the single
    downloader rule [1:2], the record of [TorrentTransfer] with key
    [1-abc123] never gets the key [2-abc123]: whenever the rewriting of
    the record ends, the key is [2-abc223], since [replace] rewrites the
    [1] inside the hash as well as the downloader index; and it does end
    so on the value [{"to_download": 1}], which is saved under that
    key. *)
Theorem key_rewrite_reaches_the_hash :
  (forall plugin_value,
      match remap_downloaders (Some "1:2") "TorrentTransfer" "1-abc123"
                              plugin_value with
      | Ok kv => fst kv = "2-abc223"
      | Raise _ => True
      end)
  /\ remap_downloaders (Some "1:2") "TorrentTransfer" "1-abc123"
       (PStr (Json.quoted "{'to_download': 1}"))
     = Ok ("2-abc223", PDict [("to_download", PStr "2")])
  /\ emitted (sync_plugin_row transfer_seed_row with_downloader_rule)
     = [PluginSave "TorrentTransfer" "2-abc223"
          (PDict [("to_download", PStr "2")])].
Proof.
  split; [|split].
  - intro v. unfold remap_downloaders.
    change (PyStr.split newline "1:2") with ["1:2"]. cbn [rfold].
    unfold remap_downloader.
    change (PyStr.split ":" "1:2") with ["1"; "2"].
    change ("TorrentTransfer" =? "TorrentTransfer")%string with true.
    change ("TorrentTransfer" =? "IYUUAutoSeed")%string with false.
    cbv iota. rewrite remap_key_sample. cbn [rbind].
    destruct (decode v) as [v1|]; cbn [rbind]; [|exact I].
    destruct (remap_field "to_download" ["1"; "2"] v1); cbn [rbind fst];
      [reflexivity | exact I].
  - vm_compute. reflexivity.
  - vm_compute. reflexivity.
Qed.

(** ** Download history *)

Lemma connect_value files p s db :
  value (connect files p s) = Ok db ->
  exists f, p = Some f /\ files f = Some db.
Proof.
  unfold connect. destruct p as [f|]; [|discriminate].
  destruct (files f) as [db'|] eqn:E; [|discriminate].
  cbn. intro H; injection H as <-. now exists f.
Qed.

Lemma fetched_value {A : Type} k (rows : list A) s l :
  value (fetched k rows s) = Ok (Some l) -> l = rows.
Proof.
  destruct rows; cbn; [discriminate | intro H; now injection H].
Qed.

Lemma in_download_query table row :
  In row (download_query table) ->
  exists d, In d table /\ row = select_download d
            /\ DownloadTable.SAVE_PATH d <> SNull.
Proof.
  unfold download_query. intro H. apply in_map_iff in H as (d & <- & Hd).
  apply filter_In in Hd as [Hin Hnn]. exists d. repeat split; [exact Hin|].
  intro E. rewrite E in Hnn. discriminate.
Qed.

Lemma emits_sync_download_row table row :
  In row (download_query table) ->
  emits (download_adds_from table) (sync_download_row row).
Proof.
  intro Hin. unfold sync_download_row.
  apply emits_bind; [apply emits_get_self | intro s0].
  apply emits_bind; [apply emits_lift | intro msite].
  apply emits_bind_value; [apply emits_lift | intros s1 p Hp].
  apply emits_downloadhistory_add. cbn in Hp |- *.
  destruct (in_download_query table row Hin) as (d & Hd & -> & _).
  exists d. cbn in Hp. unfold os_path_basename in Hp.
  destruct (DownloadTable.SAVE_PATH d) as [|z|q] eqn:E; try discriminate.
  exists q. injection Hp as <-. repeat split; auto.
Qed.

(** C10.  The download query answers the rows of table
    [DOWNLOAD_HISTORY] whose [SAVE_PATH] is not [NULL], and no other:
    no row it answers has a [NULL] save path.  And every record the run
    adds to the download store comes from a row of that table, in the
    database at the configured path, that the query keeps, whose
    [SAVE_PATH] is not [NULL] but a text, and the record's path is the
    last component of that text. *)
Theorem written_downloads_have_a_save_path :
  (forall table row,
      (In row (download_query table)
       <-> exists d, In d table /\ DownloadTable.SAVE_PATH d <> SNull
                     /\ row = select_download d)
      /\ (In row (download_query table) -> DownloadRow.save_path row <> SNull))
  /\ (forall files c s r,
         In (DownloadAdd r) (emitted (init_plugin files (Some c) s)) ->
         exists p db d q,
           nt_db_path c = Some p /\ files p = Some db
           /\ In d (DOWNLOAD_HISTORY db)
           /\ In (select_download d) (download_query (DOWNLOAD_HISTORY db))
           /\ DownloadTable.SAVE_PATH d = SText q
           /\ DownloadTable.SAVE_PATH d <> SNull
           /\ DownloadHistory.path r = PyStr.basename q).
Proof.
  split.
  { intros table row. split; [split|].
    - intro H. destruct (in_download_query table row H) as (d & Hd & E & Hn).
      now exists d.
    - intros (d & Hd & Hn & ->). unfold download_query.
      apply in_map, filter_In. split; [exact Hd|].
      now destruct (DownloadTable.SAVE_PATH d).
    - intro H. destruct (in_download_query table row H) as (d & Hd & -> & Hn).
      exact Hn. }
  intros files c s r.
  rewrite init_plugin_unfold. destruct (runs c); [|intros []].
  set (P := fun e => match e with
                     | DownloadAdd r =>
                         exists p db, nt_db_path c = Some p /\ files p = Some db
                                      /\ made_from (DOWNLOAD_HISTORY db) r
                     | _ => True
                     end).
  assert (H : emits P (import_all files (attributes_of c))).
  { unfold import_all.
    apply emits_bind_value; [apply emits_connect|].
    intros s0 cursor Hc. apply connect_value in Hc as (p & Hp & Hf).
    cbn in Hp.
    apply emits_bind; [apply emits_transfer_category; side|intros _].
    apply emits_bind; [apply emits_plugin_category; side|intros _].
    apply emits_bind; [|intros _; apply emits_emit; exact I].
    apply emits_when. unfold get_nt_download_history.
    apply emits_bind_value; [apply emits_fetched; side|].
    intros s1 h Hh. unfold sync_download_history, log.
    apply emits_bind; [apply emits_emit; exact I|intros _].
    apply emits_bind; [apply emits_get_self|intros s2].
    apply emits_bind;
      [apply emits_when, emits_bind;
       [|intros _]; apply emits_emit; exact I|intros _].
    apply emits_bind; [|intros _; apply emits_emit; exact I].
    apply emits_for_rows. intros l row -> Hrow.
    apply fetched_value in Hh as ->.
    intros s3. eapply Forall_impl; [|apply (emits_sync_download_row _ _ Hrow)].
    intros [ | | | | |r'| | ]; cbn; auto. intro M. now exists p, cursor. }
  intro Hin. specialize (H (attributes_of c)).
  rewrite Forall_forall in H. specialize (H _ Hin). cbn in H.
  destruct H as (p & db & Hp & Hf & d & q & Hd & Hq & Hs & Hr).
  exists p, db, d, q. repeat split; auto. rewrite Hs. discriminate.
Qed.

Lemma written_downloads_have_a_save_path_witness :
  exists p db d q,
    nt_db_path sample_config = Some p /\ sample_files p = Some db
    /\ In d (DOWNLOAD_HISTORY db)
    /\ In (select_download d) (download_query (DOWNLOAD_HISTORY db))
    /\ DownloadTable.SAVE_PATH d = SText q
    /\ DownloadTable.SAVE_PATH d <> SNull
    /\ PyStr.basename "/downloads/movies/c.mkv" = PyStr.basename q.
Proof.
  apply (proj2 written_downloads_have_a_save_path
           sample_files sample_config fresh
           (DownloadHistory.mk (PyStr.basename "/downloads/movies/c.mkv")
              (SText "movie") (SText "C") (SText "2020") (SInt 603)
              (SText "S01") (SText "E02") SNull (SText "abc123")
              (SText "C.2020") SNull (SText "NewSite"))).
  vm_compute. tauto.
Defined.

(** ** Runs that raise *)

Lemma fails_raise {A : Type} e : fails (@raise A e).
Proof. intro s. now exists e. Qed.

Lemma fails_bind_l {A B : Type} (m : M A) (k : A -> M B) :
  fails m -> fails (bind m k).
Proof.
  intros H s. destruct (H s) as (e & E). exists e. now rewrite value_bind, E.
Qed.

Lemma fails_bind_value {A B : Type} (m : M A) (k : A -> M B) :
  (forall s a, value (m s) = Ok a -> fails (k a)) -> fails (bind m k).
Proof.
  intros H s. rewrite value_bind. destruct (value (m s)) as [a|e] eqn:E.
  - exact (H s a E _).
  - now exists e.
Qed.

Lemma fails_bind_r {A B : Type} (m : M A) (k : A -> M B) :
  (forall a, fails (k a)) -> fails (bind m k).
Proof. intro H. apply fails_bind_value. auto. Qed.

Lemma emits_if_raised_bind {A B : Type} P (m : M A) (k : A -> M B) :
  emits P m -> (forall a, emits_if_raised P (k a)) ->
  emits_if_raised P (bind m k).
Proof.
  intros Hm Hk s e. rewrite value_bind, emitted_bind. intro H.
  apply Forall_app; split; [apply Hm|].
  destruct (value (m s)) as [a|e']; [eapply Hk; eauto | constructor].
Qed.

(** A run that raises has stored no configuration. *)
Lemma import_all_raised_stores_nothing files s :
  emits_if_raised (fun ev => is_update_config ev = false) (import_all files s).
Proof.
  unfold import_all.
  apply emits_if_raised_bind; [apply emits_connect|intro cursor].
  apply emits_if_raised_bind; [apply emits_transfer_category; side|intros _].
  apply emits_if_raised_bind; [apply emits_plugin_category; side|intros _].
  apply emits_if_raised_bind; [apply emits_download_category; side|intros _].
  intros s0 e H. discriminate.
Qed.

(** Iterating over [None]: each importer raises once it gets to its
    loop. *)
Lemma sync_transfer_history_none : fails (sync_transfer_history None).
Proof.
  unfold sync_transfer_history. do 3 (apply fails_bind_r; intros ?).
  apply fails_bind_l, fails_raise.
Qed.

Lemma sync_plugin_history_none : fails (sync_plugin_history None).
Proof.
  unfold sync_plugin_history. do 3 (apply fails_bind_r; intros ?).
  apply fails_bind_l, fails_raise.
Qed.

Lemma sync_download_history_none : fails (sync_download_history None).
Proof.
  unfold sync_download_history. do 3 (apply fails_bind_r; intros ?).
  apply fails_bind_l, fails_raise.
Qed.

Lemma fetched_nothing {A : Type} k (rows : list A) s h :
  List.length rows = 0 -> value (fetched k rows s) = Ok h -> h = None.
Proof.
  destruct rows; [|discriminate]. cbn. intros _ H. now injection H.
Qed.

Lemma emits_bind_fails {A B : Type} P (m : M A) (k : A -> M B) :
  emits P m -> fails m -> emits P (bind m k).
Proof.
  intros Hm Hf s. rewrite emitted_bind. destruct (Hf s) as (e & ->).
  rewrite app_nil_r. apply Hm.
Qed.

(** A category that is switched on and whose query answers no row
    raises. *)
Lemma transfer_category_fails s db :
  truthy (_transfer s) = true -> extracted Transfer db = 0 ->
  fails (when (truthy (_transfer s))
              (transfer_history <- get_nt_transfer_history db ;;
               sync_transfer_history transfer_history)).
Proof.
  intros -> H0. cbn [when]. apply fails_bind_value. intros s1 h Hh.
  apply fetched_nothing in Hh as ->; [apply sync_transfer_history_none|exact H0].
Qed.

Lemma plugin_category_fails s db :
  truthy (_plugin s) = true -> extracted Plugin db = 0 ->
  fails (when (truthy (_plugin s))
              (plugin_history <- get_nt_plugin_history db ;;
               sync_plugin_history plugin_history)).
Proof.
  intros -> H0. cbn [when]. apply fails_bind_value. intros s1 h Hh.
  apply fetched_nothing in Hh as ->; [apply sync_plugin_history_none|exact H0].
Qed.

Lemma download_category_fails s db :
  truthy (_download s) = true -> extracted Download db = 0 ->
  fails (when (truthy (_download s))
              (download_history <- get_nt_download_history db ;;
               sync_download_history download_history)).
Proof.
  intros -> H0. cbn [when]. apply fails_bind_value. intros s1 h Hh.
  apply fetched_nothing in Hh as ->; [apply sync_download_history_none|exact H0].
Qed.

Ltac other_category :=
  unfold logs_of; intros;
  match goal with
  | H : message_category _ = _ |- _ => cbn [concerns]; rewrite H; reflexivity
  | _ => reflexivity
  end.

(** C4, what the code does.  When a category is switched on and its
    query answers no row, the extraction hands [None] to the importer,
    whose loop over it raises: the run ends with an exception, whatever
    the categories before it did; the categories that follow are never
    started (no log line, no store call of theirs) and no configuration
    is stored. *)
Theorem no_rows_end_the_run files c s p db k :
  nt_db_path c = Some p -> p <> EmptyString -> files p = Some db ->
  enabled k c = true ->
  extracted k db = 0 ->
  (exists e, value (init_plugin files (Some c) s) = Raise e)
  /\ (forall k', follows k k' = true ->
                 Forall (fun ev => concerns k' ev = false)
                        (emitted (init_plugin files (Some c) s)))
  /\ Forall (fun ev => is_update_config ev = false)
            (emitted (init_plugin files (Some c) s)).
Proof.
  intros Hp Hne Hf Hk H0.
  assert (Hrun : runs c = true).
  { unfold runs. rewrite Hp. destruct p; [congruence|]. cbn [nonempty andb].
    destruct k; cbn [enabled] in Hk; rewrite Hk;
      rewrite ?orb_true_r; reflexivity. }
  rewrite init_plugin_unfold, Hrun.
  set (a := attributes_of c).
  assert (F : fails (import_all files a)).
  { unfold import_all. apply fails_bind_value. intros s0 cursor Hc.
    apply connect_value in Hc as (f & Hf' & Hc). cbn in Hf'.
    assert (cursor = db) as -> by congruence.
    destruct k; cbn [enabled] in Hk.
    - now apply fails_bind_l, transfer_category_fails.
    - apply fails_bind_r; intros _. now apply fails_bind_l, plugin_category_fails.
    - do 2 (apply fails_bind_r; intros _).
      now apply fails_bind_l, download_category_fails. }
  destruct (F a) as (e & E). split; [now exists e|]. split.
  - intros k' Hk'.
    assert (Q : emits (fun ev => concerns k' ev = false) (import_all files a)).
    { unfold import_all. apply emits_bind_value; [apply emits_connect|].
      intros s0 cursor Hc.
      apply connect_value in Hc as (f & Hf' & Hc). cbn in Hf'.
      assert (cursor = db) as -> by congruence.
      destruct k, k'; try discriminate; cbn [enabled] in Hk.
      - apply emits_bind_fails; [|now apply transfer_category_fails].
        apply emits_transfer_category; other_category.
      - apply emits_bind_fails; [|now apply transfer_category_fails].
        apply emits_transfer_category; other_category.
      - apply emits_bind; [apply emits_transfer_category; other_category|].
        intros _. apply emits_bind_fails; [|now apply plugin_category_fails].
        apply emits_plugin_category; other_category. }
    apply Q.
  - exact (import_all_raised_stores_nothing _ _ _ _ E).
Qed.

Lemma no_rows_end_the_run_witness :
  (exists e, value (init_plugin no_plugin_files (Some plugin_and_download) fresh)
             = Raise e)
  /\ (forall k', follows Plugin k' = true ->
                 Forall (fun ev => concerns k' ev = false)
                        (emitted (init_plugin no_plugin_files
                                              (Some plugin_and_download) fresh)))
  /\ Forall (fun ev => is_update_config ev = false)
            (emitted (init_plugin no_plugin_files (Some plugin_and_download) fresh)).
Proof.
  apply (no_rows_end_the_run no_plugin_files plugin_and_download fresh
           "/nt/user.db" no_plugin_db Plugin);
    (reflexivity || discriminate).
Defined.

(** The same run, step by step: the error is logged, the plugin store
    is emptied, [TypeError] is raised; the download category, switched
    on, is never reached and no configuration is stored. *)
Example no_plugin_rows_run :
  init_plugin no_plugin_files (Some plugin_and_download) fresh
  = {| value := Raise TypeError;
       final := attributes_of plugin_and_download;
       emitted := [Log Error (NothingFetched Plugin);
                   Log Info (Started Plugin);
                   Log Info (Cleared Plugin);
                   PluginTruncate] |}.
Proof. reflexivity. Qed.

(** ** Values that are not JSON *)

Lemma split_cons c s : exists l ls, PyStr.split c s = l :: ls.
Proof.
  induction s as [|a s (l & ls & IH)]; cbn; [now eexists; eexists|].
  destruct (Ascii.eqb a c); [now eexists; eexists|]. rewrite IH. now eexists; eexists.
Qed.

Lemma decode_malformed v :
  Json.loads v = None -> exists e, decode (PStr v) = Raise e.
Proof.
  unfold Json.loads, decode. destruct (Json.decode v) as [x|e];
    [discriminate | now exists e].
Qed.

Lemma decode_loads text v :
  decode (PStr text) = Ok v <-> Json.loads text = Some v.
Proof.
  unfold Json.loads, decode. destruct (Json.decode text) as [x|e]; split;
    intro H; (discriminate H || (injection H as <-; reflexivity)).
Qed.

(** The first downloader rule already raises on a record to rewrite whose
    value is not JSON. *)
Lemma remap_downloader_malformed plugin_id plugin_key v line :
  rewritten plugin_id = true ->
  Json.loads v = None ->
  exists e, remap_downloader plugin_id (plugin_key, PStr v) line = Raise e.
Proof.
  intros Hid Hv. unfold remap_downloader, rewritten in *.
  destruct (plugin_id =? "TorrentTransfer")%string.
  - destruct (remap_key _ plugin_key) as [k|e]; cbn [rbind].
    + destruct (decode_malformed v Hv) as (e & ->). cbn. now eexists.
    + now exists e.
  - cbn in Hid. rewrite Hid. cbn [rbind snd].
    destruct (decode_malformed v Hv) as (e & ->). cbn. now eexists.
Qed.

Lemma sync_plugin_row_malformed s bad v :
  nonempty (_downloader s) = true ->
  rewritten (PluginRow.plugin_id bad) = true ->
  PluginRow.plugin_value bad = SText v ->
  Json.loads v = None ->
  exists e, sync_plugin_row bad s
            = {| value := Raise e; final := s; emitted := [] |}.
Proof.
  intros Hd Hid Hval Hv. unfold sync_plugin_row. rewrite bind_get_self, Hval.
  destruct (_downloader s) as [[|c t]|]; try discriminate.
  unfold remap_downloaders.
  destruct (split_cons newline (String c t)) as (line & lines & ->).
  cbn [rfold Sql.to_py].
  destruct (remap_downloader_malformed (PluginRow.plugin_id bad)
              (PluginRow.plugin_key bad) v line Hid Hv) as (e & ->).
  now exists e.
Qed.

(** A record is saved once, or not at all when its rewriting raises. *)
Lemma sync_plugin_row_outcome r s :
  (exists e, sync_plugin_row r s
             = {| value := Raise e; final := s; emitted := [] |})
  \/ (exists k v, sync_plugin_row r s
                  = {| value := Ok tt; final := s;
                       emitted := [PluginSave (PluginRow.plugin_id r) k v] |}).
Proof.
  unfold sync_plugin_row. rewrite bind_get_self.
  destruct (remap_downloaders _ _ _ _) as [[k v]|e] eqn:E.
  - right. exists k, v. unfold bind, lift; cbn. reflexivity.
  - left. exists e. reflexivity.
Qed.

Lemma for_each_malformed s before bad after v :
  nonempty (_downloader s) = true ->
  rewritten (PluginRow.plugin_id bad) = true ->
  PluginRow.plugin_value bad = SText v ->
  Json.loads v = None ->
  exists e evs,
    for_each (before ++ bad :: after)%list sync_plugin_row s
    = {| value := Raise e; final := s; emitted := evs |}
    /\ List.length (filter is_plugin_save evs) <= List.length before.
Proof.
  intros Hd Hid Hval Hv.
  induction before as [|r before (e & evs & IH & Hlen)]; cbn [app for_each].
  - destruct (sync_plugin_row_malformed s bad v Hd Hid Hval Hv) as (e & E).
    exists e, []. split; [now apply bind_raises | cbn; lia].
  - destruct (sync_plugin_row_outcome r s) as [(e' & E)|(k & w & E)].
    + exists e', []. split; [now apply bind_raises | cbn; lia].
    + exists e, (PluginSave (PluginRow.plugin_id r) k w :: evs).
      split; [|cbn; lia].
      rewrite (bind_outcome _ _ _ _ _ _ E), IH. reflexivity.
Qed.

Lemma sync_plugin_history_malformed s before bad after v :
  nonempty (_downloader s) = true ->
  rewritten (PluginRow.plugin_id bad) = true ->
  PluginRow.plugin_value bad = SText v ->
  Json.loads v = None ->
  exists e evs,
    sync_plugin_history (Some (before ++ bad :: after)%list) s
    = {| value := Raise e; final := s; emitted := evs |}
    /\ List.length (filter is_plugin_save evs) <= List.length before.
Proof.
  intros Hd Hid Hval Hv.
  destruct (for_each_malformed s before bad after v Hd Hid Hval Hv)
    as (e & evs & E & Hlen).
  unfold sync_plugin_history, for_rows, log.
  rewrite bind_emit, bind_get_self.
  assert (W : when (truthy (_clear s))
                (emit (Log Info (Cleared Plugin));; emit PluginTruncate) s
              = {| value := Ok tt; final := s;
                   emitted := if truthy (_clear s)
                              then [Log Info (Cleared Plugin); PluginTruncate]
                              else [] |}).
  { destruct (truthy (_clear s)); reflexivity. }
  rewrite (bind_outcome _ _ _ _ _ _ W), (bind_raises _ _ _ _ _ _ E).
  cbn [value final emitted]. eexists; eexists; split; [reflexivity|].
  cbn [filter is_plugin_save]. rewrite filter_app.
  destruct (truthy (_clear s)); cbn; exact Hlen.
Qed.

Lemma keeps_transfer_category s cursor :
  keeps_self (when (truthy (_transfer s))
                   (transfer_history <- get_nt_transfer_history cursor ;;
                    sync_transfer_history transfer_history)).
Proof.
  apply keeps_when, keeps_bind; [apply keeps_fetched|].
  intro h. apply keeps_sync_transfer_history.
Qed.

(** C1, as the code has it.  Nothing catches the failure of
    [json.loads]: for a record of [TorrentTransfer] or [IYUUAutoSeed]
    whose value is not JSON, with downloader rules configured, the
    rewriting of the record raises and the record is not saved; the run
    that meets it (plugin category switched on) ends with an exception,
    saves at most the records that come before it, none after it, and
    stores no configuration. *)
Theorem malformed_value_ends_the_run files c s p db before bad after v :
  nt_db_path c = Some p -> p <> EmptyString -> files p = Some db ->
  truthy (plugin c) = true ->
  nonempty (downloader c) = true ->
  PLUGIN_HISTORY db = (before ++ bad :: after)%list ->
  rewritten (PluginRow.plugin_id bad) = true ->
  PluginRow.plugin_value bad = SText v ->
  Json.loads v = None ->
  (exists e, sync_plugin_row bad (attributes_of c)
             = {| value := Raise e; final := attributes_of c; emitted := [] |})
  /\ (exists e, value (init_plugin files (Some c) s) = Raise e)
  /\ List.length (filter is_plugin_save (emitted (init_plugin files (Some c) s)))
     <= List.length before
  /\ Forall (fun ev => is_update_config ev = false)
            (emitted (init_plugin files (Some c) s)).
Proof.
  intros Hp Hne Hf Hpl Hd Hrows Hid Hval Hv.
  set (a := attributes_of c).
  assert (Hda : nonempty (_downloader a) = true) by exact Hd.
  split; [exact (sync_plugin_row_malformed a bad v Hda Hid Hval Hv)|].
  assert (Hrun : runs c = true).
  { unfold runs. rewrite Hp, Hpl. destruct p; [congruence|].
    cbn [nonempty andb]. now rewrite orb_true_r. }
  rewrite init_plugin_unfold, Hrun. fold a.
  destruct (sync_plugin_history_malformed a before bad after v Hda Hid Hval Hv)
    as (e & evs & E & Hlen).
  unfold import_all.
  replace (_nt_db_path a) with (Some p) by (symmetry; exact Hp).
  rewrite (bind_outcome _ _ _ _ _ _ (connect_found files p db _ Hf)).
  cbn [value emitted app].
  set (T := when (truthy (_transfer a)) _).
  set (K := fun _ : unit => bind (when (truthy (_plugin a)) _) _).
  assert (HT : filter is_plugin_save (emitted (T a)) = []).
  { apply filter_emits_nil. unfold T.
    apply emits_transfer_category; side. }
  assert (HK : exists evs',
             K tt a = {| value := Raise e; final := a; emitted := evs' |}
             /\ List.length (filter is_plugin_save evs') <= List.length before).
  { unfold K. replace (truthy (_plugin a)) with true by (symmetry; exact Hpl).
    cbn [when]. unfold get_nt_plugin_history. rewrite Hrows.
    destruct (before ++ bad :: after)%list as [|r rows] eqn:R.
    { destruct before; discriminate. }
    eexists. split.
    - apply bind_raises.
      rewrite (bind_outcome _ _ _ _ _ _ (fetched_some Plugin r rows a)), E.
      reflexivity.
    - cbn [app filter is_plugin_save]. exact Hlen. }
  destruct HK as (evs' & EK & Hlen').
  assert (Hval' : exists e', value (bind T K a) = Raise e').
  { rewrite value_bind. destruct (value (T a)) as [[]|e'] eqn:VT; [|now exists e'].
    unfold T at 1. rewrite keeps_transfer_category. fold T.
    rewrite EK. now exists e. }
  split; [exact Hval'|]. split.
  - rewrite emitted_bind, filter_app, HT. cbn [app].
    destruct (value (T a)) as [[]|e'] eqn:VT; [|cbn; lia].
    unfold T at 1. rewrite keeps_transfer_category. fold T.
    rewrite EK. exact Hlen'.
  - destruct Hval' as (e' & E').
    pose proof (import_all_raised_stores_nothing files a a e') as S.
    unfold import_all in S.
    replace (_nt_db_path a) with (Some p) in S by (symmetry; exact Hp).
    rewrite (bind_outcome _ _ _ _ _ _ (connect_found files p db _ Hf)) in S.
    cbn [value emitted app] in S. apply S. exact E'.
Qed.

Lemma malformed_value_ends_the_run_witness :
  (exists e, sync_plugin_row cut_short_row (attributes_of plugin_with_rule)
             = {| value := Raise e; final := attributes_of plugin_with_rule;
                  emitted := [] |})
  /\ (exists e, value (init_plugin cut_short_files (Some plugin_with_rule) fresh)
                = Raise e)
  /\ List.length (filter is_plugin_save
                    (emitted (init_plugin cut_short_files
                                          (Some plugin_with_rule) fresh)))
     <= 0
  /\ Forall (fun ev => is_update_config ev = false)
            (emitted (init_plugin cut_short_files (Some plugin_with_rule) fresh)).
Proof.
  apply (malformed_value_ends_the_run cut_short_files plugin_with_rule fresh
           "/nt/user.db" cut_short_db [] cut_short_row [transfer_seed_row]
           (Json.quoted "[{'downloader': '1'"));
    (reflexivity || discriminate).
Defined.

(** C1 as stated fails: the record whose value is cut short is not
    skipped; [JSONDecodeError] leaves [init_plugin], the record after
    it is never saved and no configuration is stored. *)
Lemma malformed_value_is_not_skipped :
  init_plugin cut_short_files (Some plugin_with_rule) fresh
  = {| value := Raise JSONDecodeError;
       final := attributes_of plugin_with_rule;
       emitted := [Log Info (Fetched Plugin 2); Log Info (Started Plugin)] |}.
Proof. vm_compute. reflexivity. Qed.

(** ** The sample run *)

Lemma sample_subquery :
  grouped_by_tmdbid (DOWNLOAD_HISTORY sample_db) (download_by_tmdbid sample_db).
Proof.
  split; [|split].
  - intros d [<-|[]]. right. now left.
  - repeat constructor. intros [].
  - intros d [<-|[<-|[]]]; now left.
Qed.

Lemma sample_joins : joins_one_tmdbid sample_db.
Proof. intros t d d' _ [<-|[<-|[]]] [<-|[<-|[]]] _ _; reflexivity. Qed.

Lemma three_transfers_one_without_destination_witness :
  exists t1 t2,
    filter has_destination (TRANSFER_HISTORY sample_db) = [t1; t2]
    /\ filter on_transfer_store
         (emitted (init_plugin sample_files (Some sample_config) fresh))
       = [TransferTruncate;
          TransferAdd (copied (select_transfer t1 (joined sample_db t1)));
          TransferAdd (copied (select_transfer t2 (joined sample_db t2)))].
Proof.
  apply (three_transfers_one_without_destination sample_files sample_config
           fresh "/nt/user.db" sample_db);
    first [ reflexivity | discriminate | exact sample_subquery
          | exact sample_joins | idtac ].
  intros t [<-|[<-|[<-|[]]]]; (reflexivity || discriminate).
Defined.

(** C5 as stated fails: of three transfer rows, one with the empty text
    as its destination path, all three are added.  The query joins
    directory and file name around a ['/'], so the destination of that
    row is [/b.mkv], not the empty text. *)
Lemma empty_destination_path_is_added :
  List.length (TRANSFER_HISTORY empty_dest_db) = 3
  /\ map TransferTable.DEST_PATH (TRANSFER_HISTORY empty_dest_db)
     = [SText EmptyString; SText "/media"; SText "/media"]
  /\ map (fun e => match e with
                   | TransferTruncate => "truncate"
                   | TransferAdd r => TransferHistory.dest r
                   | _ => EmptyString
                   end)
         (filter on_transfer_store
            (emitted (init_plugin empty_dest_files (Some sample_config) fresh)))
     = ["truncate"; "/b.mkv"; "/media/c.mkv"; "/media/d.mkv"].
Proof. repeat split; vm_compute; reflexivity. Qed.

(** Nor is the number of transfer rows the number of rows the query
    answers: a transfer joined to two downloads is added twice. *)
Lemma twice_joined_is_added_twice :
  grouped_by_tmdbid (DOWNLOAD_HISTORY twice_joined_db)
                    (download_by_tmdbid twice_joined_db)
  /\ List.length (TRANSFER_HISTORY twice_joined_db) = 2
  /\ map (fun e => match e with
                   | TransferTruncate => (EmptyString, SNull)
                   | TransferAdd r =>
                       (TransferHistory.dest r, TransferHistory.download_hash r)
                   | _ => (EmptyString, SNull)
                   end)
         (filter on_transfer_store
            (emitted (init_plugin twice_joined_files (Some sample_config)
                                  fresh)))
     = [(EmptyString, SNull);
        ("/media/c.mkv", SText "abc123"); ("/media/c.mkv", SText "def456")].
Proof.
  split; [|split; vm_compute; reflexivity].
  split; [|split].
  - apply incl_refl.
  - repeat constructor; cbn; [intros [E|[]]; discriminate E | intros []].
  - intros d [<-|[<-|[]]]; cbn; auto.
Qed.

Lemma finished_run_switches_everything_off_witness :
  let c' := {| clear := Some false;
               nt_db_path := Some "/nt/user.db";
               path := None;
               downloader := None;
               site := Some "OldSite:NewSite";
               transfer := Some false;
               plugin := Some false;
               download := Some false |} in
  (exists evs,
      emitted (init_plugin sample_files (Some sample_config) fresh)
      = (evs ++ [UpdateConfig c'])%list)
  /\ stored_config (emitted (init_plugin sample_files (Some sample_config) fresh))
     = Some c'
  /\ forall files' s',
       value (init_plugin files' (Some c') s') = Ok tt
       /\ emitted (init_plugin files' (Some c') s') = [].
Proof.
  apply (finished_run_switches_everything_off sample_files sample_config fresh);
    reflexivity.
Defined.

(** The sample run, everything switched on: what reaches the download
    store is the one row with a save path, under its new site name. *)
Example sample_run_downloads :
  filter on_download_store
    (emitted (init_plugin sample_files (Some sample_config) fresh))
  = [DownloadTruncate;
     DownloadAdd
       (DownloadHistory.mk "c.mkv" (SText "movie") (SText "C") (SText "2020")
          (SInt 603) (SText "S01") (SText "E02") SNull (SText "abc123")
          (SText "C.2020") SNull (SText "NewSite"))].
Proof. vm_compute. reflexivity. Qed.

(** * Further properties of the run *)

(** ** Runs that do not take place, runs that cannot start *)

(** X1.  A configuration without database path, or with none of the
    three switches set, makes [init_plugin] copy the attributes and do
    nothing else: nothing is read, logged, written or stored, whatever
    is at the configured path; so does a missing configuration, which
    leaves even the attributes alone. *)
Theorem idle_configuration_touches_nothing files c s :
  nonempty (nt_db_path c) = false
  \/ (truthy (transfer c) = false /\ truthy (plugin c) = false
      /\ truthy (download c) = false) ->
  init_plugin files (Some c) s
  = {| value := Ok tt; final := attributes_of c; emitted := [] |}
  /\ init_plugin files None s = {| value := Ok tt; final := s; emitted := [] |}
  /\ get_state (final (init_plugin files (Some c) s))
     = truthy (transfer c) || truthy (plugin c) || truthy (download c).
Proof.
  intro H. rewrite init_plugin_unfold.
  assert (R : runs c = false).
  { unfold runs. destruct H as [->|(-> & -> & ->)];
      [reflexivity | apply andb_false_r]. }
  rewrite R. repeat split. unfold get_state. cbn. now destruct (_ || _).
Qed.

Lemma idle_configuration_touches_nothing_witness :
  init_plugin sample_files (Some get_form_data) with_path_rule
  = {| value := Ok tt; final := attributes_of get_form_data; emitted := [] |}
  /\ init_plugin sample_files None with_path_rule
     = {| value := Ok tt; final := with_path_rule; emitted := [] |}
  /\ get_state (final (init_plugin sample_files (Some get_form_data)
                                   with_path_rule))
     = false.
Proof.
  apply (idle_configuration_touches_nothing sample_files get_form_data
           with_path_rule).
  left. reflexivity.
Defined.

(** X2.  When the run takes place but the database at the configured
    path cannot be opened, [sqlite3.connect] raises before any category
    is looked at: no store is truncated or written, nothing is logged,
    no configuration is stored, and the exception leaves
    [init_plugin]. *)
Theorem unreadable_database_stops_before_anything files c s p :
  nt_db_path c = Some p -> p <> EmptyString ->
  truthy (transfer c) || truthy (plugin c) || truthy (download c) = true ->
  files p = None ->
  init_plugin files (Some c) s
  = {| value := Raise OperationalError; final := attributes_of c;
       emitted := [] |}.
Proof.
  intros Hp Hne Hsw Hf. rewrite init_plugin_unfold.
  assert (R : runs c = true).
  { unfold runs. rewrite Hp, Hsw. destruct p; [congruence | reflexivity]. }
  rewrite R. unfold import_all. apply bind_raises.
  cbn [attributes_of _nt_db_path]. rewrite Hp. unfold connect. now rewrite Hf.
Qed.

Lemma unreadable_database_stops_before_anything_witness :
  init_plugin (fun _ => None) (Some sample_config) fresh
  = {| value := Raise OperationalError; final := attributes_of sample_config;
       emitted := [] |}.
Proof.
  apply (unreadable_database_stops_before_anything (fun _ => None)
           sample_config fresh "/nt/user.db");
    (reflexivity || discriminate).
Defined.

(** ** What a run leaves alone *)

(** X3.  A category that is not switched on is left alone by the run,
    however the run goes: its store receives no call and no log line is
    about it. *)
Theorem switched_off_category_is_left_alone files c s k :
  enabled k c = false ->
  Forall (fun ev => concerns k ev = false)
         (emitted (init_plugin files (Some c) s)).
Proof.
  intro Hk. rewrite init_plugin_unfold. destruct (runs c); [|constructor].
  assert (Q : emits (fun ev => concerns k ev = false)
                    (import_all files (attributes_of c))).
  { set (a := attributes_of c). unfold import_all.
    apply emits_bind; [apply emits_connect|intro cursor].
    destruct k; cbn [enabled] in Hk;
      [change (truthy (_transfer a) = false) in Hk
      |change (truthy (_plugin a) = false) in Hk
      |change (truthy (_download a) = false) in Hk];
      rewrite Hk; cbn [when].
    - apply emits_bind; [apply emits_ret|intros _].
      apply emits_bind; [apply emits_plugin_category; other_category|intros _].
      apply emits_bind; [apply emits_download_category; other_category|intros _].
      now apply emits_emit.
    - apply emits_bind; [apply emits_transfer_category; other_category|intros _].
      apply emits_bind; [apply emits_ret|intros _].
      apply emits_bind; [apply emits_download_category; other_category|intros _].
      now apply emits_emit.
    - apply emits_bind; [apply emits_transfer_category; other_category|intros _].
      apply emits_bind; [apply emits_plugin_category; other_category|intros _].
      apply emits_bind; [apply emits_ret|intros _].
      now apply emits_emit. }
  apply Q.
Qed.

Lemma switched_off_category_is_left_alone_witness :
  Forall (fun ev => concerns Transfer ev = false)
         (emitted (init_plugin no_plugin_files (Some plugin_and_download) fresh)).
Proof.
  apply (switched_off_category_is_left_alone no_plugin_files
           plugin_and_download fresh Transfer).
  reflexivity.
Defined.

(** Properties of what is emitted from one given state, for computations
    that leave the instance alone. *)
Lemma at_bind {A B : Type} (P : event -> Prop) (m : M A) (k : A -> M B) s :
  keeps_self m ->
  Forall P (emitted (m s)) ->
  (forall x, value (m s) = Ok x -> Forall P (emitted (k x s))) ->
  Forall P (emitted (bind m k s)).
Proof.
  intros Hk Hm Hr. rewrite emitted_bind, Hk. apply Forall_app; split; [exact Hm|].
  destruct (value (m s)); [now apply Hr | constructor].
Qed.

Lemma at_for_each {A : Type} (P : event -> Prop) (l : list A) body s :
  (forall x, keeps_self (body x)) ->
  (forall x, In x l -> Forall P (emitted (body x s))) ->
  Forall P (emitted (for_each l body s)).
Proof.
  intros Hk. induction l as [|x l IH]; intro H; [constructor|].
  cbn [for_each]. apply at_bind; [apply Hk | apply H; now left|].
  intros _ _. apply IH. intros y Hy. apply H. now right.
Qed.

Lemma keeps_plugin_category s cursor :
  keeps_self (when (truthy (_plugin s))
                   (plugin_history <- get_nt_plugin_history cursor ;;
                    sync_plugin_history plugin_history)).
Proof.
  apply keeps_when, keeps_bind; [apply keeps_fetched|].
  intro h. apply keeps_sync_plugin_history.
Qed.

Lemma keeps_download_category s cursor :
  keeps_self (when (truthy (_download s))
                   (download_history <- get_nt_download_history cursor ;;
                    sync_download_history download_history)).
Proof.
  apply keeps_when, keeps_bind; [apply keeps_fetched|].
  intro h. apply keeps_sync_download_history.
Qed.

Section WithoutClear.
Variable P : event -> Prop.
Variable s : Self.
Hypothesis no_clear : truthy (_clear s) = false.

Lemma transfer_category_without_clear flag cursor :
  logs_of P Transfer -> (forall x, P (TransferAdd x)) ->
  Forall P (emitted (when flag
                       (transfer_history <- get_nt_transfer_history cursor ;;
                        sync_transfer_history transfer_history) s)).
Proof.
  intros L H. destruct flag; [|constructor]. cbn [when].
  apply at_bind; [apply keeps_fetched | now apply emits_fetched|].
  intros h _. unfold sync_transfer_history, log.
  rewrite bind_emit, bind_get_self, no_clear. cbn [when emitted].
  constructor; [now apply L|].
  apply emits_bind; [apply emits_ret|intros _].
  apply emits_bind; [|intros _; apply emits_emit; now apply L].
  apply emits_for_rows. intros. now apply emits_sync_transfer_row.
Qed.

Lemma plugin_category_without_clear flag cursor :
  logs_of P Plugin -> (forall i k v, P (PluginSave i k v)) ->
  Forall P (emitted (when flag
                       (plugin_history <- get_nt_plugin_history cursor ;;
                        sync_plugin_history plugin_history) s)).
Proof.
  intros L H. destruct flag; [|constructor]. cbn [when].
  apply at_bind; [apply keeps_fetched | now apply emits_fetched|].
  intros h _. unfold sync_plugin_history, log.
  rewrite bind_emit, bind_get_self, no_clear. cbn [when emitted].
  constructor; [now apply L|].
  apply emits_bind; [apply emits_ret|intros _].
  apply emits_bind; [|intros _; apply emits_emit; now apply L].
  apply emits_for_rows. intros. unfold sync_plugin_row. emits.
Qed.

Lemma download_category_without_clear flag cursor :
  logs_of P Download -> (forall x, P (DownloadAdd x)) ->
  Forall P (emitted (when flag
                       (download_history <- get_nt_download_history cursor ;;
                        sync_download_history download_history) s)).
Proof.
  intros L H. destruct flag; [|constructor]. cbn [when].
  apply at_bind; [apply keeps_fetched | now apply emits_fetched|].
  intros h _. unfold sync_download_history, log.
  rewrite bind_emit, bind_get_self, no_clear. cbn [when emitted].
  constructor; [now apply L|].
  apply emits_bind; [apply emits_ret|intros _].
  apply emits_bind; [|intros _; apply emits_emit; now apply L].
  apply emits_for_rows. intros. unfold sync_download_row. emits.
Qed.
End WithoutClear.

(** X4.  Unless the clear flag is set, a run truncates no store,
    however it goes. *)
Theorem without_clear_nothing_is_truncated files c s :
  truthy (clear c) = false ->
  Forall (fun ev => is_truncate ev = false)
         (emitted (init_plugin files (Some c) s)).
Proof.
  intro Hc. rewrite init_plugin_unfold. destruct (runs c); [|constructor].
  set (a := attributes_of c).
  assert (Ha : truthy (_clear a) = false) by exact Hc.
  unfold import_all.
  apply at_bind; [apply keeps_connect | apply emits_connect|intros cursor _].
  apply at_bind; [apply keeps_transfer_category| |intros _ _].
  { apply transfer_category_without_clear; [exact Ha| |]; side. }
  apply at_bind; [apply keeps_plugin_category| |intros _ _].
  { apply plugin_category_without_clear; [exact Ha| |]; side. }
  apply at_bind; [apply keeps_download_category| |intros _ _].
  { apply download_category_without_clear; [exact Ha| |]; side. }
  repeat constructor.
Qed.

Lemma without_clear_nothing_is_truncated_witness :
  Forall (fun ev => is_truncate ev = false)
         (emitted (init_plugin cut_short_files (Some plugin_with_rule) fresh)).
Proof.
  apply (without_clear_nothing_is_truncated cut_short_files plugin_with_rule
           fresh).
  reflexivity.
Defined.

(** ** A first category without rows *)

Lemma bind_ret {A B : Type} (a : A) (k : A -> M B) s :
  bind (ret a) k s = k a s.
Proof. unfold bind, ret; cbn. now destruct (k a s). Qed.

Lemma sync_transfer_history_none_outcome s :
  sync_transfer_history None s
  = {| value := Raise TypeError; final := s;
       emitted := Log Info (Started Transfer)
                  :: (if truthy (_clear s)
                      then [Log Info (Cleared Transfer); TransferTruncate]
                      else []) |}.
Proof.
  unfold sync_transfer_history, log. rewrite bind_emit, bind_get_self.
  destruct (truthy (_clear s)); reflexivity.
Qed.

Lemma sync_plugin_history_none_outcome s :
  sync_plugin_history None s
  = {| value := Raise TypeError; final := s;
       emitted := Log Info (Started Plugin)
                  :: (if truthy (_clear s)
                      then [Log Info (Cleared Plugin); PluginTruncate]
                      else []) |}.
Proof.
  unfold sync_plugin_history, log. rewrite bind_emit, bind_get_self.
  destruct (truthy (_clear s)); reflexivity.
Qed.

Lemma sync_download_history_none_outcome s :
  sync_download_history None s
  = {| value := Raise TypeError; final := s;
       emitted := Log Info (Started Download)
                  :: (if truthy (_clear s)
                      then [Log Info (Cleared Download); DownloadTruncate]
                      else []) |}.
Proof.
  unfold sync_download_history, log. rewrite bind_emit, bind_get_self.
  destruct (truthy (_clear s)); reflexivity.
Qed.

(** X5.  When the first category that is switched on has no row, the
    run is exactly this: the error is logged, the importer starts, the
    store of the category is truncated if clear is set, and [TypeError]
    leaves [init_plugin]; with clear set the store is thus left empty. *)
Theorem first_category_without_rows files c s p db k :
  nt_db_path c = Some p -> p <> EmptyString -> files p = Some db ->
  enabled k c = true ->
  (forall k', follows k' k = true -> enabled k' c = false) ->
  extracted k db = 0 ->
  init_plugin files (Some c) s
  = {| value := Raise TypeError; final := attributes_of c;
       emitted := [Log Error (NothingFetched k); Log Info (Started k)]
                  ++ (if truthy (clear c)
                      then [Log Info (Cleared k); truncate_of k]
                      else []) |}.
Proof.
  intros Hp Hne Hf Hk Hfirst H0.
  assert (Hrun : runs c = true).
  { unfold runs. rewrite Hp. destruct p; [congruence|]. cbn [nonempty andb].
    destruct k; cbn [enabled] in Hk; rewrite Hk;
      rewrite ?orb_true_r; reflexivity. }
  rewrite init_plugin_unfold, Hrun.
  set (a := attributes_of c). unfold import_all.
  replace (_nt_db_path a) with (Some p) by (symmetry; exact Hp).
  rewrite (bind_outcome _ _ _ _ _ _ (connect_found files p db _ Hf)).
  cbn [app].
  destruct k; cbn [enabled extracted] in Hk, H0;
    apply length_zero_iff_nil in H0.
  - change (truthy (_transfer a)) with (truthy (transfer c)). rewrite Hk.
    cbn [when]. unfold get_nt_transfer_history. rewrite H0.
    rewrite (bind_raises _ _ _ TypeError a
               ([Log Error (NothingFetched Transfer)]
                  ++ emitted (sync_transfer_history None a)));
      [now rewrite sync_transfer_history_none_outcome|].
    rewrite (bind_outcome _ _ a None a [Log Error (NothingFetched Transfer)]);
      [now rewrite sync_transfer_history_none_outcome | reflexivity].
  - pose proof (Hfirst Transfer eq_refl) as Ht. cbn [enabled] in Ht.
    change (truthy (_transfer a)) with (truthy (transfer c)). rewrite Ht.
    cbn [when]. rewrite bind_ret.
    change (truthy (_plugin a)) with (truthy (plugin c)). rewrite Hk.
    cbn [when]. unfold get_nt_plugin_history. rewrite H0.
    rewrite (bind_raises _ _ _ TypeError a
               ([Log Error (NothingFetched Plugin)]
                  ++ emitted (sync_plugin_history None a)));
      [now rewrite sync_plugin_history_none_outcome|].
    rewrite (bind_outcome _ _ a None a [Log Error (NothingFetched Plugin)]);
      [now rewrite sync_plugin_history_none_outcome | reflexivity].
  - pose proof (Hfirst Transfer eq_refl) as Ht. cbn [enabled] in Ht.
    pose proof (Hfirst Plugin eq_refl) as Hpl. cbn [enabled] in Hpl.
    change (truthy (_transfer a)) with (truthy (transfer c)). rewrite Ht.
    cbn [when]. rewrite bind_ret.
    change (truthy (_plugin a)) with (truthy (plugin c)). rewrite Hpl.
    cbn [when]. rewrite bind_ret.
    change (truthy (_download a)) with (truthy (download c)). rewrite Hk.
    cbn [when]. unfold get_nt_download_history. rewrite H0.
    rewrite (bind_raises _ _ _ TypeError a
               ([Log Error (NothingFetched Download)]
                  ++ emitted (sync_download_history None a)));
      [now rewrite sync_download_history_none_outcome|].
    rewrite (bind_outcome _ _ a None a [Log Error (NothingFetched Download)]);
      [now rewrite sync_download_history_none_outcome | reflexivity].
Qed.

Lemma first_category_without_rows_witness :
  init_plugin no_plugin_files (Some plugin_and_download) fresh
  = {| value := Raise TypeError; final := attributes_of plugin_and_download;
       emitted := [Log Error (NothingFetched Plugin); Log Info (Started Plugin);
                   Log Info (Cleared Plugin); PluginTruncate] |}.
Proof.
  apply (first_category_without_rows no_plugin_files plugin_and_download fresh
           "/nt/user.db" no_plugin_db Plugin);
    try reflexivity; try discriminate.
  intros [| |]; (reflexivity || discriminate).
Defined.

(** ** Truncation comes first *)

Lemma truncate_leads_first k evs : truncate_leads k evs -> truncate_first k evs.
Proof.
  intros (quiet & rest & -> & Hq & Hr). clear -Hq Hr.
  induction Hq as [|a quiet Ha Hq IH]; intros before after E.
  - destruct before as [|b before]; [constructor|]. exfalso.
    cbn in E. subst rest. cbn in Hr.
    apply Forall_app in Hr as [_ Hr]. inversion Hr as [|? ? Ht _]; subst.
    destruct k; discriminate.
  - destruct before as [|b before]; cbn in E.
    + injection E as -> _. destruct k; discriminate.
    + injection E as <- E. constructor; [exact Ha|]. eapply IH, E.
Qed.

Lemma truncate_leads_left k quiet evs :
  Forall (fun e => on_store k e = false) quiet ->
  truncate_leads k evs -> truncate_leads k (quiet ++ evs).
Proof.
  intros Hq (quiet' & rest & -> & Hq' & Hr).
  exists (quiet ++ quiet')%list, rest. rewrite app_assoc.
  repeat split; [now apply Forall_app | exact Hr].
Qed.

Lemma truncate_leads_right k evs later :
  truncate_leads k evs ->
  Forall (fun e => truncates k e = false) later ->
  truncate_leads k (evs ++ later).
Proof.
  intros (quiet & rest & -> & Hq & Hr) Hl.
  exists quiet, (rest ++ later)%list. rewrite app_assoc.
  repeat split; [exact Hq|].
  destruct rest as [|e rest]; cbn in *.
  - destruct later; [constructor | now inversion Hl].
  - now apply Forall_app.
Qed.

Lemma truncate_leads_none k evs :
  Forall (fun e => truncates k e = false) evs -> truncate_leads k evs.
Proof.
  intro H. exists [], evs. repeat split; [constructor|].
  destruct evs; [constructor | now inversion H].
Qed.

Lemma quiet_never_truncates k evs :
  Forall (fun e => on_store k e = false) evs ->
  Forall (fun e => truncates k e = false) evs.
Proof.
  apply Forall_impl. intros e H. unfold truncates. now rewrite H.
Qed.

(** Each importer logs, truncates if clear is set, and only then goes
    through the rows. *)
Lemma sync_transfer_history_leads h s :
  truncate_leads Transfer (emitted (sync_transfer_history h s)).
Proof.
  unfold sync_transfer_history, log. rewrite bind_emit, bind_get_self.
  cbn [emitted]. rewrite emitted_bind.
  set (rest := match value _ with Ok _ => _ | Raise _ => _ end).
  assert (R : Forall (fun e => truncates Transfer e = false) rest).
  { unfold rest. destruct (value _); [|constructor].
    apply emits_bind; [|intros _; now apply emits_emit].
    apply emits_for_rows. intros. apply emits_sync_transfer_row; side. }
  destruct (truthy (_clear s)); cbn [when].
  - exists [Log Info (Started Transfer); Log Info (Cleared Transfer)],
      (TransferTruncate :: rest). repeat split; [repeat constructor | exact R].
  - apply truncate_leads_none. constructor; [reflexivity | exact R].
Qed.

Lemma sync_plugin_history_leads h s :
  truncate_leads Plugin (emitted (sync_plugin_history h s)).
Proof.
  unfold sync_plugin_history, log. rewrite bind_emit, bind_get_self.
  cbn [emitted]. rewrite emitted_bind.
  set (rest := match value _ with Ok _ => _ | Raise _ => _ end).
  assert (R : Forall (fun e => truncates Plugin e = false) rest).
  { unfold rest. destruct (value _); [|constructor].
    apply emits_bind; [|intros _; now apply emits_emit].
    apply emits_for_rows. intros. unfold sync_plugin_row. emits. }
  destruct (truthy (_clear s)); cbn [when].
  - exists [Log Info (Started Plugin); Log Info (Cleared Plugin)],
      (PluginTruncate :: rest). repeat split; [repeat constructor | exact R].
  - apply truncate_leads_none. constructor; [reflexivity | exact R].
Qed.

Lemma sync_download_history_leads h s :
  truncate_leads Download (emitted (sync_download_history h s)).
Proof.
  unfold sync_download_history, log. rewrite bind_emit, bind_get_self.
  cbn [emitted]. rewrite emitted_bind.
  set (rest := match value _ with Ok _ => _ | Raise _ => _ end).
  assert (R : Forall (fun e => truncates Download e = false) rest).
  { unfold rest. destruct (value _); [|constructor].
    apply emits_bind; [|intros _; now apply emits_emit].
    apply emits_for_rows. intros. unfold sync_download_row. emits. }
  destruct (truthy (_clear s)); cbn [when].
  - exists [Log Info (Started Download); Log Info (Cleared Download)],
      (DownloadTruncate :: rest). repeat split; [repeat constructor | exact R].
  - apply truncate_leads_none. constructor; [reflexivity | exact R].
Qed.

(** [fetched] and then an importer whose truncation leads. *)
Lemma fetched_then_leads {A : Type} k flag (rows : list A)
      (sync : option (list A) -> M unit) s :
  (forall h s', truncate_leads k (emitted (sync h s'))) ->
  truncate_leads k (emitted (when flag (h <- fetched k rows ;; sync h) s)).
Proof.
  intro H. destruct flag; cbn [when]; [|apply truncate_leads_none; constructor].
  rewrite emitted_bind. apply truncate_leads_left.
  - apply emits_fetched. side.
  - destruct (value _); [apply H | apply truncate_leads_none; constructor].
Qed.

(** X6.  In every run, ended or raised, a store is truncated only
    before anything else is done to it: whenever the store of a
    category is truncated, no call on that store (no add or save, no
    earlier truncate) comes before.  So a store is truncated at most
    once, and never after a record was written to it. *)
Theorem store_is_truncated_first files c s k :
  truncate_first k (emitted (init_plugin files (Some c) s)).
Proof.
  apply truncate_leads_first.
  rewrite init_plugin_unfold.
  destruct (runs c); [|apply truncate_leads_none; constructor].
  set (a := attributes_of c). unfold import_all.
  rewrite emitted_bind. apply truncate_leads_left; [apply emits_connect|].
  destruct (value _) as [cursor|]; [|apply truncate_leads_none; constructor].
  set (s1 := final _). clearbody s1.
  unfold update_config.
  destruct k.
  - rewrite emitted_bind. apply truncate_leads_right.
    + apply fetched_then_leads. apply sync_transfer_history_leads.
    + destruct (value _); [|constructor]. apply quiet_never_truncates.
      apply emits_bind; [apply emits_plugin_category; side|intros _].
      apply emits_bind; [apply emits_download_category; side|intros _].
      now apply emits_emit.
  - rewrite emitted_bind. apply truncate_leads_left.
    { apply emits_transfer_category; side. }
    destruct (value _); [|apply truncate_leads_none; constructor].
    rewrite emitted_bind. apply truncate_leads_right.
    + apply fetched_then_leads. apply sync_plugin_history_leads.
    + destruct (value _); [|constructor]. apply quiet_never_truncates.
      apply emits_bind; [apply emits_download_category; side|intros _].
      now apply emits_emit.
  - rewrite emitted_bind. apply truncate_leads_left.
    { apply emits_transfer_category; side. }
    destruct (value _); [|apply truncate_leads_none; constructor].
    rewrite emitted_bind. apply truncate_leads_left.
    { apply emits_plugin_category; side. }
    destruct (value _); [|apply truncate_leads_none; constructor].
    rewrite emitted_bind. apply truncate_leads_right.
    + apply fetched_then_leads. apply sync_download_history_leads.
    + destruct (value _); [|constructor]. repeat constructor.
Qed.

(** ** Plugin records that are not rewritten *)

Lemma remap_downloader_other plugin_id kv line :
  rewritten plugin_id = false ->
  remap_downloader plugin_id kv line = Ok kv.
Proof.
  unfold rewritten, remap_downloader. intro H.
  apply orb_false_iff in H as [-> ->]. now destruct kv.
Qed.

Lemma rfold_fixed {A B : Type} (f : A -> B -> result A) l acc :
  (forall x, In x l -> f acc x = Ok acc) -> rfold f l acc = Ok acc.
Proof.
  induction l as [|x l IH]; intro H; [reflexivity|].
  cbn [rfold]. rewrite (H x (or_introl eq_refl)). apply IH.
  intros y Hy. apply H. now right.
Qed.

Lemma sync_plugin_row_as_read s r :
  nonempty (_downloader s) = false
  \/ rewritten (PluginRow.plugin_id r) = false ->
  sync_plugin_row r s
  = {| value := Ok tt; final := s; emitted := [saved_as_read r] |}.
Proof.
  intro H. unfold sync_plugin_row. rewrite bind_get_self.
  assert (E : remap_downloaders (_downloader s) (PluginRow.plugin_id r)
                (PluginRow.plugin_key r) (Sql.to_py (PluginRow.plugin_value r))
              = Ok (PluginRow.plugin_key r,
                    Sql.to_py (PluginRow.plugin_value r))).
  { unfold remap_downloaders.
    destruct (_downloader s) as [[|ch t]|]; try reflexivity.
    destruct H as [H|H]; [discriminate|].
    apply rfold_fixed. intros. now apply remap_downloader_other. }
  unfold bind, lift; cbn. now rewrite E.
Qed.

(** X7.  Plugin records are saved exactly as they were read (same
    identifier, same key, the value as the text it was, not decoded),
    one save per record and in order, when no downloader rules are
    configured, or when no record belongs to [TorrentTransfer] or
    [IYUUAutoSeed]; in the latter case whatever the rule text is, lines
    without [':'] included.  The import ends without raising. *)
Theorem records_not_rewritten_are_saved_as_read s rows :
  nonempty (_downloader s) = false
  \/ Forall (fun r => rewritten (PluginRow.plugin_id r) = false) rows ->
  sync_plugin_history (Some rows) s
  = {| value := Ok tt; final := s;
       emitted := (Log Info (Started Plugin)
                   :: (if truthy (_clear s)
                       then [Log Info (Cleared Plugin); PluginTruncate]
                       else [])
                   ++ map saved_as_read rows
                   ++ [Log Info (Finished Plugin)])%list |}.
Proof.
  intro H.
  assert (L : for_each rows sync_plugin_row s
              = {| value := Ok tt; final := s;
                   emitted := map saved_as_read rows |}).
  { induction rows as [|r rows IH]; [reflexivity|].
    cbn [for_each map].
    rewrite (bind_outcome _ _ _ tt s [saved_as_read r]).
    - rewrite IH; [reflexivity|].
      destruct H as [H|H]; [now left | right; now inversion H].
    - apply sync_plugin_row_as_read.
      destruct H as [H|H]; [now left | right; now inversion H]. }
  unfold sync_plugin_history, for_rows, log.
  rewrite bind_emit, bind_get_self.
  assert (W : when (truthy (_clear s))
                (emit (Log Info (Cleared Plugin));; emit PluginTruncate) s
              = {| value := Ok tt; final := s;
                   emitted := if truthy (_clear s)
                              then [Log Info (Cleared Plugin); PluginTruncate]
                              else [] |}).
  { destruct (truthy (_clear s)); reflexivity. }
  rewrite (bind_outcome _ _ _ _ _ _ W), (bind_outcome _ _ _ _ _ _ L).
  reflexivity.
Qed.

Lemma records_not_rewritten_are_saved_as_read_witness :
  sync_plugin_history (Some [other_plugin_row]) with_unreadable_rules
  = {| value := Ok tt; final := with_unreadable_rules;
       emitted := [Log Info (Started Plugin);
                   PluginSave "DoubanSync" "1-abc123" (PStr "{not json");
                   Log Info (Finished Plugin)] |}.
Proof.
  apply (records_not_rewritten_are_saved_as_read with_unreadable_rules
           [other_plugin_row]).
  right. repeat constructor.
Defined.

(** ** Plugin records that are rewritten *)

Lemma same_but_refl field items : same_but field items items.
Proof. now split. Qed.

Lemma same_but_trans field a b c :
  same_but field a b -> same_but field b c -> same_but field a c.
Proof.
  intros [K1 L1] [K2 L2]. split; [congruence|].
  intros g Hg. now rewrite L2, L1.
Qed.

Lemma setitem_keys k v x items :
  PyVal.lookup k items = Some x ->
  map fst (PyVal.setitem k v items) = map fst items.
Proof.
  induction items as [|[k' v'] items IH]; cbn; [discriminate|].
  destruct (String.eqb_spec k k') as [->|N]; [reflexivity|].
  intro H. cbn. now rewrite IH.
Qed.

Lemma lookup_setitem_other k v g items :
  g <> k -> PyVal.lookup g (PyVal.setitem k v items) = PyVal.lookup g items.
Proof.
  intro N. induction items as [|[k' v'] items IH]; cbn.
  - destruct (String.eqb_spec g k); [contradiction | reflexivity].
  - destruct (String.eqb_spec k k') as [<-|N'].
    + cbn. destruct (String.eqb_spec g k); [contradiction | reflexivity].
    + cbn. now rewrite IH.
Qed.

Ltac branches :=
  repeat match goal with
         | |- context [match ?x with _ => _ end] =>
             match type of x with
             | sumbool _ _ => fail 1
             | _ => destruct x eqn:?
             end; cbn [rbind]
         end.

(** [remap_field] ends only on a dict, and gives back that dict, changed
    at most under [field]. *)
Lemma remap_field_dict field sub d v' :
  remap_field field sub d = Ok v' -> same_dict_but field d v'.
Proof.
  unfold remap_field, PyVal.get. destruct d; try discriminate.
  destruct (PyVal.lookup field items) as [x|] eqn:L; cbn [rbind].
  - unfold rbind. branches; intro H; try discriminate; injection H as <-;
      exists items; eexists; (split; [reflexivity|]); (split; [reflexivity|]);
      try apply same_but_refl.
    split; [eapply setitem_keys; eauto|].
    intros g Hg. now apply lookup_setitem_other.
  - cbn. intro H; injection H as <-. exists items, items.
    repeat split; reflexivity.
Qed.

Lemma rfold_invariant {A B : Type} (I : A -> Prop) (f : A -> B -> result A)
      l acc r :
  I acc ->
  (forall a x a', I a -> f a x = Ok a' -> I a') ->
  rfold f l acc = Ok r -> I r.
Proof.
  intros H0 Hstep. revert acc H0. induction l as [|x l IH]; intros acc H0; cbn.
  - intro E; injection E as <-. exact H0.
  - destruct (f acc x) as [a'|] eqn:E; [|discriminate].
    apply IH. eapply Hstep; eauto.
Qed.

Lemma transfer_step_from_text k text line k1 v1 :
  remap_downloader "TorrentTransfer" (k, PStr text) line = Ok (k1, v1) ->
  exists items, Json.loads text = Some (PDict items)
                /\ same_dict_but "to_download" (PDict items) v1.
Proof.
  unfold remap_downloader.
  change ("TorrentTransfer" =? "TorrentTransfer")%string with true.
  change ("TorrentTransfer" =? "IYUUAutoSeed")%string with false.
  cbv iota. destruct (remap_key _ k) as [k'|]; [|discriminate]. cbn [rbind].
  destruct (decode (PStr text)) as [v0|] eqn:Dv; [|discriminate].
  apply decode_loads in Dv.
  cbn [rbind]. destruct (remap_field _ _ v0) as [v'|] eqn:F; [|discriminate].
  cbn [rbind]. intro H; injection H as <- <-.
  pose proof (remap_field_dict _ _ _ _ F) as D.
  destruct D as (items & items' & -> & -> & S).
  exists items. split; [exact Dv|]. now exists items, items'.
Qed.

Lemma transfer_step_from_dict k items line k1 v1 :
  remap_downloader "TorrentTransfer" (k, PDict items) line = Ok (k1, v1) ->
  same_dict_but "to_download" (PDict items) v1.
Proof.
  unfold remap_downloader.
  change ("TorrentTransfer" =? "TorrentTransfer")%string with true.
  change ("TorrentTransfer" =? "IYUUAutoSeed")%string with false.
  cbv iota. destruct (remap_key _ k) as [k'|]; [|discriminate]. cbn [rbind decode].
  destruct (remap_field _ _ (PDict items)) as [v'|] eqn:F; [|discriminate].
  cbn [rbind]. intro H; injection H as <- <-.
  exact (remap_field_dict _ _ _ _ F).
Qed.

Lemma transfer_step_needs_text k v line kv :
  remap_downloader "TorrentTransfer" (k, v) line = Ok kv ->
  (exists text, v = PStr text) \/ (exists items, v = PDict items).
Proof.
  unfold remap_downloader.
  change ("TorrentTransfer" =? "TorrentTransfer")%string with true.
  cbv iota. destruct (remap_key _ k) as [k'|]; [|discriminate]. cbn [rbind].
  destruct v; cbn [decode rbind]; eauto;
    unfold remap_field, PyVal.get; cbn [rbind]; discriminate.
Qed.

(** X8.  With downloader rules configured, a record of
    [TorrentTransfer] is saved only if its value is the JSON text of an
    object, and what is saved is that object, decoded: the same keys in
    the same order, the same value under every key but [to_download]. *)
Theorem transfer_record_keeps_its_other_fields s r e :
  nonempty (_downloader s) = true ->
  PluginRow.plugin_id r = "TorrentTransfer" ->
  In e (emitted (sync_plugin_row r s)) ->
  exists text items key items',
    PluginRow.plugin_value r = SText text
    /\ Json.loads text = Some (PDict items)
    /\ e = PluginSave "TorrentTransfer" key (PDict items')
    /\ same_but "to_download" items items'.
Proof.
  intros Hd Hid. unfold sync_plugin_row. rewrite bind_get_self, Hid.
  destruct (_downloader s) as [[|ch t]|]; try discriminate.
  unfold remap_downloaders.
  destruct (split_cons newline (String ch t)) as (line & lines & ->).
  cbn [rfold].
  destruct (remap_downloader "TorrentTransfer" _ line) as [[k1 v1]|] eqn:E1;
    [|intros []].
  destruct (transfer_step_needs_text _ _ _ _ E1) as [(text & T)|(items & T)].
  2:{ destruct (PluginRow.plugin_value r); discriminate. }
  assert (V : PluginRow.plugin_value r = SText text).
  { destruct (PluginRow.plugin_value r); cbn in T; try discriminate.
    now injection T as ->. }
  rewrite T in E1.
  destruct (transfer_step_from_text _ _ _ _ _ E1) as (items & L & D1).
  destruct (rfold _ lines (k1, v1)) as [[k2 v2]|] eqn:E2; [|intros []].
  assert (I : same_dict_but "to_download" (PDict items) v2).
  { apply (rfold_invariant
             (fun kv => same_dict_but "to_download" (PDict items) (snd kv)))
      in E2; [exact E2 | exact D1 |].
    intros [ka va] x [kb vb] (i0 & ia & E0 & Ea0 & Sa) Hx. cbn [snd] in *.
    subst va. injection E0 as <-.
    destruct (transfer_step_from_dict _ _ _ _ _ Hx) as (ia' & ib & Ea & -> & Sb).
    injection Ea as <-. exists items, ib.
    split; [reflexivity|]. split; [reflexivity|].
    now apply same_but_trans with (b := ia). }
  destruct I as (i0 & items' & E0 & -> & S). injection E0 as <-.
  unfold bind, lift; cbn. intros [<-|[]].
  now exists text, items, k2, items'.
Qed.

Lemma transfer_record_keeps_its_other_fields_witness :
  exists text items key items',
    PluginRow.plugin_value transfer_seed_row = SText text
    /\ Json.loads text = Some (PDict items)
    /\ PluginSave "TorrentTransfer" "2-abc223" (PDict [("to_download", PStr "2")])
       = PluginSave "TorrentTransfer" key (PDict items')
    /\ same_but "to_download" items items'.
Proof.
  apply (transfer_record_keeps_its_other_fields with_downloader_rule
           transfer_seed_row); try reflexivity.
  vm_compute. now left.
Defined.

Lemma remap_key_not_numeric sub k :
  PyStr.isdigit (hd EmptyString (PyStr.split "-" k)) = false ->
  remap_key sub k = Ok k.
Proof.
  unfold remap_key, PyStr.item.
  destruct (split_cons "-" k) as (k0 & ks & ->). cbn. now intros ->.
Qed.

Lemma remap_downloader_keeps_key plugin_id k v line k' v' :
  plugin_id <> "TorrentTransfer"
  \/ PyStr.isdigit (hd EmptyString (PyStr.split "-" k)) = false ->
  remap_downloader plugin_id (k, v) line = Ok (k', v') ->
  k' = k.
Proof.
  intros H. unfold remap_downloader.
  destruct (String.eqb_spec plugin_id "TorrentTransfer") as [E|N].
  - destruct H as [H|H]; [contradiction|]. subst plugin_id.
    change ("TorrentTransfer" =? "IYUUAutoSeed")%string with false.
    rewrite (remap_key_not_numeric _ k H). cbn [rbind].
    destruct (decode v); cbn [rbind]; [|discriminate].
    destruct (remap_field _ _ _); cbn [rbind]; [|discriminate].
    intro R; inversion R; reflexivity.
  - cbn [rbind fst snd].
    destruct (plugin_id =? "IYUUAutoSeed")%string;
      [destruct (decode v); cbn [rbind]; [|discriminate];
       destruct (remap_seeds _ _); cbn [rbind]; [|discriminate]|];
      intro R; inversion R; reflexivity.
Qed.

Lemma saved_under_its_key s r e :
  PluginRow.plugin_id r <> "TorrentTransfer"
  \/ PyStr.isdigit (hd EmptyString (PyStr.split "-" (PluginRow.plugin_key r)))
     = false ->
  In e (emitted (sync_plugin_row r s)) ->
  exists v, e = PluginSave (PluginRow.plugin_id r) (PluginRow.plugin_key r) v.
Proof.
  intros H. unfold sync_plugin_row. rewrite bind_get_self.
  destruct (remap_downloaders _ _ _ _) as [[k' v']|] eqn:E; [|intros []].
  unfold bind, lift; cbn. intros [<-|[]]. exists v'.
  assert (K : k' = PluginRow.plugin_key r); [|now rewrite K].
  unfold remap_downloaders in E.
  destruct (_downloader s) as [[|ch t]|]; try (now injection E as <- _).
  apply (rfold_invariant (fun kv => fst kv = PluginRow.plugin_key r)) in E;
    [exact E | reflexivity |].
  intros [ka va] x [kb vb] Ha Hx. cbn [fst] in *. subst ka.
  eapply remap_downloader_keeps_key; eauto.
Qed.

(** X9.  The key of a record is never rewritten unless the record
    belongs to [TorrentTransfer] and what stands before the first ['-']
    of the key is made of digits: any other record that is saved is
    saved under the key it had, whatever the downloader rules are. *)
Theorem key_is_kept_unless_numbered s r e :
  PluginRow.plugin_id r <> "TorrentTransfer"
  \/ PyStr.isdigit (hd EmptyString (PyStr.split "-" (PluginRow.plugin_key r)))
     = false ->
  In e (emitted (sync_plugin_row r s)) ->
  exists v, e = PluginSave (PluginRow.plugin_id r) (PluginRow.plugin_key r) v.
Proof. exact (saved_under_its_key s r e). Qed.

Lemma key_is_kept_unless_numbered_witness :
  exists v,
    PluginSave "IYUUAutoSeed" "1-f161efaf"
      (PList [PDict [("downloader", PStr "2");
                     ("torrents", PList [PStr "bd64a8ed"])]])
    = PluginSave (PluginRow.plugin_id seed_row) (PluginRow.plugin_key seed_row) v.
Proof.
  apply (key_is_kept_unless_numbered with_downloader_rule seed_row).
  - left. discriminate.
  - vm_compute. now left.
Defined.

Lemma rmap_Forall2 {A B : Type} (f : A -> result B) l l' :
  rmap f l = Ok l' -> Forall2 (fun x x' => f x = Ok x') l l'.
Proof.
  revert l'. induction l as [|x l IH]; cbn; intros l'.
  - intro E; injection E as <-. constructor.
  - destruct (f x) as [b|] eqn:F; [|discriminate].
    destruct (rmap f l) as [bs|]; [|discriminate].
    intro E; injection E as <-. constructor; auto.
Qed.

Lemma Forall2_compose {A : Type} (R : A -> A -> Prop) l1 l2 l3 :
  (forall x y z, R x y -> R y z -> R x z) ->
  Forall2 R l1 l2 -> Forall2 R l2 l3 -> Forall2 R l1 l3.
Proof.
  intros T H12. revert l3. induction H12; intros l3 H23; inversion H23; subst;
    constructor; eauto.
Qed.

Lemma same_dict_but_trans field x y z :
  same_dict_but field x y -> same_dict_but field y z -> same_dict_but field x z.
Proof.
  intros (a & b & -> & -> & S1) (b' & c & E & -> & S2). injection E as <-.
  exists a, c. split; [reflexivity|]. split; [reflexivity|].
  now apply same_but_trans with (b := b).
Qed.

Lemma seed_step k v l line k1 v1 :
  decode v = Ok (PList l) ->
  remap_downloader "IYUUAutoSeed" (k, v) line = Ok (k1, v1) ->
  exists l1, v1 = PList l1 /\ Forall2 (same_dict_but "downloader") l l1.
Proof.
  intro D. unfold remap_downloader.
  change ("IYUUAutoSeed" =? "TorrentTransfer")%string with false.
  change ("IYUUAutoSeed" =? "IYUUAutoSeed")%string with true.
  cbv iota. cbn [rbind snd fst]. rewrite D. cbn [rbind remap_seeds].
  destruct (rmap _ l) as [l1|] eqn:R; [|discriminate]. cbn [rbind].
  intro E; injection E as _ <-. exists l1. split; [reflexivity|].
  apply rmap_Forall2 in R. eapply Forall2_impl; [|exact R].
  intros x x' F. exact (remap_field_dict _ _ _ _ F).
Qed.

(** X10.  With downloader rules configured, a record of [IYUUAutoSeed]
    whose value is the JSON text of a list is saved, if at all, under
    its own key and as a list of the same length: every element was a
    dict and is saved with the same keys in the same order and the same
    value under every key but [downloader]. *)
Theorem seed_record_keeps_its_shape s r text l e :
  nonempty (_downloader s) = true ->
  PluginRow.plugin_id r = "IYUUAutoSeed" ->
  PluginRow.plugin_value r = SText text ->
  Json.loads text = Some (PList l) ->
  In e (emitted (sync_plugin_row r s)) ->
  exists l',
    e = PluginSave "IYUUAutoSeed" (PluginRow.plugin_key r) (PList l')
    /\ Forall2 (same_dict_but "downloader") l l'.
Proof.
  intros Hd Hid Hv Hl Hin.
  destruct (saved_under_its_key s r e) as (v & ->); [|exact Hin|].
  { left. rewrite Hid. discriminate. }
  revert Hin. unfold sync_plugin_row. rewrite bind_get_self, Hid, Hv.
  destruct (_downloader s) as [[|ch t]|]; try discriminate.
  unfold remap_downloaders.
  destruct (split_cons newline (String ch t)) as (line & lines & ->).
  cbn [rfold Sql.to_py].
  destruct (remap_downloader "IYUUAutoSeed" _ line) as [[k1 v1]|] eqn:E1;
    [|intros []].
  apply seed_step with (l := l) in E1;
    [|now apply decode_loads].
  destruct E1 as (l1 & -> & F1).
  destruct (rfold _ lines (k1, PList l1)) as [[k2 v2]|] eqn:E2; [|intros []].
  apply (rfold_invariant
           (fun kv => exists l', snd kv = PList l'
                                 /\ Forall2 (same_dict_but "downloader") l l'))
    in E2.
  - destruct E2 as (l' & E2 & F). cbn [snd] in E2. subst v2.
    unfold bind, lift; cbn. intros [E|[]]. injection E as _ <-.
    exists l'. now split.
  - now exists l1.
  - intros [ka va] x [kb vb] (la & Ea & Fa) Hx. cbn [snd] in *. subst va.
    apply seed_step with (l := la) in Hx; [|reflexivity].
    destruct Hx as (lb & -> & Fb). exists lb. split; [reflexivity|].
    eapply Forall2_compose; eauto. apply same_dict_but_trans.
Qed.

Lemma seed_record_keeps_its_shape_witness :
  exists l',
    PluginSave "IYUUAutoSeed" "1-f161efaf"
      (PList [PDict [("downloader", PStr "2");
                     ("torrents", PList [PStr "bd64a8ed"])]])
    = PluginSave "IYUUAutoSeed" (PluginRow.plugin_key seed_row) (PList l')
    /\ Forall2 (same_dict_but "downloader")
               [PDict [("downloader", PStr "1");
                       ("torrents", PList [PStr "bd64a8ed"])]] l'.
Proof.
  apply (seed_record_keeps_its_shape with_downloader_rule seed_row
           (Json.quoted "[{'downloader': '1', 'torrents': ['bd64a8ed']}]"));
    try reflexivity.
  vm_compute. now left.
Defined.

(** ** Site names *)

Lemma remap_site_other msite line :
  hd EmptyString (PyStr.split ":" line) <> Sql.str msite ->
  remap_site msite line = Ok msite.
Proof.
  unfold remap_site, PyStr.item.
  destruct (split_cons ":" line) as (s0 & rest & ->). cbn. intro N.
  destruct (String.eqb_spec (Sql.str msite) s0); [congruence | reflexivity].
Qed.

(** X11.  A site name that no rule has as its source goes through the
    site rules unchanged, and without raising even when lines of the
    rule text have no [':']: the destination of a rule is only read
    when its source matches. *)
Theorem unmatched_site_is_kept _site msite :
  (forall t line,
      _site = Some t -> In line (PyStr.split newline t) ->
      hd EmptyString (PyStr.split ":" line) <> Sql.str msite) ->
  remap_sites _site msite = Ok msite.
Proof.
  intro H. unfold remap_sites. destruct _site as [[|ch t]|]; try reflexivity.
  apply rfold_fixed. intros line Hin. apply remap_site_other. eauto.
Qed.

Lemma unmatched_site_is_kept_witness :
  remap_sites (Some (two_rules "OldSite:NewSite" "no colon here"))
              (SText "ThirdSite")
  = Ok (SText "ThirdSite").
Proof.
  apply (unmatched_site_is_kept
           (Some (two_rules "OldSite:NewSite" "no colon here"))
           (SText "ThirdSite")).
  intros t line E. injection E as <-.
  intros [<-|[<-|[]]]; discriminate.
Defined.

(** X12.  Under a single site rule [a:b] (no [':'] nor line break in
    either side) a site becomes [b] exactly when its text, as [str]
    gives it, is [a], and is kept otherwise; so a [NULL] site, whose
    text is [None], is rewritten by a rule whose source is [None]. *)
Theorem single_site_rule a b msite :
  free_of ":" a = true -> free_of ":" b = true ->
  free_of newline a = true -> free_of newline b = true ->
  remap_sites (Some (a ++ ":" ++ b)) msite
  = Ok (if String.eqb (Sql.str msite) a then SText b else msite).
Proof.
  intros Ha Hb Na Nb.
  assert (Hline : PyStr.split newline (a ++ ":" ++ b) = [a ++ ":" ++ b]).
  { apply split_free. rewrite free_of_app, Na. cbn. exact Nb. }
  unfold remap_sites.
  destruct (a ++ ":" ++ b) as [|ch t] eqn:E.
  { destruct a; discriminate. }
  rewrite Hline, <- E. cbn [rfold]. unfold remap_site.
  change (a ++ ":" ++ b) with (a ++ String ":" b).
  rewrite (split_rule _ _ Ha Hb). cbn.
  now destruct (String.eqb (Sql.str msite) a).
Qed.

Lemma single_site_rule_witness :
  remap_sites (Some "None:Unknown") SNull = Ok (SText "Unknown").
Proof.
  exact (single_site_rule "None" "Unknown" SNull eq_refl eq_refl eq_refl eq_refl).
Defined.

(** ** Download history, row by row *)

Lemma rfold_remap_site_ok lines msite :
  forallb has_two_sides lines = true ->
  exists msite', rfold remap_site lines msite = Ok msite'.
Proof.
  revert msite. induction lines as [|line lines IH]; intros msite H; cbn.
  - now exists msite.
  - cbn in H. apply andb_true_iff in H as [H1 H2].
    destruct (has_two_sides_items line H1) as (p0 & p1 & E0 & E1).
    unfold remap_site. rewrite E0, E1. cbn [rbind].
    destruct (String.eqb _ p0); apply IH, H2.
Qed.

Lemma remap_sites_ok _site msite :
  rules_readable _site = true ->
  exists msite', remap_sites _site msite = Ok msite'.
Proof.
  unfold rules_readable, remap_sites.
  destruct _site as [[|ch t]|]; intro H; try (now eexists).
  now apply rfold_remap_site_ok.
Qed.

Lemma sync_download_row_outcome s row p :
  rules_readable (_site s) = true ->
  DownloadRow.save_path row = SText p ->
  is_not_null (DownloadRow.type row) && is_not_null (DownloadRow.title row)
  = true ->
  sync_download_row row s
  = {| value := Ok tt; final := s;
       emitted := [DownloadAdd (download_record (_site s) row)] |}.
Proof.
  intros Hr Hp Hs. unfold sync_download_row, download_record.
  rewrite bind_get_self, Hp.
  destruct (remap_sites_ok (_site s) (DownloadRow.site row) Hr) as (m & ->).
  unfold bind, lift, downloadhistory_add. cbn. rewrite Hs. reflexivity.
Qed.

(** A row without type or without title is refused by the download
    store: the import raises there. *)
Lemma sync_download_row_refused s row p :
  rules_readable (_site s) = true ->
  DownloadRow.save_path row = SText p ->
  is_not_null (DownloadRow.type row) && is_not_null (DownloadRow.title row)
  = false ->
  sync_download_row row s
  = {| value := Raise IntegrityError; final := s; emitted := [] |}.
Proof.
  intros Hr Hp Hs. unfold sync_download_row.
  rewrite bind_get_self, Hp.
  destruct (remap_sites_ok (_site s) (DownloadRow.site row) Hr) as (m & ->).
  unfold bind, lift, downloadhistory_add. cbn. rewrite Hs. reflexivity.
Qed.

Lemma download_query_rows table :
  forallb (fun d => null_or_text (DownloadTable.SAVE_PATH d)) table = true ->
  forallb storable table = true ->
  Forall (fun row => (exists p, DownloadRow.save_path row = SText p)
                     /\ is_not_null (DownloadRow.type row)
                        && is_not_null (DownloadRow.title row) = true)
         (download_query table).
Proof.
  intros H S. apply Forall_forall. intros row Hin.
  destruct (in_download_query table row Hin) as (d & Hd & -> & Hn).
  rewrite forallb_forall in H, S. specialize (H d Hd). specialize (S d Hd).
  unfold storable in S. cbn.
  destruct (DownloadTable.SAVE_PATH d) as [|z|q]; try discriminate;
    [congruence|].
  split; [now exists q | exact S].
Qed.

(** X13.  When every save path of table [DOWNLOAD_HISTORY] is [NULL] or
    a text, every row with a save path has a type and a title (the
    download store refuses a record without them), and every line of
    the site rules has a [':'], importing the answer of the download
    query ends without raising and adds one record per row with a save
    path, in the order of the table: the record has the last component
    of the path, the site as the rules make it, and the other columns as
    they are.  A row with a save path but without type or without title
    is not added: the loop raises [IntegrityError] at it. *)
Theorem every_row_with_a_save_path_is_added s table :
  rules_readable (_site s) = true ->
  forallb (fun d => null_or_text (DownloadTable.SAVE_PATH d)) table = true ->
  forallb storable table = true ->
  sync_download_history (Some (download_query table)) s
  = {| value := Ok tt; final := s;
       emitted := (Log Info (Started Download)
                   :: (if truthy (_clear s)
                       then [Log Info (Cleared Download); DownloadTruncate]
                       else [])
                   ++ map (fun d => DownloadAdd
                                      (download_record (_site s)
                                                       (select_download d)))
                          (filter (fun d => is_not_null
                                              (DownloadTable.SAVE_PATH d))
                                  table)
                   ++ [Log Info (Finished Download)])%list |}
  /\ forall row p,
       DownloadRow.save_path row = SText p ->
       is_not_null (DownloadRow.type row) && is_not_null (DownloadRow.title row)
       = false ->
       sync_download_row row s
       = {| value := Raise IntegrityError; final := s; emitted := [] |}.
Proof.
  intros Hr Ht Hs.
  split; [|intros row p; now apply sync_download_row_refused].
  pose proof (download_query_rows table Ht Hs) as F.
  assert (L : forall rows,
             Forall (fun row =>
                       (exists p, DownloadRow.save_path row = SText p)
                       /\ is_not_null (DownloadRow.type row)
                          && is_not_null (DownloadRow.title row) = true)
                    rows ->
             for_each rows sync_download_row s
             = {| value := Ok tt; final := s;
                  emitted := map (fun row => DownloadAdd
                                               (download_record (_site s) row))
                                 rows |}).
  { induction rows as [|row rows IH]; intro Hrows; [reflexivity|].
    inversion Hrows as [|? ? ((p & Hp) & Hst) Hrest]; subst.
    cbn [for_each map].
    rewrite (bind_outcome _ _ _ _ _ _
               (sync_download_row_outcome s row p Hr Hp Hst)).
    now rewrite (IH Hrest). }
  unfold sync_download_history, for_rows, log.
  rewrite bind_emit, bind_get_self.
  assert (W : when (truthy (_clear s))
                (emit (Log Info (Cleared Download));; emit DownloadTruncate) s
              = {| value := Ok tt; final := s;
                   emitted := if truthy (_clear s)
                              then [Log Info (Cleared Download); DownloadTruncate]
                              else [] |}).
  { destruct (truthy (_clear s)); reflexivity. }
  rewrite (bind_outcome _ _ _ _ _ _ W), (bind_outcome _ _ _ _ _ _ (L _ F)).
  unfold download_query. rewrite map_map. reflexivity.
Qed.

Lemma every_row_with_a_save_path_is_added_witness :
  sync_download_history (Some (download_query (DOWNLOAD_HISTORY sample_db)))
                        sample_attributes
  = {| value := Ok tt; final := sample_attributes;
       emitted := [Log Info (Started Download);
                   Log Info (Cleared Download); DownloadTruncate;
                   DownloadAdd
                     (DownloadHistory.mk "c.mkv" (SText "movie") (SText "C")
                        (SText "2020") (SInt 603) (SText "S01") (SText "E02")
                        SNull (SText "abc123") (SText "C.2020") SNull
                        (SText "NewSite"));
                   Log Info (Finished Download)] |}
  /\ forall row p,
       DownloadRow.save_path row = SText p ->
       is_not_null (DownloadRow.type row) && is_not_null (DownloadRow.title row)
       = false ->
       sync_download_row row sample_attributes
       = {| value := Raise IntegrityError; final := sample_attributes;
            emitted := [] |}.
Proof.
  apply (every_row_with_a_save_path_is_added sample_attributes
           (DOWNLOAD_HISTORY sample_db)); reflexivity.
Defined.




(** ** What written paths look like *)

Lemma basename_from_free acc p :
  free_of "/" acc = true -> free_of "/" (PyStr.basename_from acc p) = true.
Proof.
  revert acc. induction p as [|c r IH]; intros acc H; cbn; [exact H|].
  destruct (Ascii.eqb_spec c "/") as [->|N]; [now apply IH|].
  apply IH. rewrite free_of_app, H. cbn.
  now destruct (Ascii.eqb_spec c "/").
Qed.

(** X15.  The path of every record added to the download store is a
    bare file name: it has no ['/'], whatever the save path was. *)
Theorem download_paths_are_bare_names h s r :
  In (DownloadAdd r) (emitted (sync_download_history h s)) ->
  free_of "/" (DownloadHistory.path r) = true.
Proof.
  set (P := fun e => match e with
                     | DownloadAdd r => free_of "/" (DownloadHistory.path r) = true
                     | _ => True
                     end).
  assert (Q : emits P (sync_download_history h)).
  { unfold sync_download_history, log.
    apply emits_bind; [now apply emits_emit|intros _].
    apply emits_bind; [apply emits_get_self|intros s0].
    apply emits_bind;
      [apply emits_when, emits_bind; [|intros _]; apply emits_emit; exact I
      |intros _].
    apply emits_bind; [|intros _; now apply emits_emit].
    apply emits_for_rows. intros l row _ _. unfold sync_download_row.
    apply emits_bind; [apply emits_get_self|intros s1].
    apply emits_bind; [apply emits_lift|intros msite].
    apply emits_bind_value; [apply emits_lift|intros s2 p Hp].
    apply emits_downloadhistory_add.
    cbn in Hp |- *. unfold os_path_basename in Hp.
    destruct (DownloadRow.save_path row); try discriminate.
    injection Hp as <-. now apply basename_from_free. }
  intro Hin. specialize (Q s). rewrite Forall_forall in Q. exact (Q _ Hin).
Qed.

Lemma download_paths_are_bare_names_witness :
  free_of "/" "c.mkv" = true.
Proof.
  apply (download_paths_are_bare_names
           (Some (download_query (DOWNLOAD_HISTORY sample_db)))
           sample_attributes
           (DownloadHistory.mk "c.mkv" (SText "movie") (SText "C")
              (SText "2020") (SInt 603) (SText "S01") (SText "E02")
              SNull (SText "abc123") (SText "C.2020") SNull
              (SText "NewSite"))).
  vm_compute. tauto.
Defined.

Lemma replace_scan_char_free c new s :
  free_of c new = true ->
  free_of c (PyStr.replace_scan (String c EmptyString) new 0 s) = true.
Proof.
  intro H. induction s as [|a r IH]; [reflexivity|].
  cbn [PyStr.replace_scan prefix String.length Nat.sub].
  destruct (ascii_dec c a) as [->|N].
  - destruct r; cbn [prefix]; rewrite free_of_app, H; exact IH.
  - cbn [free_of]. rewrite IH.
    destruct (Ascii.eqb_spec a c); [congruence | reflexivity].
Qed.

Lemma remap_path_no_backslash sd line sd' :
  remap_path sd line = Ok sd' ->
  free_of backslash_char (fst sd') = true
  /\ free_of backslash_char (snd sd') = true.
Proof.
  unfold remap_path. destruct sd as [msrc mdest].
  destruct (PyStr.item _ 0) as [p0|]; [|discriminate]. cbn [rbind].
  destruct (PyStr.item _ 1) as [p1|]; [|discriminate]. cbn [rbind].
  intro E; injection E as <-. cbn [fst snd].
  split; apply replace_scan_char_free; reflexivity.
Qed.

Lemma remap_paths_no_backslash _path msrc mdest sd :
  nonempty _path = true ->
  remap_paths _path msrc mdest = Ok sd ->
  free_of backslash_char (fst sd) = true
  /\ free_of backslash_char (snd sd) = true.
Proof.
  intro H. unfold remap_paths.
  destruct _path as [[|ch t]|]; try discriminate.
  destruct (split_cons newline (String ch t)) as (line & lines & ->).
  cbn [rfold]. destruct (remap_path _ line) as [sd1|] eqn:E1; [|discriminate].
  apply remap_path_no_backslash in E1. intro E2.
  apply (rfold_invariant
           (fun sd => free_of backslash_char (fst sd) = true
                      /\ free_of backslash_char (snd sd) = true)) in E2;
    [exact E2 | exact E1 |].
  intros a x a' _ Hx. now apply remap_path_no_backslash in Hx.
Qed.

(** X16.  With path rules configured, every record added to the
    transfer store has a source path and a destination path without
    backslash, whether or not a rule applied to them. *)
Theorem remapped_paths_have_no_backslash h s r :
  nonempty (_path s) = true ->
  In (TransferAdd r) (emitted (sync_transfer_history h s)) ->
  free_of backslash_char (TransferHistory.src r) = true
  /\ free_of backslash_char (TransferHistory.dest r) = true.
Proof.
  intro Hp.
  set (P := fun e => match e with
                     | TransferAdd r =>
                         free_of backslash_char (TransferHistory.src r) = true
                         /\ free_of backslash_char (TransferHistory.dest r) = true
                     | _ => True
                     end).
  assert (Q : Forall P (emitted (sync_transfer_history h s))).
  { unfold sync_transfer_history, log. rewrite bind_emit, bind_get_self.
    cbn [emitted]. constructor; [exact I|].
    apply at_bind;
      [apply keeps_when; keeps
      |apply emits_when, emits_bind; [|intros _]; apply emits_emit; exact I
      |intros _ _].
    apply at_bind; [apply keeps_for_rows, keeps_sync_transfer_row| |].
    2:{ intros _ _. repeat constructor. }
    destruct h as [rows|]; [|constructor]. cbn [for_rows].
    apply at_for_each; [apply keeps_sync_transfer_row|].
    intros row _. unfold sync_transfer_row.
    destruct (TransferRow.src row) as [[|c1 t1]|]; try constructor.
    destruct (TransferRow.dest row) as [[|c2 t2]|]; try constructor.
    rewrite bind_get_self.
    destruct (remap_paths (_path s) (String c1 t1) (String c2 t2))
      as [sd|] eqn:E; [|constructor].
    apply (remap_paths_no_backslash _ _ _ _ Hp) in E.
    unfold bind, lift, log, emit; cbn. repeat constructor; apply E. }
  intro Hin. rewrite Forall_forall in Q. exact (Q _ Hin).
Qed.

Lemma remapped_paths_have_no_backslash_witness :
  free_of backslash_char "D:/nt/c.mkv" = true
  /\ free_of backslash_char "/media/c.mkv" = true.
Proof.
  apply (remapped_paths_have_no_backslash
           (Some [sample_row (Some "D:\nt\c.mkv") (Some "/media/c.mkv") "C"])
           with_path_rule
           (transfer_record "D:/nt/c.mkv" "/media/c.mkv" full_row)).
  - reflexivity.
  - vm_compute. tauto.
Defined.

(** ** Rules with more than one colon *)

(** X17.  Only what stands before the first [':'] of a rule line and
    what stands between the first and the second are read: a line
    [a:b:rest] acts as the line [a:b], for the site rules, the path
    rules and the downloader rules alike.  A path rule written with
    drive letters, such as [C:\nt:D:\mp], is therefore the rule that
    replaces [C]. *)
Theorem text_after_second_colon_is_ignored a b rest :
  free_of ":" a = true -> free_of ":" b = true ->
  (forall msite,
      remap_site msite (a ++ ":" ++ b ++ ":" ++ rest)
      = remap_site msite (a ++ ":" ++ b))
  /\ (forall sd,
         remap_path sd (a ++ ":" ++ b ++ ":" ++ rest)
         = remap_path sd (a ++ ":" ++ b))
  /\ (forall plugin_id kv,
         remap_downloader plugin_id kv (a ++ ":" ++ b ++ ":" ++ rest)
         = remap_downloader plugin_id kv (a ++ ":" ++ b)).
Proof.
  intros Ha Hb.
  assert (L : exists tl, PyStr.split ":" (a ++ ":" ++ b ++ ":" ++ rest)
                         = a :: b :: tl).
  { exists (PyStr.split ":" rest).
    change (a ++ ":" ++ b ++ ":" ++ rest)
      with (a ++ String ":" (b ++ String ":" rest)).
    now rewrite !split_app. }
  destruct L as (tl & L).
  assert (S : PyStr.split ":" (a ++ ":" ++ b) = [a; b]).
  { exact (split_rule a b Ha Hb). }
  repeat split; intros.
  - unfold remap_site. now rewrite L, S.
  - unfold remap_path. now rewrite L, S.
  - unfold remap_downloader. now rewrite L, S.
Qed.

Lemma text_after_second_colon_is_ignored_witness :
  remap_path ("C:\nt\a.mkv", "C:\mp\a.mkv") "C:\nt:D:\mp"
  = remap_path ("C:\nt\a.mkv", "C:\mp\a.mkv") "C:\nt".
Proof.
  exact (proj1 (proj2 (text_after_second_colon_is_ignored "C" "\nt" "D:\mp"
                         eq_refl eq_refl))
               ("C:\nt\a.mkv", "C:\mp\a.mkv")).
Defined.

Example drive_letter_rule :
  remap_paths (Some "C:\nt:D:\mp") "C:\nt\a.mkv" "C:\mp\a.mkv"
  = Ok ("/nt:/nt/a.mkv", "/nt:/mp/a.mkv").
Proof. reflexivity. Qed.

(** ** Configuration keys of the plugin base *)

Lemma prefixed_injective p a b : p ++ a = p ++ b -> a = b.
Proof.
  induction p as [|c p IH]; cbn; [trivial|].
  intro H. injection H as H. now apply IH.
Qed.

(** X18.  [update_config] and [get_config] meet on the key
    [plugin.<id>], where a plugin identifier left out or empty stands
    for the class name.  Over a system configuration whose [get]
    returns what was last [set] under a key and is not changed by a
    [set] under another key: a plugin reads back the configuration it
    has stored, and storing the configuration of one identifier leaves
    what is read for every other identifier as it was. *)
Theorem stored_configuration_is_read_back
        (store value : Type)
        (set : string -> value -> store -> store)
        (get : string -> store -> option value)
        class_name class_name' plugin_id plugin_id' config st :
  (forall k v s, get k (set k v s) = Some v) ->
  (forall k k' v s, k <> k' -> get k' (set k v s) = get k' s) ->
  PluginBase.get_config store value get class_name' plugin_id'
    (PluginBase.update_config store value set class_name config plugin_id st)
  = if String.eqb (PluginBase.effective_id class_name plugin_id)
                  (PluginBase.effective_id class_name' plugin_id')
    then Some config
    else PluginBase.get_config store value get class_name' plugin_id' st.
Proof.
  intros Hsame Hother.
  unfold PluginBase.get_config, PluginBase.update_config, PluginBase.config_key.
  destruct (String.eqb_spec (PluginBase.effective_id class_name plugin_id)
              (PluginBase.effective_id class_name' plugin_id')) as [E|N].
  - rewrite E. apply Hsame.
  - apply Hother. intro E. apply N. exact (prefixed_injective _ _ _ E).
Qed.

Lemma stored_configuration_is_read_back_witness :
  PluginBase.get_config _ _ function_get "NAStoolSync" (Some EmptyString)
    (PluginBase.update_config _ _ function_set "NAStoolSync" sample_config None
       (fun _ => None))
  = if String.eqb (PluginBase.effective_id "NAStoolSync" None)
                  (PluginBase.effective_id "NAStoolSync" (Some EmptyString))
    then Some sample_config
    else PluginBase.get_config _ _ function_get "NAStoolSync"
           (Some EmptyString) (fun _ => None).
Proof.
  apply (stored_configuration_is_read_back
           (string -> option Config) Config function_set function_get).
  - intros k v s. unfold function_get, function_set. now rewrite String.eqb_refl.
  - intros k k' v s N. unfold function_get, function_set.
    destruct (String.eqb_spec k' k); [congruence | reflexivity].
Defined.

(** ** Pages of the download history *)

Lemma firstn_plus {A : Type} a b (l : list A) :
  firstn (a + b) l = (firstn a l ++ firstn b (skipn a l))%list.
Proof.
  revert l. induction a as [|a IH]; intro l; [reflexivity|].
  destruct l as [|x l]; cbn; [now rewrite firstn_nil | now rewrite IH].
Qed.

Lemma in_firstn {A : Type} n (l : list A) x : In x (firstn n l) -> In x l.
Proof.
  intro H. rewrite <- (firstn_skipn n l). apply in_or_app. now left.
Qed.

Lemma list_by_page_nat {A : Type} (db : list A) n count :
  (Z.of_nat (n * count) < 2 ^ 63)%Z -> (Z.of_nat count < 2 ^ 63)%Z ->
  DownloadHistoryModel.list_by_page db (Z.of_nat (S n)) (Z.of_nat count)
  = Ok (firstn count (skipn (n * count) db)).
Proof.
  intros Ho Hc.
  unfold DownloadHistoryModel.list_by_page, DownloadHistoryModel.offset_limit,
    DownloadHistoryModel.fits_integer.
  replace (Z.of_nat (S n) - 1)%Z with (Z.of_nat n) by lia.
  rewrite <- Nat2Z.inj_mul, !Nat2Z.id.
  assert (P : (0 < 2 ^ 63)%Z) by reflexivity.
  destruct (Z.leb_spec (- 2 ^ 63) (Z.of_nat (n * count))); [|lia].
  destruct (Z.ltb_spec (Z.of_nat (n * count)) (2 ^ 63)); [|lia].
  destruct (Z.leb_spec (- 2 ^ 63) (Z.of_nat count)); [|lia].
  destruct (Z.ltb_spec (Z.of_nat count) (2 ^ 63)); [|lia].
  destruct (Z.ltb_spec (Z.of_nat count) 0); [lia | reflexivity].
Qed.

(** X19.  For a page number from 1 on and a page size that is not
    negative, both such that the size and the offset of the page are
    integers of 64 bits, a page of the download history has at most that
    many rows, all of them rows of the table, and is empty once the
    pages before it have used up the table.  When the size or the offset
    is no integer of 64 bits, [OverflowError] is raised. *)
Theorem page_is_bounded {A : Type} (db : list A) page count :
  (1 <= page)%Z -> (0 <= count)%Z ->
  (count < 2 ^ 63)%Z -> ((page - 1) * count < 2 ^ 63)%Z ->
  (exists rows,
      DownloadHistoryModel.list_by_page db page count = Ok rows
      /\ (Z.of_nat (List.length rows) <= count)%Z
      /\ incl rows db
      /\ ((Z.of_nat (List.length db) <= (page - 1) * count)%Z -> rows = []))
  /\ (forall page' count',
         DownloadHistoryModel.fits_integer ((page' - 1) * count')
         && DownloadHistoryModel.fits_integer count' = false ->
         DownloadHistoryModel.list_by_page db page' count'
         = Raise OverflowError).
Proof.
  intros Hp Hc Hc' Ho. split.
  - assert (Ep : page = Z.of_nat (S (Z.to_nat (page - 1)))) by lia.
    assert (Ec : count = Z.of_nat (Z.to_nat count)) by lia.
    set (n := Z.to_nat (page - 1)) in *. set (k := Z.to_nat count) in *.
    assert (En : ((page - 1) * count)%Z = Z.of_nat (n * k)) by lia.
    exists (firstn k (skipn (n * k) db)). split; [|split; [|split]].
    + rewrite Ep, Ec. apply list_by_page_nat; lia.
    + pose proof (firstn_le_length k (skipn (n * k) db)). lia.
    + intros x Hx. apply in_firstn in Hx.
      rewrite <- (firstn_skipn (n * k) db). apply in_or_app. now right.
    + intro H. rewrite skipn_all2; [now rewrite firstn_nil | lia].
  - intros page' count' H. unfold DownloadHistoryModel.list_by_page.
    now rewrite H.
Qed.

Lemma page_is_bounded_witness :
  (exists rows,
      DownloadHistoryModel.list_by_page [1; 2; 3; 4; 5]%nat 2 2 = Ok rows
      /\ (Z.of_nat (List.length rows) <= 2)%Z
      /\ incl rows [1; 2; 3; 4; 5]%nat
      /\ ((Z.of_nat (List.length [1; 2; 3; 4; 5]%nat) <= (2 - 1) * 2)%Z ->
          rows = []))
  /\ (forall page' count',
         DownloadHistoryModel.fits_integer ((page' - 1) * count')
         && DownloadHistoryModel.fits_integer count' = false ->
         DownloadHistoryModel.list_by_page [1; 2; 3; 4; 5]%nat page' count'
         = Raise OverflowError).
Proof.
  apply (page_is_bounded [1; 2; 3; 4; 5]%nat 2 2); reflexivity || discriminate.
Defined.

(** X20.  The pages of the download history follow one another without
    gap or overlap: as long as the offset of the last of them is an
    integer of 64 bits, pages 1 to [n] of size [count] are all returned
    and, one after the other, are the first [n * count] rows of the
    table; with the default arguments the first page is the first 30
    rows. *)
Theorem pages_tile_the_table {A : Type} (db : list A) n count :
  (Z.of_nat (n * count) < 2 ^ 63)%Z ->
  (exists pages,
      rmap (fun i => DownloadHistoryModel.list_by_page
                       db (Z.of_nat (S i)) (Z.of_nat count))
           (seq 0 n)
      = Ok pages
      /\ concat pages = firstn (n * count) db)
  /\ oper_list_by_page db None None = Ok (firstn 30 db).
Proof.
  intro Hb. split.
  - induction n as [|n IH]; [now exists []|].
    destruct IH as (pages & E & C); [lia|].
    exists (pages ++ [firstn count (skipn (n * count) db)])%list. split.
    + rewrite seq_S. cbn [Nat.add].
      assert (R : forall (f : nat -> result (list A)) l ps x p,
                 rmap f l = Ok ps -> f x = Ok p ->
                 rmap f (l ++ [x])%list = Ok (ps ++ [p])%list).
      { intros f l. induction l as [|a l IHl]; intros ps x p El Ex; cbn in *.
        - injection El as <-. now rewrite Ex.
        - destruct (f a) as [b|]; [|discriminate].
          destruct (rmap f l) as [bs|] eqn:Er; [|discriminate].
          injection El as <-. now rewrite (IHl bs x p eq_refl Ex). }
      apply R; [exact E|]. apply list_by_page_nat; lia.
    + rewrite concat_app, C. cbn [concat]. rewrite app_nil_r.
      replace (S n * count)%nat with (n * count + count)%nat by lia.
      now rewrite firstn_plus.
  - unfold oper_list_by_page.
    change 1%Z with (Z.of_nat 1). change 30%Z with (Z.of_nat 30).
    now rewrite list_by_page_nat.
Qed.

Lemma pages_tile_the_table_witness :
  (exists pages,
      rmap (fun i => DownloadHistoryModel.list_by_page
                       [1; 2; 3; 4; 5]%nat (Z.of_nat (S i)) (Z.of_nat 2))
           (seq 0 2)
      = Ok pages
      /\ concat pages = firstn (2 * 2) [1; 2; 3; 4; 5]%nat)
  /\ oper_list_by_page [1; 2; 3; 4; 5]%nat None None
     = Ok (firstn 30 [1; 2; 3; 4; 5]%nat).
Proof.
  apply (pages_tile_the_table [1; 2; 3; 4; 5]%nat 2 2). reflexivity.
Defined.

(** ** The state after a run *)

(** X21.  A run that takes place leaves [get_state()] true, also when
    it has finished and has stored a configuration in which every
    switch is off: [init_plugin] does not reset its attributes.  Only
    reading the stored configuration again brings the state to false. *)
Theorem state_outlives_the_run files c s :
  nonempty (nt_db_path c) = true ->
  truthy (transfer c) || truthy (plugin c) || truthy (download c) = true ->
  get_state (final (init_plugin files (Some c) s)) = true
  /\ forall c' files' s',
       stored_config (emitted (init_plugin files (Some c) s)) = Some c' ->
       get_state (final (init_plugin files' (Some c') s')) = false.
Proof.
  intros Hp Hsw. split.
  - rewrite final_init_plugin. unfold get_state. cbn. now rewrite Hsw.
  - intros c' files' s' Hst. rewrite final_init_plugin.
    assert (R : runs c = true) by (unfold runs; now rewrite Hp, Hsw).
    rewrite init_plugin_unfold, R in Hst.
    destruct (value (import_all files (attributes_of c) (attributes_of c)))
      as [[]|e] eqn:V.
    + destruct (import_all_ends_with_update _ _ _ _ V) as (evs & E).
      rewrite E, stored_config_last in Hst. injection Hst as <-. reflexivity.
    + pose proof (import_all_raised_stores_nothing _ _ _ _ V) as F.
      exfalso. clear -F Hst.
      induction F as [|ev evs Hev _ IH]; cbn in Hst; [discriminate|].
      destruct (stored_config evs); [now apply IH|].
      destruct ev; discriminate.
Qed.

Lemma state_outlives_the_run_witness :
  get_state (final (init_plugin sample_files (Some sample_config) fresh)) = true
  /\ forall c' files' s',
       stored_config (emitted (init_plugin sample_files (Some sample_config)
                                           fresh)) = Some c' ->
       get_state (final (init_plugin files' (Some c') s')) = false.
Proof.
  apply (state_outlives_the_run sample_files sample_config fresh); reflexivity.
Defined.

(** ** The key of a transfer record, in general *)

Lemma prefix_app_self old rest : prefix old (old ++ rest) = true.
Proof.
  induction old as [|a old IH]; cbn; [now destruct rest|].
  destruct (ascii_dec a a); [exact IH | congruence].
Qed.

Lemma slice_from_app old rest :
  slice_from (String.length old) (old ++ rest) = rest.
Proof. induction old; cbn; auto. Qed.

Lemma replace_at_head a old' new rest :
  PyStr.replace (String a old') new (String a old' ++ rest)
  = new ++ PyStr.replace (String a old') new rest.
Proof.
  unfold PyStr.replace.
  rewrite (replace_scan_found a old' new (String a old' ++ rest) 0).
  - cbn [slice_to Nat.add append]. f_equal. f_equal.
    exact (slice_from_app (String a old') rest).
  - pose proof (prefix_app_self (String a old') rest) as P.
    cbn [append] in P |- *. cbn [index]. now rewrite P.
Qed.

Lemma ascii_byte_is_a_code_point c s :
  (N_of_ascii c < 128)%N ->
  forall need acc l,
    PyStr.code_points_go need acc s = Some l ->
    free_of c s = false -> In (N_of_ascii c) l.
Proof.
  intro Hc. induction s as [|b s IH]; intros need acc l D F;
    [discriminate F|].
  cbn [free_of] in F. cbn [PyStr.code_points_go] in D.
  destruct need as [|k].
  - destruct (N.ltb_spec (N_of_ascii b) 128) as [Lb|Gb].
    + destruct (PyStr.code_points_go 0 0 s) as [l'|] eqn:D'; [|discriminate D].
      injection D as <-.
      destruct (Ascii.eqb_spec b c) as [->|Nbc]; [now left|].
      right. apply (IH 0%nat 0%N); [exact D' | exact F].
    + assert (Nbc : Ascii.eqb b c = false).
      { destruct (Ascii.eqb_spec b c) as [->|]; [lia | reflexivity]. }
      rewrite Nbc in F. cbn [negb andb] in F.
      destruct (N_of_ascii b <? 192)%N; [discriminate D|].
      destruct (N_of_ascii b <? 224)%N; [now apply (IH _ _ _ D)|].
      destruct (N_of_ascii b <? 240)%N; [now apply (IH _ _ _ D)|].
      destruct (N_of_ascii b <? 248)%N; [now apply (IH _ _ _ D)|].
      discriminate D.
  - destruct (N.leb_spec 128 (N_of_ascii b)) as [Gb|Lb];
      cbn [andb] in D; [|discriminate D].
    assert (Nbc : Ascii.eqb b c = false).
    { destruct (Ascii.eqb_spec b c) as [->|]; [lia | reflexivity]. }
    rewrite Nbc in F. cbn [negb andb] in F.
    destruct (N_of_ascii b <? 192)%N; [|discriminate D].
    destruct k as [|k'].
    + destruct (PyStr.code_points_go 0 0 s) as [l'|] eqn:D'; [|discriminate D].
      injection D as <-. right. apply (IH 0%nat 0%N); [exact D' | exact F].
    + now apply (IH _ _ _ D).
Qed.

(** A text made of digits holds no ASCII character that is not one. *)
Lemma digits_free c s :
  (N_of_ascii c < 128)%N -> PyStr.is_digit_point (N_of_ascii c) = false ->
  PyStr.isdigit s = true -> free_of c s = true.
Proof.
  intros Hc Hn Hd. unfold PyStr.isdigit, PyStr.code_points in Hd.
  destruct (PyStr.code_points_go 0 0 s) as [[|cp cps]|] eqn:D;
    try discriminate Hd.
  destruct (free_of c s) eqn:F; [reflexivity|]. exfalso.
  pose proof (ascii_byte_is_a_code_point c s Hc _ _ _ D F) as I.
  rewrite forallb_forall in Hd. rewrite (Hd _ I) in Hn. discriminate Hn.
Qed.

(** X22.  When the downloader index [k0] of a key [k0-h] of
    [TorrentTransfer] is made of digits and is, as an integer, the
    source of the rule [d0:d1], the key becomes [d1], ['-'], and [h] in
    which every occurrence of the text [k0] has become [d1] too; it is
    [d1-h] exactly as written when [k0] does not occur in [h].  The
    comparison is between integers: [01] and [1] match. *)
Theorem matching_rule_rewrites_the_key k0 h d0 d1 tl j :
  PyStr.isdigit k0 = true ->
  PyStr.int k0 = Ok j -> PyStr.int d0 = Ok j ->
  remap_key (d0 :: d1 :: tl) (k0 ++ "-" ++ h)
  = Ok (d1 ++ "-" ++ PyStr.replace k0 d1 h)
  /\ (index 0 k0 h = None ->
      remap_key (d0 :: d1 :: tl) (k0 ++ "-" ++ h) = Ok (d1 ++ "-" ++ h)).
Proof.
  intros Hd Hk Hj.
  assert (E : remap_key (d0 :: d1 :: tl) (k0 ++ "-" ++ h)
              = Ok (d1 ++ "-" ++ PyStr.replace k0 d1 h)).
  { destruct k0 as [|a k0']; [discriminate|].
    assert (F : free_of "-" (String a k0') = true)
      by (apply digits_free; [reflexivity | reflexivity | exact Hd]).
    unfold remap_key.
    change (String a k0' ++ "-" ++ h) with (String a k0' ++ String "-" h).
    rewrite (split_app "-" _ h F). cbn [PyStr.item nth_error rbind].
    rewrite Hd, Hk. cbn [rbind]. rewrite Hj. cbn [rbind].
    rewrite Z.eqb_refl. f_equal.
    rewrite replace_at_head. f_equal.
    unfold PyStr.replace. cbn [PyStr.replace_scan prefix append].
    cbn in F. apply andb_true_iff in F as [Fa _].
    destruct (ascii_dec a "-") as [->|N]; [discriminate | reflexivity]. }
  split; [exact E|].
  intro Hn. rewrite E.
  pose proof (replace_by_first_occurrence k0 d1 h) as R.
  rewrite Hn in R. rewrite R; [reflexivity|].
  intros ->. discriminate.
Qed.

Lemma matching_rule_rewrites_the_key_witness :
  remap_key ["1"; "2"] ("01" ++ "-" ++ "abc123")
  = Ok ("2" ++ "-" ++ PyStr.replace "01" "2" "abc123")
  /\ (index 0 "01" "abc123" = None ->
      remap_key ["1"; "2"] ("01" ++ "-" ++ "abc123")
      = Ok ("2" ++ "-" ++ "abc123")).
Proof.
  apply (matching_rule_rewrites_the_key "01" "abc123" "1" "2" [] 1%Z);
    reflexivity.
Defined.
